(** * WEkEO HDA notebooks: a shallow embedding of the notebook scripts

    The repository is a set of Jupyter notebooks that drive the WEkEO
    Harmonised Data Access (HDA) REST API through the helper module
    [hda_api_functions] and then plot the downloaded products.  This file
    embeds the code cells of the three notebooks

    - [wekeo_harmonized_data_access_api] (the HDA how-to),
    - [20_sentinel3_OLCI_L1_retrieve],
    - [Marine_heatwaves_S3_CMEMS],

    together with the text that the how-to notebook recorded on its standard
    output, and proves properties of them. *)

From Stdlib Require Import ZArith Lia Bool Ascii String DecimalString.
From Stdlib Require Import Sorting.Sorted Sorting.Permutation OrderedTypeEx.
From Stdlib Require Import QArith DecimalZ.
From stdpp Require Import base list strings gmap sorting.

Set Warnings "-register-all".

Local Open Scope string_scope.
Local Open Scope Z_scope.

(** ** Python values and string primitives used by the cells *)

Module Py.

(** [str(n)] for a Python [int]. *)
Definition str (n : Z) : string := NilZero.string_of_int (Z.to_int n).

(** [s.split(sep)] for a one-character separator: the pieces between the
    occurrences of [sep]; the result always has at least one piece. *)
Fixpoint split (sep : ascii) (s : string) : list string :=
  match s with
  | EmptyString => [EmptyString]
  | String c rest =>
      if Ascii.eqb c sep then EmptyString :: split sep rest
      else match split sep rest with
           | [] => [String c EmptyString]
           | p :: ps => String c p :: ps
           end
  end.

(** [l[0]] on a list of strings; [split] never returns the empty list, the
    default is not reached from the cells. *)
Definition first (l : list string) : string := List.hd EmptyString l.

(** [sub in s]: substring test. *)
Fixpoint contains (sub s : string) : bool :=
  String.prefix sub s
  || match s with
     | EmptyString => false
     | String _ rest => contains sub rest
     end.

(** [s.startswith(c)] and [s.endswith(c)] for one character. *)
Definition startswith (c : ascii) (s : string) : bool :=
  match s with
  | String d _ => Ascii.eqb c d
  | EmptyString => false
  end.

Fixpoint endswith (c : ascii) (s : string) : bool :=
  match s with
  | EmptyString => false
  | String d EmptyString => Ascii.eqb c d
  | String _ rest => endswith c rest
  end.

(** [os.path.join(a, b)] of [posixpath]: an absolute [b] discards [a]; an
    empty [a] or one that ends with a slash takes [b] as it is; otherwise a
    slash is put between the two. *)
Definition path_join (a b : string) : string :=
  if startswith "/" b then b
  else if (String.eqb a "" || endswith "/" a)%bool then a ++ b
  else a ++ "/" ++ b.

(** [a < b] on [str]: code-point order, which on the one-byte characters of
    these file names is the order of [String.compare]. *)
Definition lt (a b : string) : bool := String.ltb a b.

(** [a <= b] on [str]: not [b < a]. *)
Definition le (a b : string) : Prop := lt b a = false.

(** Every string of [l] is [<] the strings after it. *)
Fixpoint increasing (l : list string) : bool :=
  match l with
  | [] => true
  | x :: l' => forallb (lt x) l' && increasing l'
  end.

(** [sorted(l)] on a list of strings.  Python's sort is stable and only
    ever asks [<]; insertion from the right with the same test gives the
    same list. *)
Fixpoint insert_sorted (x : string) (l : list string) : list string :=
  match l with
  | [] => [x]
  | y :: l' => if lt y x then y :: insert_sorted x l' else x :: y :: l'
  end.

Definition sorted (l : list string) : list string :=
  List.fold_right insert_sorted [] l.

(** [range(a, b)] *)
Definition range (a b : Z) : list Z :=
  List.map (fun i => a + Z.of_nat i) (List.seq 0 (Z.to_nat (b - a))).

(** The highest index of [c] in [s], counted from [i], or [-1]. *)
Fixpoint rfind_from (c : ascii) (s : string) (i : Z) : Z :=
  match s with
  | EmptyString => -1
  | String d rest =>
      let r := rfind_from c rest (i + 1) in
      if (0 <=? r) then r else if Ascii.eqb c d then i else -1
  end.

(** [s.rfind(c)]: the highest index of [c] in [s], or [-1]. *)
Definition rfind (c : ascii) (s : string) : Z := rfind_from c s 0.

(** [s[a:b]] for [0 <= a <= b]. *)
Definition slice (a b : Z) (s : string) : string :=
  String.substring (Z.to_nat a) (Z.to_nat (b - a)) s.

(** The [while filenameIndex < dotIndex] loop of [_splitext]: is there a
    character other than a dot in [p[filenameIndex:dotIndex]]? *)
Fixpoint has_non_dot (s : string) : bool :=
  match s with
  | EmptyString => false
  | String d rest => negb (Ascii.eqb d ".") || has_non_dot rest
  end.

(** [os.path.splitext(p)] of [posixpath], which is [genericpath._splitext]
    with [sep = '/'] and [extsep = '.']: the extension starts at the last
    dot of the last path component, unless that component has nothing but
    dots before it. *)
Definition splitext (p : string) : string * string :=
  let sepIndex := rfind "/" p in
  let dotIndex := rfind "." p in
  let n := Z.of_nat (String.length p) in
  if (sepIndex <? dotIndex)
     && has_non_dot (slice (sepIndex + 1) dotIndex p)
  then (slice 0 dotIndex p, slice dotIndex n p)
  else (p, EmptyString).

(** [os.path.dirname(p)] of [posixpath]: the part before the last slash,
    without its trailing slashes unless it is all slashes. *)
Fixpoint all_slashes (s : string) : bool :=
  match s with
  | EmptyString => true
  | String d rest => Ascii.eqb d "/" && all_slashes rest
  end.

Fixpoint rstrip_slash (s : string) : string :=
  match s with
  | EmptyString => EmptyString
  | String d rest =>
      if all_slashes s then EmptyString else String d (rstrip_slash rest)
  end.

Definition dirname (p : string) : string :=
  let i := rfind "/" p + 1 in
  let head := slice 0 i p in
  if all_slashes head then head else rstrip_slash head.

(** The end of a printed line. *)
Definition nl : string := String (ascii_of_nat 10) EmptyString.

(** Python objects, as far as the cells look into them: the JSON-like
    values that [hda_dict] and the query hold.  A [dict] keeps its items in
    insertion order.  A float is kept as the rational its literal writes;
    the cells compare floats but do no arithmetic that rounds. *)
Inductive value :=
| VNone
| VBool (b : bool)
| VInt (n : Z)
| VFloat (q : Q)
| VStr (s : string)
| VList (l : list value)
| VDict (d : list (string * value)).

(** The exceptions the cells can meet. *)
Inductive exn :=
| NameError (name : string)
| KeyError (key : string)
| IndexError
| TypeError
| OtherError (what : string).

(** How a statement ends: normally with a value, with an exception on its
    way up, or not within the steps allowed to a loop. *)
Inductive outcome (A : Type) :=
| Ret (a : A)
| Raise (e : exn)
| Timeout.
Arguments Ret {A} a.
Arguments Raise {A} e.
Arguments Timeout {A}.

(** The next expression is evaluated if this one did not raise. *)
Definition and_then {A B} (o : outcome A) (k : A -> outcome B)
  : outcome B :=
  match o with
  | Ret a => k a
  | Raise e => Raise e
  | Timeout => Timeout
  end.

Fixpoint assoc (k : string) (d : list (string * value)) : option value :=
  match d with
  | [] => None
  | (k', v) :: d' => if String.eqb k k' then Some v else assoc k d'
  end.

(** [d[k] = v] on the items of a dict: an existing key keeps its place. *)
Fixpoint assoc_set (k : string) (v : value) (d : list (string * value))
  : list (string * value) :=
  match d with
  | [] => [(k, v)]
  | (k', v') :: d' =>
      if String.eqb k k' then (k, v) :: d' else (k', v') :: assoc_set k v d'
  end.

(** [o[k]] for a string key. *)
Definition getitem (o : value) (k : string) : outcome value :=
  match o with
  | VDict d => match assoc k d with
               | Some v => Ret v
               | None => Raise (KeyError k)
               end
  | _ => Raise TypeError
  end.

(** [o[i]] for a non-negative integer index: the [i]-th element of a
    list, the [i]-th character of a string; a dictionary is looked up
    under the key [i], which a dictionary with string keys does not
    have. *)
Definition getindex (o : value) (i : nat) : outcome value :=
  match o with
  | VList l => match List.nth_error l i with
               | Some v => Ret v
               | None => Raise IndexError
               end
  | VStr s => match String.get i s with
              | Some c => Ret (VStr (String c EmptyString))
              | None => Raise IndexError
              end
  | VDict _ => Raise (KeyError (str (Z.of_nat i)))
  | _ => Raise TypeError
  end.

(** [o[k] = v] for a string key. *)
Definition setitem (o : value) (k : string) (v : value) : outcome value :=
  match o with
  | VDict d => Ret (VDict (assoc_set k v d))
  | _ => Raise TypeError
  end.

(** The integer a value stands for, if it is one; [True] and [False] are
    the integers 1 and 0. *)
Definition integer (a : value) : option Z :=
  match a with
  | VInt x => Some x
  | VBool b => Some (if b then 1 else 0)
  | _ => None
  end.

(** The number a value stands for, if it is one.  Python compares an
    [int] with a [float] by their exact values. *)
Definition number (a : value) : option Q :=
  match a with
  | VFloat q => Some q
  | _ => option_map inject_Z (integer a)
  end.

(** [a < b] on numbers; anything else is a [TypeError]. *)
Definition less (a b : value) : outcome bool :=
  match number a, number b with
  | Some x, Some y => Ret (negb (Qle_bool y x))
  | _, _ => Raise TypeError
  end.

(** [a + b] on numbers: an [int] if both are, a [float] otherwise;
    anything else is a [TypeError].  A [float] is kept as the rational it
    stands for: the sum of two floats is exact here, where Python rounds
    it. *)
Definition add (a b : value) : outcome value :=
  match integer a, integer b with
  | Some x, Some y => Ret (VInt (x + y))
  | _, _ =>
      match number a, number b with
      | Some x, Some y => Ret (VFloat (x + y))
      | _, _ => Raise TypeError
      end
  end.

(** [s.replace(a, b)] for one-character [a] and [b]. *)
Fixpoint replace (a b : ascii) (s : string) : string :=
  match s with
  | EmptyString => EmptyString
  | String c rest =>
      String (if Ascii.eqb c a then b else c) (replace a b rest)
  end.

(** [repr] of a string: between single quotes, or between double quotes
    if it holds a single quote and no double quote; the backslash, the
    quote in use, the newline, the return, the tab and the other control
    characters are escaped. *)
Definition double_quote : ascii := Ascii.ascii_of_nat 34.

Definition hex_digit (n : nat) : string :=
  match String.get n "0123456789abcdef" with
  | Some c => String c EmptyString
  | None => EmptyString
  end.

Definition escaped (quote c : ascii) : string :=
  let n := Ascii.nat_of_ascii c in
  if Ascii.eqb c "\" then "\\"
  else if Ascii.eqb c quote then String "\" (String c EmptyString)
  else if (n =? 10)%nat then "\n"
  else if (n =? 13)%nat then "\r"
  else if (n =? 9)%nat then "\t"
  else if ((n <? 32) || (n =? 127))%nat
       then "\x" ++ hex_digit (n / 16) ++ hex_digit (n mod 16)
       else String c EmptyString.

Definition repr_str (s : string) : string :=
  let chars := list_ascii_of_string s in
  let quote :=
    if (existsb (Ascii.eqb "'") chars
        && negb (existsb (Ascii.eqb double_quote) chars))%bool
    then double_quote else "'"%char in
  String quote (String.concat "" (List.map (escaped quote) chars)
                ++ String quote EmptyString).

(** [repr] of a float that is a whole number of fewer than 17 digits: the
    number, a point and a zero.  The digits of the other floats are not
    modelled: they are written as the fraction the float is kept as. *)
Definition repr_float (q : Q) : string :=
  let n := (Qnum q / Zpos (Qden q))%Z in
  if (Qeq_bool q (inject_Z n) && (Z.abs n <? 10 ^ 16))%bool
  then str n ++ ".0"
  else str (Qnum q) ++ "/" ++ str (Zpos (Qden q)).

(** [str(o)] of the values the cells print, after Python's [repr]. *)
Fixpoint repr (v : value) : string :=
  match v with
  | VNone => "None"
  | VBool true => "True"
  | VBool false => "False"
  | VInt n => str n
  | VFloat q => repr_float q
  | VStr s => repr_str s
  | VList l => "[" ++ String.concat ", " (List.map repr l) ++ "]"
  | VDict d =>
      "{" ++ String.concat ", "
               (List.map (fun kv => let '(k, x) := kv in
                                    repr_str k ++ ": " ++ repr x) d)
      ++ "}"
  end.

(** [s.replace(old, new)] for a non-empty [old]: the occurrences are taken
    from the left and do not overlap; [skip] counts the characters of an
    occurrence that are still to be dropped. *)
Fixpoint replace_from (old new : string) (skip : nat) (s : string)
  : string :=
  match s with
  | EmptyString => EmptyString
  | String c rest =>
      match skip with
      | S k => replace_from old new k rest
      | O =>
          if String.prefix old s
          then new ++ replace_from old new (String.length old - 1) rest
          else String c (replace_from old new 0 rest)
      end
  end.

Definition replace_str (old new s : string) : string :=
  replace_from old new 0 s.

(** What ['{}'.format(o)] writes. *)
Definition format_value (o : value) : string :=
  match o with
  | VStr s => s
  | _ => repr o
  end.

(** The items a [for] loop draws from [o]. *)
Definition iterate (o : value) : outcome (list value) :=
  match o with
  | VList l => Ret l
  | VDict d => Ret (List.map (fun kv => VStr (fst kv)) d)
  | VStr s =>
      Ret (List.map (fun c => VStr (String c EmptyString))
                    (list_ascii_of_string s))
  | _ => Raise TypeError
  end.

(** A value where a path is expected. *)
Definition as_str (o : value) : outcome string :=
  match o with
  | VStr s => Ret s
  | _ => Raise TypeError
  end.

(** [o[i] = v] for a non-negative integer index. *)
Definition setindex (o : value) (i : nat) (v : value) : outcome value :=
  match o with
  | VList l => if (i <? List.length l)%nat then Ret (VList (<[i:=v]> l))
               else Raise IndexError
  | _ => Raise TypeError
  end.

End Py.

(** ** The SST time-series cells of the marine-heatwaves notebook *)

Module SST.

Definition REP_dataset : string :=
  "EO:MO:DAT:SST_GLO_SST_L4_REP_OBSERVATIONS_010_011".
Definition NRT_dataset : string :=
  "EO:MO:DAT:SST_GLO_SST_L4_NRT_OBSERVATIONS_010_001".

(** One entry of [zip(start_dates, end_dates, dataset_ids)]. *)
Record request := {
  start_date : string;
  end_date : string;
  dataset_id : string
}.

(** The body shared by the two [for ii in range(..)] loops that fill
    [start_dates], [end_dates] and [dataset_ids]. *)
Definition year_request (dataset : string) (ii : Z) : request :=
  {| start_date := Py.str ii ++ "-01-01T00:00:00.000Z";
     end_date := Py.str ii ++ "-12-31T00:00:00.000Z";
     dataset_id := dataset |}.

(** The three lists after both loops, zipped. *)
Definition requests : list request :=
  (List.map (year_request REP_dataset) (Py.range 2008 (2019 + 1))
   ++ List.map (year_request NRT_dataset) (Py.range 2020 (2021 + 1)))%list.

(** [date_tag = start_date.split('T')[0] + '_' + end_date.split('T')[0]] *)
Definition date_tag (r : request) : string :=
  Py.first (Py.split "T" (start_date r)) ++ "_"
  ++ Py.first (Py.split "T" (end_date r)).

(** [if 'NRT' in dataset_id: tag = 'XNRT' else: tag = 'REP'] *)
Definition tag (r : request) : string :=
  if Py.contains "NRT" (dataset_id r) then "XNRT" else "REP".

(** ['METOFFICE-GLO-SST-L4-{0}_{1}.nc'.format(tag, date_tag)] *)
Definition user_filename (r : request) : string :=
  "METOFFICE-GLO-SST-L4-" ++ tag r ++ "_" ++ date_tag r ++ ".nc".

(** The files the download loop names, in the order it runs, as paths
    under [download_dir_path]. *)
Definition downloaded (download_dir_path : string) : list string :=
  List.map (fun r => Py.path_join download_dir_path (user_filename r))
           requests.

(** [SST_files]: [for SST_file in sorted(my_files): SST_files.append(..)],
    where [my_files] is what [glob.glob] returned. *)
Definition SST_files (my_files : list string) : list string :=
  List.fold_left (fun acc f => (acc ++ [f])%list) (Py.sorted my_files) [].

(** The file names in the order of time, as the notebook means them: the
    reprocessed product for 2008 to 2019, then the near-real-time product
    for 2020 and 2021, a file a year. *)
Definition file_of_year (tag : string) (year : Z) : string :=
  "METOFFICE-GLO-SST-L4-" ++ tag ++ "_" ++ Py.str year ++ "-01-01_"
  ++ Py.str year ++ "-12-31.nc".

Definition in_time_order : list string :=
  (List.map (file_of_year "REP")
     [2008; 2009; 2010; 2011; 2012; 2013; 2014; 2015; 2016; 2017; 2018;
      2019]
   ++ List.map (file_of_year "XNRT") [2020; 2021])%list.

End SST.



(** ** Running cells

    A cell runs against the world outside the notebook (the HDA server, the
    disk, the plotting libraries).  What it asks of that world is logged in
    the order it asks it; what is printed is collected as the text written
    to the standard output.  Statements run one after the other, and so do
    the cells of a notebook run from its first cell to its last: an
    exception that nothing handles ends the run. *)

Module Nb.
Import Py.

(** The calls that leave the notebook. *)
Inductive call :=
| GenerateApiKey
| Init (dataset_id api_key download_dir_path : string)
| GetAccessToken
| AcceptTandC
| GetJobId
| GetResultsList (page : option Z)
| GetOrderIds
| DownloadData (file_extension user_filename : option string)
| Display
| Getcwd
| PathExists (path : string)
| Makedirs (path : string)
| JsonLoad (path : string)
| ReadText (path : string)
| Glob (pattern : string)
| Extractall (zip dir : string)
| Remove (path : string)
| Analysis (what : string).

(** A function of the outside world: its result, the world after it, and
    the text it wrote. *)
Definition ext (W A : Type) : Type := W -> outcome A * W * list string.

(** The helper module [hda_api_functions] and the library functions the
    cells call.  The helper module is not part of the notebooks; the cells
    are embedded over any implementation of it. *)
Class Kernel (W : Type) := {
  generate_api_key : string -> string -> ext W string;
  init : string -> string -> string -> ext W value;
  get_access_token : value -> ext W value;
  acceptTandC : value -> ext W value;
  get_job_id : value -> value -> ext W value;
  (* keyword arguments [page] and [verbose] *)
  get_results_list : value -> option Z -> option bool -> ext W value;
  get_order_ids : value -> ext W value;
  (* keyword arguments [file_extension] and [user_filename] *)
  download_data : value -> option string -> option string -> ext W value;
  display : string -> ext W unit;
  getcwd : ext W string;
  path_exists : string -> ext W bool;
  makedirs : string -> ext W unit;
  (* [with open(path, 'r') as f: json.load(f)] *)
  json_load : string -> ext W value;
  (* [with open(path, 'r') as f: f.read()] *)
  read_text : string -> ext W string;
  json_loads : string -> outcome value;
  glob : string -> ext W (list string);
  (* [with ZipFile(zip, 'r') as zipObj: zipObj.extractall(dir)] *)
  extractall : string -> string -> ext W unit;
  remove : string -> ext W unit;
  (* a step of numeric analysis or plotting, named after what it makes *)
  analysis : string -> list string -> ext W unit
}.

Record state (W : Type) := State {
  world : W;
  stdout : list string;
  log : list call
}.
Arguments State {W}.
Arguments world {W}.
Arguments stdout {W}.
Arguments log {W}.

Definition M (W A : Type) : Type := state W -> outcome A * state W.

Section Monad.
Context {W : Type}.

Definition ret {A} (a : A) : M W A := fun s => (Ret a, s).

Definition bind {A B} (m : M W A) (k : A -> M W B) : M W B := fun s =>
  match m s with
  | (Ret a, s') => k a s'
  | (Raise e, s') => (Raise e, s')
  | (Timeout, s') => (Timeout, s')
  end.

Definition raise {A} (e : exn) : M W A := fun s => (Raise e, s).

Definition timeout {A} : M W A := fun s => (Timeout, s).

(** The value of an expression that may raise. *)
Definition eval {A} (o : outcome A) : M W A := fun s => (o, s).

(** A call to the outside, logged as [c]. *)
Definition invoke {A} (c : call) (f : ext W A) : M W A := fun s =>
  let '(r, w, out) := f (world s) in
  (r, {| world := w;
         stdout := (stdout s ++ out)%list;
         log := (log s ++ [c])%list |}).

(** [print(x)] *)
Definition print (x : string) : M W unit := fun s =>
  (Ret tt, {| world := world s;
              stdout := (stdout s ++ [(x ++ nl)%string])%list;
              log := log s |}).

(** The value of the name [x] where the names in [bound] are bound. *)
Definition name (bound : list string) (x : string) : M W unit :=
  if existsb (String.eqb x) bound then ret tt else raise (NameError x).

(** [try: body / except: handler]: a bare [except] takes every
    exception; a loop that does not end is not one. *)
Definition try_except {A} (body handler : M W A) : M W A := fun s =>
  match body s with
  | (Raise _, s') => handler s'
  | r => r
  end.

End Monad.

Declare Scope nb_scope.
Delimit Scope nb_scope with nb.
Notation "x <- m ;; k" := (bind m (fun x => k))
  (at level 100, m at next level, right associativity) : nb_scope.
Notation "m ;; k" := (bind m (fun _ => k))
  (at level 100, right associativity) : nb_scope.
Local Open Scope nb_scope.

Section Loops.
Context {W : Type}.

(** [for x in l: body] *)
Fixpoint for_each {A} (l : list A) (body : A -> M W unit) : M W unit :=
  match l with
  | [] => ret tt
  | x :: l' => body x ;; for_each l' body
  end.

(** [for x in l: body] over the variables [v] the loop changes. *)
Fixpoint for_in {A V} (l : list A) (body : A -> V -> M W V) (v : V)
  : M W V :=
  match l with
  | [] => ret v
  | x :: l' => v' <- body x v ;; for_in l' body v'
  end.

(** [while cond: body] over the variables [v] the loop changes, allowed
    [fuel] tests of the condition. *)
Fixpoint while {V} (fuel : nat) (cond : V -> M W bool)
         (body : V -> M W V) (v : V) : M W V :=
  match fuel with
  | O => timeout
  | S fuel' =>
      b <- cond v ;;
      if b : bool then v' <- body v ;; while fuel' cond body v'
      else ret v
  end.

End Loops.

(** The state after [s] once the world has become [w], [out] has been
    written and [calls] have been made. *)
Definition after {W} (s : state W) (w : W) (out : list string)
           (calls : list call) : state W :=
  {| world := w;
     stdout := (stdout s ++ out)%list;
     log := (log s ++ calls)%list |}.

(** From [s] to [s'] only calls that satisfy [P] have been made. *)
Definition adds {W} (P : call -> Prop) (s s' : state W) : Prop :=
  exists calls, log s' = (log s ++ calls)%list /\ Forall P calls.

(** A fresh kernel in the world [w]. *)
Definition start {W} (w : W) : state W :=
  {| world := w; stdout := []; log := [] |}.

End Nb.

(** ** The stages of the HDA workflow *)

Module Workflow.
Import Nb.

(** The place of a call in the workflow: the session (the API key, [init],
    [get_access_token], [acceptTandC]), the job ([get_job_id]), the results
    and their orders ([get_results_list], [get_order_ids]), the download
    ([download_data]), then analysis and plotting.  The other calls, to the
    operating system, are of no stage. *)
Definition rank (c : call) : option nat :=
  match c with
  | GenerateApiKey => Some 0%nat
  | Init _ _ _ => Some 1%nat
  | GetAccessToken => Some 2%nat
  | AcceptTandC => Some 3%nat
  | GetJobId => Some 4%nat
  | GetResultsList _ => Some 5%nat
  | GetOrderIds => Some 6%nat
  | DownloadData _ _ => Some 7%nat
  | Analysis _ => Some 8%nat
  | _ => None
  end.

(** The ranks of the calls of a log that have one. *)
Definition ranks (calls : list call) : list nat := omap rank calls.



End Workflow.

(** ** The HDA how-to notebook, [wekeo_harmonized_data_access_api] *)

Module HowTo.
Import Py Nb.
Local Open Scope nb_scope.

Definition dataset_id : string :=
  "EO:MO:DAT:GLOBAL_ANALYSIS_FORECAST_WAV_001_027:global-analysis-forecast-wav-001-027".

Definition filename : string := "waves_spain_forecast".

(** The API request pasted into the notebook. *)
Definition data : value :=
  VDict [
    ("datasetId", VStr dataset_id);
    ("boundingBoxValues", VList [
       VDict [("name", VStr "bbox");
              ("bbox", VList [
                 VFloat (-9748386572526352 # 1000000000000000);
                 VFloat (4252096810045425 # 100000000000000);
                 VFloat (-5582870716788746 # 10000000000000000);
                 VFloat (4445042413221037 # 100000000000000)])]]);
    ("dateRangeSelectValues", VList [
       VDict [("name", VStr "position");
              ("start", VStr "2021-12-01T00:00:00.000Z");
              ("end", VStr "2021-12-06T00:00:00.000Z")]]);
    ("multiStringSelectValues", VList [
       VDict [("name", VStr "variable");
              ("value", VList [VStr "VHM0_SW1"])]]);
    ("stringChoiceValues", VList [
       VDict [("name", VStr "service");
              ("value", VStr "GLOBAL_ANALYSIS_FORECAST_WAV_001_027-TDS")];
       VDict [("name", VStr "product");
              ("value", VStr "global-analysis-forecast-wav-001-027")]])
  ].

Section Cells.
Context {W : Type} {K : Kernel W}.

(** [hda_dict['results']['content'][0]['filename'] = filename] *)
Definition set_first_filename (hda_dict : value) (filename : string)
  : outcome value :=
  and_then (getitem hda_dict "results") (fun results =>
  and_then (getitem results "content") (fun content =>
  and_then (getindex content 0) (fun item =>
  and_then (setitem item "filename" (VStr filename)) (fun item' =>
  and_then (setindex content 0 item') (fun content' =>
  and_then (setitem results "content" content') (fun results' =>
  setitem hda_dict "results" results')))))).

(** The [try] block of the raw cell that loads the data descriptor from a
    file. *)
Definition try_load : M W (option value) :=
  data <- invoke (JsonLoad "./olci_data_descriptor.json")
                 (json_load "./olci_data_descriptor.json") ;;
  print "Your JSON file:" ;;
  print (repr data) ;;
  ret (Some data).

Definition not_loaded : string :=
  "Your JSON file is not in the correct format, or is not found, please check it!".

(** The raw cell; it leaves [data] bound if the file was loaded. *)
Definition load_descriptor : M W (option value) :=
  try_except try_load (print not_loaded ;; ret None).

(** The code cells, top to bottom; the user's name and password are the
    two strings the user types into the fourth cell. *)
Definition notebook (user_name password : string) : M W value :=
  api_key <- invoke GenerateApiKey (generate_api_key user_name password) ;;
  invoke Display (display ("Your API key is: <b>" ++ api_key ++ "</b>")) ;;
  invoke Getcwd getcwd ;;
  cwd <- invoke Getcwd getcwd ;;
  let download_dir_path := cwd ++ "/data/" in
  hda_dict <- invoke (Init dataset_id api_key download_dir_path)
                     (init dataset_id api_key download_dir_path) ;;
  hda_dict <- invoke GetAccessToken (get_access_token hda_dict) ;;
  hda_dict <- invoke AcceptTandC (acceptTandC hda_dict) ;;
  hda_dict <- invoke GetJobId (get_job_id hda_dict data) ;;
  hda_dict <- invoke (GetResultsList None)
                     (get_results_list hda_dict None None) ;;
  hda_dict <- invoke GetOrderIds (get_order_ids hda_dict) ;;
  hda_dict <- eval (set_first_filename hda_dict filename) ;;
  invoke (DownloadData (Some ".nc") None)
         (download_data hda_dict (Some ".nc") None).

End Cells.

(** What the notebook recorded on the standard output of the cells that
    call [get_job_id], [get_results_list], [get_order_ids] and
    [download_data]. *)
Definition recorded_get_job_id : list string := [
  "Query successfully submitted. Job ID is _AIq3_hSl985LlGXkmNbBe0BIKI" ++ nl;
  "Next check in 5 seconds" ++ nl;
  "Query successfully submitted. Status is running" ++ nl;
  "Next check in 10 seconds" ++ nl;
  "Query successfully submitted. Status is completed" ++ nl
].

Definition recorded_get_results_list : list string := [
  "&service=GLOBAL_ANALYSIS_FORECAST_WAV_001_027-TDS&product=global-analysis-forecast-wav-001-027&t_lo=2021-12-01T00:00:00.000Z&t_hi=2021-12-06T00:00:00.000Z&x_lo=-9.748386572526352&y_hi=42.52096810045425&x_hi=-0.5582870716788746&y_lo=44.45042413221037&variable=VHM0_SW1" ++ nl
].

Definition recorded_get_order_ids : list string := [
  "Query successfully submitted. Order ID is rNwI5K4U0mtVS3jWiHnoaaNuPAc" ++ nl;
  "Next check in 5 seconds" ++ nl;
  "Query successfully submitted. Status is completed" ++ nl
].

Definition recorded_download_data : list string := [
  "Downloading /home/javitausia/Documentos/AIFEM/wekeo-jupyter-lab/wekeo-hda/data/waves_spain_forecast.nc" ++ nl;
  "File size is:     0.21 MB" ++ nl;
  "[==================================================]     16.82 Mbps[    0.21] MB downloaded, 15885.94 kbps" ++ nl;
  "Download complete..." ++ nl;
  "Time Elapsed: 0.013772182999999938 seconds" ++ nl
].

End HowTo.

(** ** The notebook [20_sentinel3_OLCI_L1_retrieve] *)

Module Retrieve.
Import Py Nb.
Local Open Scope nb_scope.

Definition dataset_id : string := "EO:EUM:DAT:SENTINEL-3:OL_1_EFR___".
Definition download_dir_path : string := "../../data/".

Section Cells.
Context {W : Type} {K : Kernel W}.

Definition notebook (user_name password : string) : M W value :=
  (* sys.path.append(os.path.join(os.path.dirname(
       os.path.dirname(os.getcwd())), 'wekeo-hda')) *)
  invoke Getcwd getcwd ;;
  api_key <- invoke GenerateApiKey (generate_api_key user_name password) ;;
  hda_dict <- invoke (Init dataset_id api_key download_dir_path)
                     (init dataset_id api_key download_dir_path) ;;
  hda_dict <- invoke GetAccessToken (get_access_token hda_dict) ;;
  hda_dict <- invoke AcceptTandC (acceptTandC hda_dict) ;;
  data <- invoke (JsonLoad "./olci_data_descriptor.json")
                 (json_load "./olci_data_descriptor.json") ;;
  hda_dict <- invoke GetJobId (get_job_id hda_dict data) ;;
  hda_dict <- invoke (GetResultsList None)
                     (get_results_list hda_dict None None) ;;
  hda_dict <- invoke GetOrderIds (get_order_ids hda_dict) ;;
  (* the last cell does not assign the result *)
  invoke (DownloadData None None) (download_data hda_dict None None) ;;
  ret hda_dict.

End Cells.

End Retrieve.

(** ** The notebook [Marine_heatwaves_S3_CMEMS] *)

Module MHW.
Import Py Nb.
Local Open Scope nb_scope.

(** The SLSTR L2 SST key. *)
Definition dataset_id : string := "EO:EUM:DAT:SENTINEL-3:SL_2_WST___".

(** [os.path.join(JSON_query_dir, dataset_id.replace(':','_') + ".json")] *)
Definition query_file (JSON_query_dir dataset_id : string) : string :=
  path_join JSON_query_dir (replace ":" "_" dataset_id ++ ".json").

(** The names bound when the SLSTR download cell reaches the line that
    reads [asdf]: by the imports, by the cells above, and by the cell
    itself so far; then the built-in names the cells use. *)
Definition bound_at_asdf : list string := [
  "os"; "sys"; "json"; "ZipFile"; "shutil"; "datetime"; "np"; "HTML";
  "xr"; "plt"; "gridspec"; "glob"; "warnings"; "hapi"; "img"; "sstp";
  "mhw";
  "user_name"; "password"; "api_key";
  "download_dir_path"; "JSON_query_dir"; "verbose";
  "dataset_id"; "download_data";
  "JSON_query_file";
  "total_results"; "HAPI_dict"; "f"; "query"; "found_results";
  "page_count";
  "print"; "open"; "display"; "range"; "str"; "zip"; "sorted"; "len";
  "int"; "abs"
].

(** The variables the pagination loop changes. *)
Record paging := {
  HAPI_dict : value;
  total_results : value;
  found_results : value;
  page_count : Z
}.

Section Cells.
Context {W : Type} {K : Kernel W}.

(** The cell that looks for the query file. *)
Definition find_query_file (JSON_query_dir dataset_id : string)
  : M W string :=
  let JSON_query_file := query_file JSON_query_dir dataset_id in
  found <- invoke (PathExists JSON_query_file)
                  (path_exists JSON_query_file) ;;
  (if negb found
   then print ("Query file " ++ JSON_query_file ++ " does not exist")
   else print ("Found JSON query file for " ++ dataset_id)) ;;
  ret JSON_query_file.

(** [while found_results < total_results:] *)
Definition more_pages (v : paging) : M W bool :=
  eval (less (found_results v) (total_results v)).

(** The body of the pagination loop. *)
Definition next_page (verbose : bool) (v : paging) : M W paging :=
  let page_count := page_count v + 1 in
  HAPI_dict <- invoke (GetResultsList (Some page_count))
                 (get_results_list (HAPI_dict v) (Some page_count)
                                   (Some verbose)) ;;
  total_results <-
    eval (and_then (getitem HAPI_dict "results")
                   (fun r => getitem r "totItems")) ;;
  found_results <-
    eval (and_then (getitem HAPI_dict "results") (fun r =>
          and_then (getitem r "itemsInPage") (fun n =>
          add (found_results v) n))) ;;
  print "------------------" ;;
  print ("Found order ids for " ++ format_value found_results ++ " of "
         ++ format_value total_results ++ " products") ;;
  print "------------------" ;;
  print "Getting order ids..." ;;
  HAPI_dict <- invoke GetOrderIds (get_order_ids HAPI_dict) ;;
  print "Downloading data..." ;;
  HAPI_dict <- invoke (DownloadData (Some ".zip") None)
                 (download_data HAPI_dict (Some ".zip") None) ;;
  ret {| HAPI_dict := HAPI_dict;
         total_results := total_results;
         found_results := found_results;
         page_count := page_count |}.

Definition pagination_loop (fuel : nat) (verbose : bool) (v : paging)
  : M W paging :=
  while fuel more_pages (next_page verbose) v.

(** The variables as the loop finds them. *)
Definition before_first_page (HAPI_dict total_results found_results : value)
           (page_count : Z) : paging :=
  {| HAPI_dict := HAPI_dict;
     total_results := total_results;
     found_results := found_results;
     page_count := page_count |}.

(** The first statements of the SLSTR download cell: the session, the
    query, the job. *)
Definition launch_job (api_key download_dir_path JSON_query_file : string)
  : M W value :=
  HAPI_dict <- invoke (Init dataset_id api_key download_dir_path)
                      (init dataset_id api_key download_dir_path) ;;
  HAPI_dict <- invoke GetAccessToken (get_access_token HAPI_dict) ;;
  HAPI_dict <- invoke AcceptTandC (acceptTandC HAPI_dict) ;;
  query <- invoke (JsonLoad JSON_query_file) (json_load JSON_query_file) ;;
  print "Launching job..." ;;
  invoke GetJobId (get_job_id HAPI_dict query).

(** The statements between the job and the pagination loop. *)
Definition check_results (HAPI_dict : value) : M W unit :=
  print "Getting results..." ;;
  print "------------------" ;;
  print (repr HAPI_dict) ;;
  name bound_at_asdf "asdf".

(** The SLSTR download cell.  Its result is the binding of [HAPI_dict]
    it leaves, if it leaves one. *)
Definition SLSTR_download_cell (fuel : nat) (download_data : bool)
           (api_key download_dir_path JSON_query_file : string)
           (verbose : bool) : M W (option value) :=
  if download_data then
    (* set maximum results to find to make sure we capture JSON
       pagination *)
    let total_results := VFloat (1000000 # 1) in
    HAPI_dict <- launch_job api_key download_dir_path JSON_query_file ;;
    let found_results := VInt 0 in
    let page_count := -1 in
    check_results HAPI_dict ;;
    v <- pagination_loop fuel verbose
           (before_first_page HAPI_dict total_results found_results
                              page_count) ;;
    ret (Some (MHW.HAPI_dict v))
  else ret None.

(** The [try] block of the unzip loop. *)
Definition try_unzip (filename : string) : M W unit :=
  invoke (Extractall filename (dirname filename))
         (extractall filename (dirname filename)) ;;
  (* clear up the zip file *)
  invoke (Remove filename) (remove filename).

(** One turn of the unzip loop. *)
Definition unzip_file (filename : string) : M W unit :=
  if String.eqb (snd (splitext filename)) ".zip" then
    print "Unzipping file" ;;
    try_except (try_unzip filename) (print "Failed to unzip....")
  else ret tt.

(** The unzip cell. *)
Definition unzip_cell (download_data : bool) (HAPI_dict : option value)
  : M W unit :=
  if download_data then
    d <- match HAPI_dict with
         | Some d => ret d
         | None => raise (NameError "HAPI_dict")
         end ;;
    filenames <- eval (and_then (getitem d "filenames") iterate) ;;
    for_each filenames (fun x =>
      filename <- eval (as_str x) ;;
      unzip_file filename)
  else ret tt.

(** A call of the first statements of the SLSTR download cell. *)
Definition launch_call (c : call) : Prop :=
  match c with
  | Init _ _ _ | GetAccessToken | AcceptTandC | JsonLoad _ | GetJobId => True
  | _ => False
  end.

(** The pages of results asked for in a log, in the order they were asked
    for. *)
Definition pages_of (calls : list call) : list Z :=
  omap (fun c => match c with
                 | GetResultsList (Some page) => Some page
                 | _ => None
                 end) calls.

(** The pages numbered from [first], [n] of them. *)
Definition pages_from (first : Z) (n : nat) : list Z :=
  List.map (fun i => first + Z.of_nat i) (List.seq 0 n).

(** A call of the unzip cell: it extracts or removes a file whose extension
    is [.zip]. *)
Definition zip_call (c : call) : Prop :=
  match c with
  | Extractall zip _ => snd (splitext zip) = ".zip"
  | Remove zip => snd (splitext zip) = ".zip"
  | _ => False
  end.

(** The two cells that plot the SLSTR scenes. *)
Definition plot_SLSTR (download_dir_path : string) : M W unit :=
  let pattern :=
    path_join (path_join download_dir_path "S3*WST*202106*") "*.nc" in
  SLSTR_files <- invoke (Glob pattern) (glob pattern) ;;
  invoke (Analysis "make_SLSTR_composite_plot")
         (analysis "make_SLSTR_composite_plot" SLSTR_files) ;;
  invoke (Analysis "SLSTR_All_SST_California_20210617.png")
         (analysis "SLSTR_All_SST_California_20210617.png" []).

(** The body of the loop over the dates of the SST download cell. *)
Definition SST_download (JSON_query_dir : string) (r : SST.request)
           (HAPI_dict : value) : M W value :=
  JSON_query_file <- find_query_file JSON_query_dir (SST.dataset_id r) ;;
  print ("Running for: " ++ SST.start_date r ++ " to "
         ++ SST.end_date r) ;;
  query <- invoke (ReadText JSON_query_file)
                  (read_text JSON_query_file) ;;
  let query := replace_str "%DATE_START%" (SST.start_date r) query in
  let query := replace_str "%DATE_END%" (SST.end_date r) query in
  query <- eval (json_loads query) ;;
  print "Launching job..." ;;
  HAPI_dict <- invoke GetJobId (get_job_id HAPI_dict query) ;;
  print "Getting results..." ;;
  HAPI_dict <- invoke (GetResultsList None)
                      (get_results_list HAPI_dict None None) ;;
  HAPI_dict <- invoke GetOrderIds (get_order_ids HAPI_dict) ;;
  print "Downloading data..." ;;
  invoke (DownloadData None (Some (SST.user_filename r)))
         (download_data HAPI_dict None (Some (SST.user_filename r))).

(** The SST download cell; [dataset_id] is still the SLSTR key when the
    session is initialised. *)
Definition SST_download_cell (download_data : bool)
           (api_key download_dir_path JSON_query_dir : string)
  : M W unit :=
  if download_data then
    HAPI_dict <- invoke (Init dataset_id api_key download_dir_path)
                        (init dataset_id api_key download_dir_path) ;;
    HAPI_dict <- invoke GetAccessToken (get_access_token HAPI_dict) ;;
    HAPI_dict <- invoke AcceptTandC (acceptTandC HAPI_dict) ;;
    for_in SST.requests (SST_download JSON_query_dir) HAPI_dict ;;
    ret tt
  else ret tt.

(** The cells that read the SST files and plot the time series. *)
Definition plot_time_series (download_dir_path : string) : M W unit :=
  let pattern := path_join download_dir_path "METOFFICE-GLO-SST-L4-*" in
  my_files <- invoke (Glob pattern) (glob pattern) ;;
  let SST_files := SST.SST_files my_files in
  invoke (Analysis "area-averaged SST")
         (analysis "area-averaged SST" SST_files) ;;
  invoke (Analysis "mhw.detect") (analysis "mhw.detect" SST_files) ;;
  invoke (Analysis "Stripes.png") (analysis "Stripes.png" SST_files) ;;
  invoke (Analysis "MHW.png") (analysis "MHW.png" []).

(** The code cells, top to bottom.  [download_data] is the flag the
    fourth cell sets. *)
Definition notebook (fuel : nat) (download_data : bool)
           (user_name password : string) : M W unit :=
  (* three times sys.path.append(os.path.join(.. os.getcwd() ..)) *)
  invoke Getcwd getcwd ;;
  invoke Getcwd getcwd ;;
  invoke Getcwd getcwd ;;
  api_key <- invoke GenerateApiKey (generate_api_key user_name password) ;;
  invoke Display (display ("Your API key is: <b>" ++ api_key ++ "</b>")) ;;
  cwd <- invoke Getcwd getcwd ;;
  let download_dir_path := path_join cwd "products" in
  cwd <- invoke Getcwd getcwd ;;
  let JSON_query_dir := path_join (path_join cwd "JSON_templates") "mhw" in
  let verbose := false in
  found <- invoke (PathExists download_dir_path)
                  (path_exists download_dir_path) ;;
  (if negb found
   then invoke (Makedirs download_dir_path) (makedirs download_dir_path)
   else ret tt) ;;
  JSON_query_file <- find_query_file JSON_query_dir dataset_id ;;
  HAPI_dict <- SLSTR_download_cell fuel download_data api_key
                 download_dir_path JSON_query_file verbose ;;
  unzip_cell download_data HAPI_dict ;;
  plot_SLSTR download_dir_path ;;
  SST_download_cell download_data api_key download_dir_path
                    JSON_query_dir ;;
  plot_time_series download_dir_path.

End Cells.

End MHW.

(** ** The helper module [hda_api_functions]

    The notebooks import the helper module but do not hold it.  Its
    functions are modelled here from what the notebooks say about them and
    from the text the how-to notebook recorded when it called them. *)

Module HDA.
Import Py Nb.

(** Modelled from the spec: what one file download reports while it
    streams, the helper module [hda_api_functions] being absent.  The
    numbers are kept as the text that is printed for them. *)
Record progress := {
  done : nat;             (* cells of the 50-cell bar that are filled *)
  rate : string           (* the transfer rate, in Mbps *)
}.

Record download := {
  file_size : string;         (* the size of the file, in MB *)
  chunks : list progress;     (* one report per chunk received *)
  received : string;          (* MB downloaded at the end *)
  speed : string;             (* the mean rate, in kbps *)
  elapsed : string;           (* seconds from start to end *)
  content : string            (* the bytes of the file *)
}.

(** Modelled from the spec: the HDA server as the helper functions meet
    it, [hda_api_functions] being absent: the answers to the requests for
    a token, a job, its status at the n-th check, a page of its results,
    an order for one of its files, the status of an order at the n-th
    check, and the download of an order. *)
Record server := {
  token : string -> outcome string;
  submit : value -> outcome string;
  job_status : string -> nat -> string;
  results : string -> Z -> outcome value;
  order : string -> value -> outcome string;
  order_status : string -> nat -> string;
  fetch : string -> outcome download
}.

(** Modelled from the spec: what the helper functions do that can be seen
    from outside, [hda_api_functions] being absent: the requests they send
    and the pauses they take. *)
Inductive action :=
| PostToken (api_key : string)
| PostJob (query : value)
| GetJobStatus (job_id : string)
| GetResults (job_id : string) (page : Z)
| PostOrder (job_id : string) (item : value)
| GetOrderStatus (order_id : string)
| GetDownload (order_id : string)
| Sleep (seconds : Z).

Record world := {
  srv : server;
  disk : gmap string string;
  cwd : string;
  done_so_far : list action
}.

Section Effects.
(** The effects of a helper function: it fails or goes on, it changes
    the world, it writes text. *)

Definition ret {A} (a : A) : ext world A := fun w => (Ret a, w, []).

Definition bind {A B} (m : ext world A) (k : A -> ext world B)
  : ext world B := fun w =>
  match m w with
  | (Ret a, w', out) =>
      let '(r, w'', out') := k a w' in (r, w'', (out ++ out')%list)
  | (Raise e, w', out) => (Raise e, w', out)
  | (Timeout, w', out) => (Timeout, w', out)
  end.

Definition eval {A} (o : outcome A) : ext world A := fun w => (o, w, []).

Definition write (text : string) : ext world unit := fun w =>
  (Ret tt, w, [text]).

Definition print (x : string) : ext world unit := write (x ++ nl).

Definition act (a : action) : ext world unit := fun w =>
  (Ret tt,
   {| srv := srv w; disk := disk w; cwd := cwd w;
      done_so_far := (done_so_far w ++ [a])%list |},
   []).

Definition ask {A} (f : server -> A) : ext world A := fun w =>
  (Ret (f (srv w)), w, []).

Definition save (path data : string) : ext world unit := fun w =>
  (Ret tt,
   {| srv := srv w; disk := <[path := data]> (disk w); cwd := cwd w;
      done_so_far := done_so_far w |},
   []).

End Effects.

Declare Scope hda_scope.
Delimit Scope hda_scope with hda.
Notation "x <- m ;; k" := (bind m (fun x => k))
  (at level 100, m at next level, right associativity) : hda_scope.
Notation "m ;; k" := (bind m (fun _ => k))
  (at level 100, right associativity) : hda_scope.
Local Open Scope hda_scope.

(** Modelled from the spec: the lines of the status loop, as the how-to
    notebook recorded them, [hda_api_functions] being absent: what is
    printed to announce a pause and to report a status. *)
Definition announcement (seconds : Z) : string :=
  "Next check in " ++ str seconds ++ " seconds".

Definition status_report (status : string) : string :=
  "Query successfully submitted. Status is " ++ status.

Section Functions.
(** The pause announced before the n-th check of a status. *)
Variable wait : nat -> Z.
(** The checks a status loop is allowed. *)
Variable patience : nat.

(** Modelled from the spec: the status loop of [get_job_id] and
    [get_order_ids], [hda_api_functions] being absent ("poll a status
    endpoint"): announce the pause, take it, ask for the status, report
    it, until the status is [completed]. *)
Fixpoint poll (check : action) (status : nat -> string)
         (fuel n : nat) : ext world unit :=
  match fuel with
  | O => fun w => (Timeout, w, [])
  | S fuel' =>
      print (announcement (wait n)) ;;
      act (Sleep (wait n)) ;;
      act check ;;
      let status_now := status n in
      print (status_report status_now) ;;
      if String.eqb status_now "completed" then ret tt
      else poll check status fuel' (S n)
  end.

(** Modelled from the spec: [generate_api_key], absent from the sources;
    the key is the Base64 encoding of [username:password], which the
    world is asked for. *)
Definition generate_api_key (base64 : string -> string)
           (user_name password : string) : ext world string :=
  ret (base64 (user_name ++ ":" ++ password)).

(** Modelled from the spec: [init], absent from the sources: "initialise
    a dictionary that contains information on dataset_id, api_key and
    download_directory_path". *)
Definition init (dataset_id api_key download_dir_path : string)
  : ext world value :=
  ret (VDict [("dataset_id", VStr dataset_id);
              ("api_key", VStr api_key);
              ("download_dir_path", VStr download_dir_path)]).

(** Modelled from the spec: [get_access_token], absent from the
    sources: "The access token is stored in the hda_dict dictionary". *)
Definition get_access_token (hda_dict : value) : ext world value :=
  api_key <- eval (and_then (getitem hda_dict "api_key") as_str) ;;
  print "Getting an access token. This token is valid for one hour only." ;;
  act (PostToken api_key) ;;
  answer <- ask (fun s => token s api_key) ;;
  access_token <- eval answer ;;
  print ("Success: Access token is " ++ access_token) ;;
  eval (setitem hda_dict "access_token" (VStr access_token)).

(** Modelled from the spec: [acceptTandC], absent from the sources; the
    notebooks only show that it hands the dictionary back. *)
Definition acceptTandC (hda_dict : value) : ext world value :=
  print "Copernicus_General_License Terms and Conditions already accepted" ;;
  ret hda_dict.

(** Modelled from the spec: [get_job_id], absent from the sources: it
    submits the request, is given the job ID ("identifier returned by
    the HDA API for an asynchronous data-extraction request"), waits for
    the job to complete and stores the job ID in the dictionary. *)
Definition get_job_id (hda_dict data : value) : ext world value :=
  act (PostJob data) ;;
  answer <- ask (fun s => submit s data) ;;
  job_id <- eval answer ;;
  print ("Query successfully submitted. Job ID is " ++ job_id) ;;
  status <- ask (fun s => job_status s job_id) ;;
  poll (GetJobStatus job_id) status patience 0 ;;
  eval (setitem hda_dict "job_id" (VStr job_id)).

(** Modelled from the spec: the line [get_results_list] prints for each
    file of the page, [hda_api_functions] being absent: the how-to
    notebook recorded one line for its one file, and renames that file
    before it downloads it; the line is taken to be the file's name. *)
Fixpoint print_filenames (items : list value) : ext world unit :=
  match items with
  | [] => ret tt
  | item :: items' =>
      name <- eval (and_then (getitem item "filename") as_str) ;;
      print name ;;
      print_filenames items'
  end.

(** Modelled from the spec: [get_results_list], absent from the
    sources: it "gathers a list of file names available, based on your
    assigned job ID", one page at a time, and prints them unless it is
    called with [verbose=False]. *)
Definition get_results_list (hda_dict : value) (page : option Z)
           (verbose : option bool) : ext world value :=
  job_id <- eval (and_then (getitem hda_dict "job_id") as_str) ;;
  let page := default 0 page in
  act (GetResults job_id page) ;;
  answer <- ask (fun s => results s job_id page) ;;
  results <- eval answer ;;
  (if default true verbose
   then items <- eval (and_then (getitem results "content") iterate) ;;
        print_filenames items
   else ret tt) ;;
  eval (setitem hda_dict "results" results).

(** Modelled from the spec: the files of the results list held by the
    dictionary, [hda_api_functions] being absent. *)
Definition files_of (hda_dict : value) : outcome (list value) :=
  and_then (getitem hda_dict "results") (fun r =>
  and_then (getitem r "content") iterate).

(** Modelled from the spec: the order of one file of [get_order_ids],
    [hda_api_functions] being absent: the order is posted, the order ID is
    reported, and the order is waited for. *)
Definition order_file (job_id : string) (item : value)
  : ext world string :=
  act (PostOrder job_id item) ;;
  answer <- ask (fun s => order s job_id item) ;;
  order_id <- eval answer ;;
  print ("Query successfully submitted. Order ID is " ++ order_id) ;;
  status <- ask (fun s => order_status s order_id) ;;
  poll (GetOrderStatus order_id) status patience 0 ;;
  ret order_id.

Fixpoint order_files (job_id : string) (items : list value)
  : ext world (list string) :=
  match items with
  | [] => ret []
  | item :: items' =>
      order_id <- order_file job_id item ;;
      order_ids <- order_files job_id items' ;;
      ret (order_id :: order_ids)
  end.

(** Modelled from the spec: [get_order_ids], absent from the sources:
    it "creates an order ID for each file name to be downloaded"
    ("identifier assigned to each file within a completed job") and
    stores the order IDs in the dictionary. *)
Definition get_order_ids (hda_dict : value) : ext world value :=
  job_id <- eval (and_then (getitem hda_dict "job_id") as_str) ;;
  items <- eval (files_of hda_dict) ;;
  order_ids <- order_files job_id items ;;
  eval (setitem hda_dict "order_ids" (VList (List.map VStr order_ids))).

(** Modelled from the spec: the progress bar of [download_data] after a
    chunk, as the how-to notebook recorded it, [hda_api_functions] being
    absent. *)
Definition bar (p : progress) : string :=
  "[" ++ String.concat "" (List.repeat "=" (done p))
      ++ String.concat "" (List.repeat " " (50 - done p))
  ++ "]" ++ rate p ++ " Mbps".

(** Modelled from the spec: the name under which [download_data] saves
    the [i]-th file, [hda_api_functions] being absent: the name the caller
    gives, or the name in the results list with the extension the caller
    gives (the how-to notebook recorded [waves_spain_forecast.nc] for the
    name [waves_spain_forecast] and the extension [.nc]). *)
Definition file_name (hda_dict : value) (i : nat)
           (file_extension user_filename : option string)
  : outcome string :=
  match user_filename with
  | Some name => Ret name
  | None =>
      and_then (getitem hda_dict "results") (fun r =>
      and_then (getitem r "content") (fun c =>
      and_then (getindex c i) (fun item =>
      and_then (and_then (getitem item "filename") as_str) (fun name =>
      Ret (name ++ default "" file_extension)))))
  end.

(** Modelled from the spec: the path under which [download_data] saves
    the [i]-th file, [hda_api_functions] being absent: its name, joined to
    the download directory of the dictionary. *)
Definition target (hda_dict : value) (i : nat)
           (file_extension user_filename : option string)
  : outcome string :=
  and_then (and_then (getitem hda_dict "download_dir_path") as_str)
    (fun dir =>
  and_then (file_name hda_dict i file_extension user_filename)
    (fun name =>
  Ret (path_join dir name))).

(** Modelled from the spec: the download of one ordered file of
    [download_data], [hda_api_functions] being absent ("stream a file
    download with progress printout"). *)
Definition download_file (path order_id : string) : ext world unit :=
  print ("Downloading " ++ path) ;;
  act (GetDownload order_id) ;;
  answer <- ask (fun s => fetch s order_id) ;;
  d <- eval answer ;;
  print ("File size is: " ++ file_size d ++ " MB") ;;
  write (String.concat "" (List.map bar (chunks d))) ;;
  print ("[" ++ received d ++ "] MB downloaded, " ++ speed d ++ " kbps") ;;
  save path (content d) ;;
  print "Download complete..." ;;
  print ("Time Elapsed: " ++ elapsed d ++ " seconds").

Fixpoint download_files (hda_dict : value) (i : nat)
         (file_extension user_filename : option string)
         (order_ids : list value) : ext world (list string) :=
  match order_ids with
  | [] => ret []
  | o :: order_ids' =>
      order_id <- eval (as_str o) ;;
      path <- eval (target hda_dict i file_extension user_filename) ;;
      download_file path order_id ;;
      paths <- download_files hda_dict (S i) file_extension
                              user_filename order_ids' ;;
      ret (path :: paths)
  end.

(** Modelled from the spec: [download_data], absent from the sources:
    it "downloads each file that has been assigned an order ID",
    streams it to the download directory with a progress printout, and
    stores the names of the files in the dictionary. *)
Definition download_data (hda_dict : value)
           (file_extension user_filename : option string)
  : ext world value :=
  order_ids <- eval (and_then (getitem hda_dict "order_ids") iterate) ;;
  paths <- download_files hda_dict 0 file_extension user_filename
                          order_ids ;;
  eval (setitem hda_dict "filenames" (VList (List.map VStr paths))).

End Functions.

(** A status that is [completed] within the patience of a status loop:
    at the check number [n], and at no check before it. *)
Definition completes (status : nat -> string) (patience : nat) : Prop :=
  exists n, (n < patience)%nat
            /\ (forall i, (i < n)%nat -> status i <> "completed")
            /\ status n = "completed".

(** From [w] to [w'] the actions [actions] have been done, and the server
    and the working directory are the same. *)
Definition steps (w w' : world) (actions : list action) : Prop :=
  srv w' = srv w /\ cwd w' = cwd w
  /\ done_so_far w' = (done_so_far w ++ actions)%list.

(** An action of a status loop: a pause or the check. *)
Definition waiting (check : action) (a : action) : Prop :=
  a = check \/ exists seconds, a = Sleep seconds.

(** The orders posted and the downloads asked for among some actions. *)
Definition orders_of (actions : list action) : list (string * value) :=
  omap (fun a => match a with
                 | PostOrder job_id item => Some (job_id, item)
                 | _ => None
                 end) actions.

Definition downloads_of (actions : list action) : list string :=
  omap (fun a => match a with
                 | GetDownload order_id => Some order_id
                 | _ => None
                 end) actions.

(** The jobs named by the requests among some actions. *)
Definition jobs_of (actions : list action) : list string :=
  omap (fun a => match a with
                 | GetJobStatus job_id => Some job_id
                 | GetResults job_id _ => Some job_id
                 | PostOrder job_id _ => Some job_id
                 | _ => None
                 end) actions.

(** What is written for one file that [download_data] downloads to
    [path]. *)
Definition report (path : string) (d : download) : list string :=
  [ ("Downloading " ++ path) ++ nl;
    ("File size is: " ++ file_size d ++ " MB") ++ nl;
    String.concat "" (List.map bar (chunks d));
    ("[" ++ received d ++ "] MB downloaded, " ++ speed d ++ " kbps") ++ nl;
    "Download complete..." ++ nl;
    ("Time Elapsed: " ++ elapsed d ++ " seconds") ++ nl ].

(** The disk once the files have been saved, one after the other. *)
Definition saved (files : list (string * download))
           (disk : gmap string string) : gmap string string :=
  List.fold_left (fun disk file => <[fst file := content (snd file)]> disk)
                 files disk.

(** The pauses and checks of a status loop that ends at its [n]-th check,
    and what it writes. *)
Definition checks (wait : nat -> Z) (check : action) (first n : nat)
  : list action :=
  List.flat_map (fun i => [Sleep (wait i); check]) (List.seq first n).

Definition check_lines (wait : nat -> Z) (status : nat -> string)
           (first n : nat) : list string :=
  List.flat_map (fun i => [announcement (wait i) ++ nl;
                           status_report (status i) ++ nl])
                (List.seq first n).

(** A member of a zip file, as [ZipFile.extractall] meets it: it cannot
    be opened, and nothing is written for it; or its target file is
    created, emptying a file that was there, and reading the member raises
    after [written] has been copied; or the whole of it is copied. *)
Inductive member :=
| Unreadable (e : exn)
| Broken (written : string) (e : exn)
| Whole (data : string).

(** The library functions over the same world, so that the cells can be
    run against the helper functions above. *)
Section Library.
(** [base64.b64encode], [json.loads], and the members of a zip file
    given its bytes, by their names: the archive may not open at all. *)
Variable wait : nat -> Z.
Variable patience : nat.
Variable base64 : string -> string.
Variable parse_json : string -> outcome value.
Variable members : string -> outcome (list (string * member)).

(** [glob.glob] for patterns whose only wildcard is the star, as those
    of the notebooks are: a [*] stands for any characters but a slash,
    and at the start of a name not for a name that starts with a dot;
    [start] tells whether the pattern is at the start of a name. *)
Fixpoint wild_from (start : bool) (pattern s : string) : bool :=
  match pattern with
  | EmptyString => String.eqb s EmptyString
  | String c pattern' =>
      if Ascii.eqb c "*" then
        if (start && startswith "." s)%bool then false
        else
          (fix star (s : string) : bool :=
             wild_from false pattern' s
             || match s with
                | EmptyString => false
                | String d s' => negb (Ascii.eqb d "/") && star s'
                end) s
      else match s with
           | EmptyString => false
           | String d s' =>
               Ascii.eqb c d && wild_from (Ascii.eqb c "/") pattern' s'
           end
  end.

Definition wild (pattern s : string) : bool := wild_from true pattern s.

Definition read (path : string) : ext world string := fun w =>
  match disk w !! path with
  | Some data => (Ret data, w, [])
  | None => (Raise (OtherError "FileNotFoundError"), w, [])
  end.

(** [ZipFile.extractall] writes the members one after the other, each
    under its name in the target directory (the names are taken to be
    relative, as [extractall] makes them): what has been written is on the
    disk when an exception leaves. *)
Fixpoint write_all (dir : string) (files : list (string * member))
  : ext world unit :=
  match files with
  | [] => ret tt
  | (name, Unreadable e) :: _ => eval (Raise e)
  | (name, Broken written e) :: _ =>
      save (path_join dir name) written ;; eval (Raise e)
  | (name, Whole data) :: files' =>
      save (path_join dir name) data ;; write_all dir files'
  end.

Definition extract (zip dir : string) : ext world unit :=
  data <- read zip ;;
  files <- eval (members data) ;;
  write_all dir files.

Definition unlink (path : string) : ext world unit := fun w =>
  match disk w !! path with
  | Some _ =>
      (Ret tt,
       {| srv := srv w; disk := delete path (disk w); cwd := cwd w;
          done_so_far := done_so_far w |}, [])
  | None => (Raise (OtherError "FileNotFoundError"), w, [])
  end.

#[export] Instance kernel : Kernel world := {|
  Nb.generate_api_key := generate_api_key base64;
  Nb.init := init;
  Nb.get_access_token := get_access_token;
  Nb.acceptTandC := acceptTandC;
  Nb.get_job_id := get_job_id wait patience;
  Nb.get_results_list := get_results_list;
  Nb.get_order_ids := get_order_ids wait patience;
  Nb.download_data := download_data;
  Nb.display := fun _ => ret tt;
  Nb.getcwd := fun w => (Ret (cwd w), w, []);
  Nb.path_exists := fun path w =>
    (Ret (bool_decide (is_Some (disk w !! path))), w, []);
  Nb.makedirs := fun _ => ret tt;
  Nb.json_load := fun path => data <- read path ;; eval (parse_json data);
  Nb.read_text := read;
  Nb.json_loads := parse_json;
  Nb.glob := fun pattern w =>
    (Ret (List.filter (wild pattern) (List.map fst (map_to_list (disk w)))),
     w, []);
  Nb.extractall := extract;
  Nb.remove := unlink;
  Nb.analysis := fun _ _ => ret tt
|}.

End Library.

End HDA.

(** ** A world in which the how-to notebook runs as it was recorded *)

Module Sample.
Import Py Nb.

Definition job_id : string := "_AIq3_hSl985LlGXkmNbBe0BIKI".
Definition order_id : string := "rNwI5K4U0mtVS3jWiHnoaaNuPAc".

(** The name under which the server lists the one file of the how-to
    notebook: the line that the notebook recorded for
    [get_results_list]. *)
Definition listed_name : string :=
  "&service=GLOBAL_ANALYSIS_FORECAST_WAV_001_027-TDS&product=global-analysis-forecast-wav-001-027&t_lo=2021-12-01T00:00:00.000Z&t_hi=2021-12-06T00:00:00.000Z&x_lo=-9.748386572526352&y_hi=42.52096810045425&x_hi=-0.5582870716788746&y_lo=44.45042413221037&variable=VHM0_SW1".

Definition listed_file : value :=
  VDict [("filename", VStr listed_name);
         ("url", VStr "&variable=VHM0_SW1")].

(** One file, on one page. *)
Definition page : value :=
  VDict [("totItems", VInt 1);
         ("itemsInPage", VInt 1);
         ("content", VList [listed_file])].

Definition file : HDA.download :=
  {| HDA.file_size := "    0.21";
     HDA.chunks := [ {| HDA.done := 50; HDA.rate := "     16.82" |} ];
     HDA.received := "    0.21";
     HDA.speed := "15885.94";
     HDA.elapsed := "0.013772182999999938";
     HDA.content := "CDF" |}.

(** The job is running at the first check and completed at the second;
    the order is completed at the first check. *)
Definition server : HDA.server :=
  {| HDA.token := fun _ => Ret "token";
     HDA.submit := fun _ => Ret job_id;
     HDA.job_status := fun _ n =>
       match n with O => "running" | _ => "completed" end;
     HDA.results := fun _ _ => Ret page;
     HDA.order := fun _ _ => Ret order_id;
     HDA.order_status := fun _ _ => "completed";
     HDA.fetch := fun _ => Ret file |}.

Definition world : HDA.world :=
  {| HDA.srv := server;
     HDA.disk := ∅;
     HDA.cwd := "/home/javitausia/Documentos/AIFEM/wekeo-jupyter-lab/wekeo-hda";
     HDA.done_so_far := [] |}.

(** Five seconds before the first check and ten before the second, as the
    how-to notebook recorded them; the notebook shows no later check, and
    the pauses before them are taken to grow by five seconds as well. *)
Definition wait (n : nat) : Z := 5 * (Z.of_nat n + 1).

#[export] Instance kernel : Kernel HDA.world :=
  HDA.kernel wait 10 (fun s => s) (fun _ => Ret VNone) (fun _ => Ret []).

(** A world whose disk holds a zip file that cannot be read as one, a zip
    file that can, and a file that is not a zip file. *)
Definition zips : HDA.world :=
  {| HDA.srv := server;
     HDA.disk := {[ "/products/a.zip" := "broken";
                    "/products/b.zip" := "good";
                    "/products/c.nc" := "CDF" ]};
     HDA.cwd := "/";
     HDA.done_so_far := [] |}.

Definition members (data : string)
  : outcome (list (string * HDA.member)) :=
  if String.eqb data "good" then Ret [("b.SEN3/x.nc", HDA.Whole "CDF")]
  else Raise (OtherError "BadZipFile").

(** The download directory of the how-to notebook in the sample world. *)
Definition download_dir_path : string :=
  "/home/javitausia/Documentos/AIFEM/wekeo-jupyter-lab/wekeo-hda/data/".

(** The dictionary as [init] and [get_access_token] leave it in the sample
    world, and as the calls that follow leave it. *)
Definition session : value :=
  VDict [("dataset_id", VStr HowTo.dataset_id);
         ("api_key", VStr "user:password");
         ("download_dir_path", VStr download_dir_path);
         ("access_token", VStr "token")].

Definition launched : value :=
  VDict [("dataset_id", VStr HowTo.dataset_id);
         ("api_key", VStr "user:password");
         ("download_dir_path", VStr download_dir_path);
         ("access_token", VStr "token");
         ("job_id", VStr job_id)].

Definition listed : value :=
  VDict [("dataset_id", VStr HowTo.dataset_id);
         ("api_key", VStr "user:password");
         ("download_dir_path", VStr download_dir_path);
         ("access_token", VStr "token");
         ("job_id", VStr job_id);
         ("results", page)].

Definition ordered : value :=
  VDict [("dataset_id", VStr HowTo.dataset_id);
         ("api_key", VStr "user:password");
         ("download_dir_path", VStr download_dir_path);
         ("access_token", VStr "token");
         ("job_id", VStr job_id);
         ("results", page);
         ("order_ids", VList [VStr order_id])].

(** The results once the how-to notebook has renamed the first file. *)
Definition renamed_page : value :=
  VDict [("totItems", VInt 1);
         ("itemsInPage", VInt 1);
         ("content", VList [
            VDict [("filename", VStr "waves_spain_forecast");
                   ("url", VStr "&variable=VHM0_SW1")]])].

Definition renamed : value :=
  VDict [("dataset_id", VStr HowTo.dataset_id);
         ("api_key", VStr "user:password");
         ("download_dir_path", VStr download_dir_path);
         ("access_token", VStr "token");
         ("job_id", VStr job_id);
         ("results", renamed_page);
         ("order_ids", VList [VStr order_id])].

Definition downloaded : value :=
  VDict [("dataset_id", VStr HowTo.dataset_id);
         ("api_key", VStr "user:password");
         ("download_dir_path", VStr download_dir_path);
         ("access_token", VStr "token");
         ("job_id", VStr job_id);
         ("results", renamed_page);
         ("order_ids", VList [VStr order_id]);
         ("filenames",
          VList [VStr "/home/javitausia/Documentos/AIFEM/wekeo-jupyter-lab/wekeo-hda/data/waves_spain_forecast.nc"])].

(** A server whose pages of results each hold one file of three. *)
Definition one_of_three : value :=
  VDict [("totItems", VInt 3);
         ("itemsInPage", VInt 1);
         ("content", VList [
            VDict [("filename", VStr "global-analysis-forecast-wav-001-027");
                   ("url", VStr "&variable=VHM0_SW1")]])].

Definition paged : HDA.server :=
  {| HDA.token := fun _ => Ret "token";
     HDA.submit := fun _ => Ret job_id;
     HDA.job_status := fun _ _ => "completed";
     HDA.results := fun _ _ => Ret one_of_three;
     HDA.order := fun _ _ => Ret order_id;
     HDA.order_status := fun _ _ => "completed";
     HDA.fetch := fun _ => Ret file |}.

(** A world with that server and with the query file of the SLSTR
    download cell on its disk. *)
Definition ocean : HDA.world :=
  {| HDA.srv := paged;
     HDA.disk :=
       {[ "/work/query.json" := "{}";
          "/work/JSON_templates/mhw/EO_MO_DAT_SST_GLO_SST_L4_REP_OBSERVATIONS_010_011.json"
            := "{%DATE_START%, %DATE_END%}";
          "/work/JSON_templates/mhw/EO_MO_DAT_SST_GLO_SST_L4_NRT_OBSERVATIONS_010_001.json"
            := "{%DATE_START%, %DATE_END%}" ]};
     HDA.cwd := "/work";
     HDA.done_so_far := [] |}.

(** The dictionary in that world once a page has been listed, ordered and
    downloaded. *)
Definition paging_dict : value :=
  VDict [("download_dir_path", VStr "/work/products");
         ("job_id", VStr job_id);
         ("results", one_of_three);
         ("order_ids", VList [VStr order_id]);
         ("filenames",
          VList [VStr "/work/products/global-analysis-forecast-wav-001-027.zip"])].

Definition unzipper : Kernel HDA.world :=
  HDA.kernel wait 10 (fun s => s) (fun _ => Ret VNone) members.

End Sample.


(** ** The calls of the cells, in their order *)

Module Calls.
Import Py Nb.

(** The calls of the how-to notebook, in the order of its cells. *)
Definition HowTo_calls (api_key cwd : string) : list call := [
  GenerateApiKey; Display; Getcwd; Getcwd;
  Init HowTo.dataset_id api_key (cwd ++ "/data/");
  GetAccessToken; AcceptTandC; GetJobId; GetResultsList None; GetOrderIds;
  DownloadData (Some ".nc") None
].

(** The calls of the retrieve notebook, in the order of its cells. *)
Definition Retrieve_calls (api_key : string) : list call := [
  Getcwd; GenerateApiKey;
  Init Retrieve.dataset_id api_key Retrieve.download_dir_path;
  GetAccessToken; AcceptTandC; JsonLoad "./olci_data_descriptor.json";
  GetJobId; GetResultsList None; GetOrderIds; DownloadData None None
].

(** A call that is none of the calls through which the notebook gets data:
    it is not a call of the HDA session, job, results, orders or download,
    it reads no query file, and it neither extracts nor removes a file. *)
Definition offline (c : call) : Prop :=
  match c with
  | Getcwd | GenerateApiKey | Display | PathExists _ | Makedirs _
  | Glob _ | Analysis _ => True
  | _ => False
  end.

(** A call made before the SLSTR download cell reads the name [asdf]: by
    the cells above it, or by its own first statements. *)
Definition before_asdf (c : call) : Prop :=
  match c with
  | Getcwd | GenerateApiKey | Display | PathExists _ | Makedirs _
  | Init _ _ _ | GetAccessToken | AcceptTandC | JsonLoad _ | GetJobId => True
  | _ => False
  end.

(** The calls of one turn of the loop over the dates of the SST download
    cell. *)
Definition SST_calls (JSON_query_dir : string) (r : SST.request)
  : list call :=
  let JSON_query_file := MHW.query_file JSON_query_dir (SST.dataset_id r) in
  [PathExists JSON_query_file; ReadText JSON_query_file; GetJobId;
   GetResultsList None; GetOrderIds;
   DownloadData None (Some (SST.user_filename r))].

(** The calls of the SST download cell. *)
Definition SST_cell_calls (api_key download_dir_path JSON_query_dir : string)
  : list call :=
  ([Init MHW.dataset_id api_key download_dir_path; GetAccessToken;
    AcceptTandC]
   ++ List.flat_map (SST_calls JSON_query_dir) SST.requests)%list.

(** The file names given to [download_data] in a log, in the order they
    were given. *)
Definition user_filenames_of (calls : list call) : list string :=
  omap (fun c => match c with
                 | DownloadData _ (Some user_filename) => Some user_filename
                 | _ => None
                 end) calls.

(** The zip files of a log that were handed to [extractall], each with the
    directory it was to be extracted into. *)
Definition extractions_of (calls : list call) : list (string * string) :=
  omap (fun c => match c with
                 | Extractall zip dir => Some (zip, dir)
                 | _ => None
                 end) calls.

(** [os.path.splitext(filename)[-1] == '.zip'] *)
Definition is_zip (filename : string) : bool :=
  String.eqb (snd (splitext filename)) ".zip".

End Calls.

(** ** The turns of the pagination loop *)

Module Pages.
Import Py Nb.

(** The calls of one turn of the pagination loop. *)
Definition page_calls (page : Z) : list call :=
  [GetResultsList (Some page); GetOrderIds; DownloadData (Some ".zip") None].

(** [found_results] after [n] turns from page [first] on, where page [p]
    reports [items p] as its [itemsInPage]. *)
Fixpoint items_found (items : Z -> Z) (first : Z) (n : nat) : Z :=
  match n with
  | O => 0
  | S n' => items first + items_found items (first + 1) n'
  end.

(** The variables of the loop as the cell sets them before it. *)
Definition first_page (HAPI_dict : value) : MHW.paging :=
  MHW.before_first_page HAPI_dict (VFloat (1000000 # 1)) (VInt 0) (-1).

End Pages.

(** ** The fields of the results *)

Module Fields.
Import Py Nb.

(** [hda_dict['results'][key]] *)
Definition results_field (hda_dict : value) (key : string) : outcome value :=
  and_then (getitem hda_dict "results") (fun results => getitem results key).

(** [hda_dict['results']['content'][i]] *)
Definition content_item (hda_dict : value) (i : nat) : outcome value :=
  and_then (results_field hda_dict "content") (fun content =>
  getindex content i).

(** [hda_dict['results']['content'][i][key]] *)
Definition file_field (hda_dict : value) (i : nat) (key : string)
  : outcome value :=
  and_then (content_item hda_dict i) (fun item => getitem item key).

(** A job that found no file, as a dictionary. *)
Definition found_nothing : value :=
  VDict [("results", VDict [("totItems", VInt 0); ("itemsInPage", VInt 0);
                            ("content", VList [])])].

(** Helper functions that return that dictionary whatever they are given,
    in a world where nothing happens. *)
Definition idle : Kernel unit := {|
  generate_api_key := fun _ _ w => (Ret "key", w, []);
  init := fun _ _ _ w => (Ret found_nothing, w, []);
  get_access_token := fun _ w => (Ret found_nothing, w, []);
  acceptTandC := fun _ w => (Ret found_nothing, w, []);
  get_job_id := fun _ _ w => (Ret found_nothing, w, []);
  get_results_list := fun _ _ _ w => (Ret found_nothing, w, []);
  get_order_ids := fun _ w => (Ret found_nothing, w, []);
  download_data := fun _ _ _ w => (Ret found_nothing, w, []);
  display := fun _ w => (Ret tt, w, []);
  getcwd := fun w => (Ret "/work", w, []);
  path_exists := fun _ w => (Ret true, w, []);
  makedirs := fun _ w => (Ret tt, w, []);
  json_load := fun _ w => (Ret VNone, w, []);
  read_text := fun _ w => (Ret "", w, []);
  json_loads := fun _ => Ret VNone;
  glob := fun _ w => (Ret [], w, []);
  extractall := fun _ _ w => (Ret tt, w, []);
  remove := fun _ w => (Ret tt, w, []);
  analysis := fun _ _ w => (Ret tt, w, [])
|}.

End Fields.

(** ** Characters, and the labels of the stripes *)

Module Text.
Import Py.

(** Every character of [s] satisfies [P]. *)
Fixpoint all_chars (P : ascii -> bool) (s : string) : bool :=
  match s with
  | EmptyString => true
  | String c rest => P c && all_chars P rest
  end.

(** The character [c] does not occur in [s]. *)
Definition lacks (c : ascii) (s : string) : bool :=
  all_chars (fun d => negb (Ascii.eqb d c)) s.

Definition is_digit (c : ascii) : bool :=
  existsb (Ascii.eqb c) (list_ascii_of_string "0123456789").

(** [date_ticks]: [for ii in range(len(SST_files)):
    date_ticks.append(str(2008+ii))] *)
Definition date_ticks (SST_files : list string) : list string :=
  List.fold_left (fun acc ii => (acc ++ [str (2008 + ii)])%list)
                 (range 0 (Z.of_nat (List.length SST_files))) [].

End Text.

(** ** Further sample worlds *)

Module Cases.
Import Py Nb.

(** A page of results without a file, of a job that reports [total]
    items. *)
Definition empty_page (total : Z) : value :=
  VDict [("totItems", VInt total);
         ("itemsInPage", VInt 0);
         ("content", VList [])].

(** A page of results that reports no count. *)
Definition uncounted : value := VDict [("content", VList [])].

(** A server that answers every request for results with [page]. *)
Definition answering (page : value) : HDA.server :=
  {| HDA.token := fun _ => Ret "token";
     HDA.submit := fun _ => Ret Sample.job_id;
     HDA.job_status := fun _ _ => "completed";
     HDA.results := fun _ _ => Ret page;
     HDA.order := fun _ _ => Ret Sample.order_id;
     HDA.order_status := fun _ _ => "completed";
     HDA.fetch := fun _ => Ret Sample.file |}.

Definition at_sea (page : value) : HDA.world :=
  {| HDA.srv := answering page;
     HDA.disk := ∅;
     HDA.cwd := "/work";
     HDA.done_so_far := [] |}.

(** The dictionary in such a world once a page without a file has been
    listed, ordered and downloaded. *)
Definition idle_dict (page : value) : value :=
  VDict [("download_dir_path", VStr "/work/products");
         ("job_id", VStr Sample.job_id);
         ("results", page);
         ("order_ids", VList []);
         ("filenames", VList [])].

(** The files of the sample disk, as [download_data] would list them. *)
Definition three_files : value :=
  VDict [("filenames", VList [VStr "/products/a.zip";
                              VStr "/products/b.zip";
                              VStr "/products/c.nc"])].

(** A zip file that holds a file and then a member of its own name, to be
    written where the zip file is: the target is created, which empties
    the zip file, and the member can then no longer be read from it. *)
Definition self_members (data : string)
  : outcome (list (string * HDA.member)) :=
  if String.eqb data "PK b.nc a.zip"
  then Ret [("b.nc", HDA.Whole "CDF");
            ("a.zip", HDA.Broken "" (OtherError "BadZipFile"))]
  else Raise (OtherError "BadZipFile").

Definition self_zip : HDA.world :=
  {| HDA.srv := Sample.server;
     HDA.disk := {[ "/products/a.zip" := "PK b.nc a.zip" ]};
     HDA.cwd := "/";
     HDA.done_so_far := [] |}.

Definition self_unzipper : Kernel HDA.world :=
  HDA.kernel Sample.wait 10 (fun s => s) (fun _ => Ret VNone) self_members.

(** Helper and library functions in a world where nothing happens, on a
    disk from which no file can be removed: every zip file is extracted,
    and [os.remove] raises. *)
Definition read_only : Kernel unit := {|
  generate_api_key := fun _ _ w => (Ret "key", w, []);
  init := fun _ _ _ w => (Ret Fields.found_nothing, w, []);
  get_access_token := fun _ w => (Ret Fields.found_nothing, w, []);
  acceptTandC := fun _ w => (Ret Fields.found_nothing, w, []);
  get_job_id := fun _ _ w => (Ret Fields.found_nothing, w, []);
  get_results_list := fun _ _ _ w => (Ret Fields.found_nothing, w, []);
  get_order_ids := fun _ w => (Ret Fields.found_nothing, w, []);
  download_data := fun _ _ _ w => (Ret Fields.found_nothing, w, []);
  display := fun _ w => (Ret tt, w, []);
  getcwd := fun w => (Ret "/work", w, []);
  path_exists := fun _ w => (Ret true, w, []);
  makedirs := fun _ w => (Ret tt, w, []);
  json_load := fun _ w => (Ret VNone, w, []);
  read_text := fun _ w => (Ret "", w, []);
  json_loads := fun _ => Ret VNone;
  glob := fun _ w => (Ret [], w, []);
  extractall := fun _ _ w => (Ret tt, w, []);
  remove := fun _ w => (Raise (OtherError "PermissionError"), w, []);
  analysis := fun _ _ w => (Ret tt, w, [])
|}.

End Cases.

(** * Properties *)

(** ** The order of strings and [sorted] *)

Module PyFacts.
Import Py.

Lemma lt_compare (a b : string) :
  lt a b = true <-> String.compare a b = Lt.
Proof.
  unfold lt, String.ltb. destruct (String.compare a b); split; congruence.
Qed.

Lemma le_compare (a b : string) : le a b <-> String.compare a b <> Gt.
Proof.
  unfold le, lt, String.ltb. rewrite (String.compare_antisym a b).
  destruct (String.compare b a); simpl; split; congruence.
Qed.

Lemma lt_trans (a b c : string) :
  lt a b = true -> lt b c = true -> lt a c = true.
Proof.
  rewrite !lt_compare. intros Hab Hbc.
  apply String_as_OT.cmp_lt. apply String_as_OT.lt_trans with b;
    by apply String_as_OT.cmp_lt.
Qed.

Lemma compare_refl (a : string) : String.compare a a = Eq.
Proof. by apply (String_as_OT.cmp_eq a a). Qed.

Lemma lt_irrefl (a : string) : lt a a = false.
Proof. unfold lt, String.ltb. by rewrite compare_refl. Qed.

Lemma lt_le (a b : string) : lt a b = true -> le a b.
Proof.
  intros Hab. rewrite le_compare. apply lt_compare in Hab. congruence.
Qed.

Lemma le_cases (a b : string) : le a b -> a = b \/ lt a b = true.
Proof.
  rewrite le_compare, lt_compare. intros H.
  destruct (String.compare a b) eqn:E; [left | by right | done].
  by apply String.compare_eq_iff.
Qed.

#[export] Instance le_trans : Transitive le.
Proof.
  intros a b c Hab Hbc.
  destruct (le_cases _ _ Hab) as [-> | Hab']; [done |].
  destruct (le_cases _ _ Hbc) as [<- | Hbc']; [done |].
  apply lt_le. by apply lt_trans with b.
Qed.

#[export] Instance le_antisym : AntiSymm (=) le.
Proof.
  intros a b Hab Hba.
  destruct (le_cases _ _ Hab) as [-> | Hab']; [done |].
  unfold le in Hba. congruence.
Qed.

(** A common prefix does not change the order. *)
Lemma compare_app (p a b : string) :
  String.compare (p ++ a) (p ++ b) = String.compare a b.
Proof.
  induction p as [| c p IH]; simpl; [done |].
  rewrite IH.
  assert (Ascii.compare c c = Eq) as ->; [| done].
  unfold Ascii.compare. apply N.compare_refl.
Qed.

Lemma lt_app (p a b : string) : lt (p ++ a) (p ++ b) = lt a b.
Proof. unfold lt, String.ltb. by rewrite compare_app. Qed.

Lemma append_assoc (a b c : string) : (a ++ b) ++ c = a ++ (b ++ c).
Proof.
  induction a as [| x a IH]; [done |].
  change (String x ((a ++ b) ++ c) = String x (a ++ (b ++ c))).
  by rewrite IH.
Qed.

(** Under a directory, relative names keep their order: they are all
    given the same prefix. *)
Lemma path_join_relative (dir : string) :
  exists p, forall name, startswith "/" name = false ->
                         path_join dir name = p ++ name.
Proof.
  unfold path_join.
  destruct (String.eqb dir "" || endswith "/" dir)%bool eqn:E.
  - exists dir. by intros name ->.
  - exists (dir ++ "/"). intros name ->. by rewrite append_assoc.
Qed.

Lemma insert_sorted_perm (x : string) (l : list string) :
  insert_sorted x l ≡ₚ x :: l.
Proof.
  induction l as [| y l IH]; simpl; [done |].
  destruct (lt y x); [| done].
  rewrite IH. apply Permutation_swap.
Qed.

Lemma sorted_perm (l : list string) : sorted l ≡ₚ l.
Proof.
  induction l as [| x l IH]; simpl; [done |].
  fold (sorted l). rewrite insert_sorted_perm. by rewrite IH.
Qed.

Lemma insert_sorted_Sorted (x : string) (l : list string) :
  Sorted le l -> Sorted le (insert_sorted x l).
Proof.
  induction l as [| y l IH]; simpl; intros Hl.
  - by repeat constructor.
  - destruct (lt y x) eqn:E.
    + apply Sorted_inv in Hl as [Hl Hy]. constructor; [by apply IH |].
      destruct l as [| z l]; simpl.
      * constructor. by apply lt_le.
      * destruct (lt z x); constructor.
        -- by inversion Hy.
        -- by apply lt_le.
    + constructor; [done |]. constructor. exact E.
Qed.

Lemma sorted_Sorted (l : list string) : Sorted le (sorted l).
Proof.
  induction l as [| x l IH]; simpl; [constructor |].
  by apply insert_sorted_Sorted.
Qed.

(** Appending one by one to an empty list copies the list. *)
Lemma append_each (l acc : list string) :
  List.fold_left (fun acc f => (acc ++ [f])%list) l acc = (acc ++ l)%list.
Proof.
  revert acc. induction l as [| x l IH]; intros acc; simpl.
  - by rewrite app_nil_r.
  - rewrite IH. by rewrite <- app_assoc.
Qed.

Lemma increasing_Sorted (l : list string) :
  increasing l = true -> Sorted le l.
Proof.
  induction l as [| x l IH]; simpl; [constructor |].
  intros [Hx Hl]%andb_true_iff. constructor; [by apply IH |].
  destruct l as [| y l]; constructor.
  simpl in Hx. apply andb_true_iff in Hx as [Hx _]. by apply lt_le.
Qed.

Lemma increasing_NoDup (l : list string) : increasing l = true -> NoDup l.
Proof.
  induction l as [| x l IH]; simpl; [constructor |].
  intros [Hx Hl]%andb_true_iff. constructor; [| by apply IH].
  intros Hin. rewrite forallb_forall in Hx.
  apply list_elem_of_In in Hin. specialize (Hx _ Hin).
  by rewrite lt_irrefl in Hx.
Qed.

Lemma increasing_filter (P : string -> bool) (l : list string) :
  increasing l = true -> increasing (List.filter P l) = true.
Proof.
  induction l as [| x l IH]; simpl; [done |].
  intros [Hx Hl]%andb_true_iff.
  destruct (P x); simpl; [| by apply IH].
  apply andb_true_iff. split; [| by apply IH].
  rewrite forallb_forall in Hx. apply forallb_forall.
  intros y [Hy _]%filter_In. by apply Hx.
Qed.

Lemma increasing_prefix (p : string) (l : list string) :
  increasing (List.map (String.append p) l) = increasing l.
Proof.
  induction l as [| x l IH]; simpl; [done |].
  rewrite IH. f_equal. clear IH.
  induction l as [| y l IHl]; simpl; [done |].
  by rewrite lt_app, IHl.
Qed.

(** A list in non-decreasing order that holds the strings of an
    increasing list, each once, is that list. *)
Lemma sorted_increasing (l ref : list string) :
  increasing ref = true -> l ≡ₚ ref -> sorted l = ref.
Proof.
  intros Href Hperm.
  apply (Sorted_unique le).
  - apply sorted_Sorted.
  - by apply increasing_Sorted.
  - by rewrite sorted_perm.
Qed.

End PyFacts.

(** ** The SST files are read in the order of time *)

Module SSTFacts.
Import Py PyFacts.

Lemma SST_files_sorted (my_files : list string) :
  SST.SST_files my_files = sorted my_files.
Proof. unfold SST.SST_files. by rewrite append_each. Qed.

Lemma user_filenames :
  List.map SST.user_filename SST.requests = SST.in_time_order.
Proof. reflexivity. Qed.

Lemma downloaded_in_time_order (dir : string) :
  SST.downloaded dir = List.map (path_join dir) SST.in_time_order.
Proof.
  unfold SST.downloaded. rewrite <- user_filenames. by rewrite List.map_map.
Qed.

Lemma downloaded_increasing (dir : string) :
  increasing (SST.downloaded dir) = true.
Proof.
  rewrite downloaded_in_time_order.
  destruct (path_join_relative dir) as [p Hp].
  assert (List.map (path_join dir) SST.in_time_order
          = List.map (String.append p) SST.in_time_order) as ->.
  { apply List.map_ext_in. intros name Hin. apply Hp.
    revert name Hin. apply List.Forall_forall.
    repeat constructor. }
  rewrite increasing_prefix. reflexivity.
Qed.

(** C10.  Whatever files of the download loop [glob.glob] finds, and in
    whatever order it lists them, [sorted] puts them in the order in which
    the loop names them, which is the order of time: the REP files of 2008
    to 2019 before the XNRT files of 2020 and 2021, each group by
    increasing year.  The files read for the time series are the files
    found, in that order. *)
Theorem SST_files_in_time_order (download_dir_path : string)
        (my_files : list string) :
  NoDup my_files ->
  (forall f, f ∈ my_files -> f ∈ SST.downloaded download_dir_path) ->
  SST.downloaded download_dir_path
  = List.map (path_join download_dir_path) SST.in_time_order
  /\ SST.SST_files my_files
     = List.filter (fun f => bool_decide (f ∈ my_files))
                   (SST.downloaded download_dir_path).
Proof.
  intros Hnodup Hincl. split; [apply downloaded_in_time_order |].
  rewrite SST_files_sorted.
  pose proof (downloaded_increasing download_dir_path) as Hinc.
  apply sorted_increasing; [by apply increasing_filter |].
  apply NoDup_Permutation; [done | |].
  - apply increasing_NoDup. by apply increasing_filter.
  - intros f. split.
    + intros Hf. apply list_elem_of_In, List.filter_In.
      split; [by apply list_elem_of_In, Hincl | by apply bool_decide_eq_true].
    + intros [_ Hf]%list_elem_of_In%List.filter_In.
      by apply bool_decide_eq_true in Hf.
Qed.

(** The files of all fourteen years, found in the opposite order. *)
Lemma SST_files_in_time_order_witness :
  SST.SST_files (List.rev (SST.downloaded "/home/user/products"))
  = List.map (path_join "/home/user/products") SST.in_time_order.
Proof.
  destruct (SST_files_in_time_order "/home/user/products"
              (List.rev (SST.downloaded "/home/user/products")))
    as [_ H].
  - apply (bool_decide_unpack _). vm_compute. exact I.
  - apply Forall_forall. apply (bool_decide_unpack _). vm_compute. exact I.
  - rewrite H. vm_compute. reflexivity.
Defined.

End SSTFacts.

(** ** How cells run *)

Module NbFacts.
Import Py Nb.
Local Open Scope nb_scope.

Section Run.
Context {W : Type}.

Lemma after_nothing (s : state W) : after s (world s) [] [] = s.
Proof. destruct s. unfold after. simpl. by rewrite !app_nil_r. Qed.

Lemma after_after (s : state W) w out calls w' out' calls' :
  after (after s w out calls) w' out' calls'
  = after s w' (out ++ out') (calls ++ calls').
Proof. unfold after. simpl. by rewrite !app_assoc. Qed.

Lemma run_ret {A} (a : A) (s : state W) : ret a s = (Ret a, s).
Proof. done. Qed.

Lemma run_print (x : string) (s : state W) :
  print x s = (Ret tt, after s (world s) [x ++ nl] []).
Proof. unfold print, after. by rewrite app_nil_r. Qed.

Lemma run_invoke {A} (c : call) (f : ext W A) (s : state W) :
  invoke c f s
  = let '(r, w, out) := f (world s) in (r, after s w out [c]).
Proof. done. Qed.

Lemma run_bind {A B} (m : M W A) (k : A -> M W B) (s : state W) :
  bind m k s
  = match m s with
    | (Ret a, s') => k a s'
    | (Raise e, s') => (Raise e, s')
    | (Timeout, s') => (Timeout, s')
    end.
Proof. done. Qed.

Lemma bind_ret {A B} (m : M W A) (k : A -> M W B) (s s' : state W) a :
  m s = (Ret a, s') -> bind m k s = k a s'.
Proof. intros H. by rewrite run_bind, H. Qed.

Lemma bind_raise {A B} (m : M W A) (k : A -> M W B) (s s' : state W) e :
  m s = (Raise e, s') -> bind m k s = (Raise e, s').
Proof. intros H. by rewrite run_bind, H. Qed.

Lemma bind_timeout {A B} (m : M W A) (k : A -> M W B) (s s' : state W) :
  m s = (Timeout, s') -> bind m k s = (Timeout, s').
Proof. intros H. by rewrite run_bind, H. Qed.

(** A bare [except] that prints: whatever the exception, the message is
    printed in the state the exception left, and the statement ends
    normally. *)
Lemma try_except_raise {A} (body : M W A) (msg : string) (a : A)
      (s s' : state W) (e : exn) :
  body s = (Raise e, s') ->
  try_except body (print msg ;; ret a) s
  = (Ret a, after s' (world s') [msg ++ nl] []).
Proof.
  intros H. unfold try_except. rewrite H.
  by rewrite run_bind, run_print.
Qed.

Lemma try_except_ret {A} (body handler : M W A) (s s' : state W) a :
  body s = (Ret a, s') -> try_except body handler s = (Ret a, s').
Proof. intros H. unfold try_except. by rewrite H. Qed.

Lemma try_except_timeout {A} (body handler : M W A) (s s' : state W) :
  body s = (Timeout, s') -> try_except body handler s = (Timeout, s').
Proof. intros H. unfold try_except. by rewrite H. Qed.

Lemma adds_refl (P : call -> Prop) (s : state W) : adds P s s.
Proof. exists []. by rewrite app_nil_r. Qed.

Lemma adds_trans (P : call -> Prop) (s1 s2 s3 : state W) :
  adds P s1 s2 -> adds P s2 s3 -> adds P s1 s3.
Proof.
  intros (c1 & H1 & F1) (c2 & H2 & F2). exists (c1 ++ c2)%list.
  rewrite H2, H1, <- app_assoc. split; [done |]. by apply Forall_app.
Qed.

Lemma adds_weaken (P Q : call -> Prop) (s s' : state W) :
  (forall c, P c -> Q c) -> adds P s s' -> adds Q s s'.
Proof.
  intros HPQ (calls & H & F). exists calls. split; [done |].
  by eapply Forall_impl.
Qed.

Lemma adds_after (P : call -> Prop) (s : state W) w out calls :
  Forall P calls -> adds P s (after s w out calls).
Proof. intros F. by exists calls. Qed.

(** What holds of every step holds of their sequence. *)
Lemma bind_adds {A B} (P : call -> Prop) (m : M W A) (k : A -> M W B)
      (s : state W) :
  adds P s (snd (m s)) ->
  (forall a s', adds P s' (snd (k a s'))) ->
  adds P s (snd (bind m k s)).
Proof.
  intros Hm Hk. rewrite run_bind. destruct (m s) as [[a | e |] s']; simpl in *.
  - eapply adds_trans; [done | apply Hk].
  - done.
  - done.
Qed.

Lemma for_each_adds {A} (P : call -> Prop) (l : list A)
      (body : A -> M W unit) :
  (forall x s, adds P s (snd (body x s))) ->
  forall s, adds P s (snd (for_each l body s)).
Proof.
  intros Hbody. induction l as [| x l IH]; intros s; simpl.
  - apply adds_refl.
  - apply bind_adds; [apply Hbody | intros _ s'; apply IH].
Qed.

Lemma for_in_adds {A V} (P : call -> Prop) (l : list A)
      (body : A -> V -> M W V) :
  (forall x v s, adds P s (snd (body x v s))) ->
  forall v s, adds P s (snd (for_in l body v s)).
Proof.
  intros Hbody. induction l as [| x l IH]; intros v s; simpl.
  - apply adds_refl.
  - apply bind_adds; [apply Hbody | intros v' s'; apply IH].
Qed.

Lemma invoke_adds {A} (P : call -> Prop) (c : call) (f : ext W A)
      (s : state W) :
  P c -> adds P s (snd (invoke c f s)).
Proof.
  intros Hc. rewrite run_invoke. destruct (f (world s)) as [[r w] out].
  simpl. apply adds_after. by constructor.
Qed.

Lemma print_adds (P : call -> Prop) (x : string) (s : state W) :
  adds P s (snd (print x s)).
Proof. rewrite run_print. simpl. by apply adds_after. Qed.

Lemma eval_adds {A} (P : call -> Prop) (o : outcome A) (s : state W) :
  adds P s (snd (eval o s)).
Proof. apply adds_refl. Qed.

Lemma ret_adds {A} (P : call -> Prop) (a : A) (s : state W) :
  adds P s (snd (ret a s)).
Proof. apply adds_refl. Qed.

Lemma raise_adds {A} (P : call -> Prop) (e : exn) (s : state W) :
  adds P s (snd (raise (A:=A) e s)).
Proof. apply adds_refl. Qed.

Lemma try_except_adds {A} (P : call -> Prop) (body handler : M W A)
      (s : state W) :
  adds P s (snd (body s)) ->
  (forall s', adds P s' (snd (handler s'))) ->
  adds P s (snd (try_except body handler s)).
Proof.
  intros Hb Hh. unfold try_except.
  destruct (body s) as [[a | e |] s']; simpl in *; [done | | done].
  eapply adds_trans; [done | apply Hh].
Qed.

End Run.

(** Two descriptions of the same state agree once the appended lists are
    put in the same shape. *)
Ltac same_state :=
  unfold after; simpl;
  rewrite ?app_nil_r, <- ?app_assoc; simpl; try done.

End NbFacts.

(** ** The two [try] statements *)

Module HandlerFacts.
Import Py Nb NbFacts.
Local Open Scope nb_scope.

Section Handlers.
Context {W : Type} {K : Kernel W}.

(** The [try] block of the how-to notebook can only raise where it loads
    the file, and it has then made that one call. *)
Lemma try_load_raises (s s' : state W) (e : exn) :
  HowTo.try_load s = (Raise e, s') ->
  exists w out,
    json_load "./olci_data_descriptor.json" (world s) = (Raise e, w, out)
    /\ s' = after s w out [JsonLoad "./olci_data_descriptor.json"].
Proof.
  unfold HowTo.try_load. rewrite run_bind, run_invoke.
  destruct (json_load _ (world s)) as [[r w] out]. destruct r as [d | e' |].
  - rewrite run_bind, run_print, run_bind, run_print, run_ret. discriminate.
  - intros [= -> <-]. by exists w, out.
  - discriminate.
Qed.

(** The [try] block of the unzip loop raises where it extracts, having made
    that one call, or where it removes the file, having made the two calls
    once each. *)
Lemma try_unzip_raises (filename : string) (s s' : state W) (e : exn) :
  MHW.try_unzip filename s = (Raise e, s') ->
  (exists w out,
      extractall filename (dirname filename) (world s) = (Raise e, w, out)
      /\ s' = after s w out [Extractall filename (dirname filename)])
  \/ (exists w1 out1 w out,
         extractall filename (dirname filename) (world s)
         = (Ret tt, w1, out1)
         /\ remove filename w1 = (Raise e, w, out)
         /\ s' = after s w (out1 ++ out)
                       [Extractall filename (dirname filename);
                        Remove filename]).
Proof.
  unfold MHW.try_unzip. rewrite run_bind, run_invoke.
  destruct (extractall _ _ (world s)) as [[r w1] out1].
  destruct r as [[] | e' |].
  - rewrite run_invoke. simpl.
    destruct (remove filename w1) as [[r w] out] eqn:Hrm.
    intros [= -> <-]. right. exists w1, out1, w, out.
    by rewrite after_after.
  - intros [= -> <-]. left. by exists w1, out1.
  - discriminate.
Qed.

(** The turn of the unzip loop for a zip file whose extraction returns
    and whose removal raises. *)
Lemma unzip_file_remove_raises (filename : string) (s : state W) (e : exn)
      (w1 w : W) (out1 out : list string) :
  snd (splitext filename) = ".zip" ->
  extractall filename (dirname filename) (world s) = (Ret tt, w1, out1) ->
  remove filename w1 = (Raise e, w, out) ->
  MHW.unzip_file filename s
  = (Ret tt,
     after s w (["Unzipping file" ++ nl] ++ out1 ++ out
                  ++ ["Failed to unzip...." ++ nl])
           [Extractall filename (dirname filename); Remove filename]).
Proof.
  intros Hext Hex Hrm. unfold MHW.unzip_file.
  apply String.eqb_eq in Hext. rewrite Hext.
  rewrite run_bind, run_print.
  assert (MHW.try_unzip filename
            (after s (world s) ["Unzipping file" ++ nl] [])
          = (Raise e,
             after s w (["Unzipping file" ++ nl] ++ out1 ++ out)
                   [Extractall filename (dirname filename);
                    Remove filename]))
    as Hraise.
  { unfold MHW.try_unzip. rewrite run_bind, run_invoke. simpl.
    rewrite Hex. rewrite run_invoke. simpl. rewrite Hrm. same_state. }
  replace (print "Failed to unzip....")
    with (print (W:=W) "Failed to unzip...." ;; ret tt) by done.
  rewrite (try_except_raise _ _ _ _ _ _ Hraise).
  rewrite after_after, app_nil_r. f_equal. f_equal. simpl. f_equal.
  symmetry. apply app_assoc.
Qed.

(** The turn of the unzip loop for a zip file whose extraction raises. *)
Lemma unzip_file_extract_raises (filename : string) (s : state W) (e : exn)
      (w : W) (out : list string) :
  snd (splitext filename) = ".zip" ->
  extractall filename (dirname filename) (world s) = (Raise e, w, out) ->
  MHW.unzip_file filename s
  = (Ret tt,
     after s w (["Unzipping file" ++ nl] ++ out
                  ++ ["Failed to unzip...." ++ nl])
           [Extractall filename (dirname filename)]).
Proof.
  intros Hext Hex. unfold MHW.unzip_file.
  apply String.eqb_eq in Hext. rewrite Hext.
  rewrite run_bind, run_print.
  assert (MHW.try_unzip filename
            (after s (world s) ["Unzipping file" ++ nl] [])
          = (Raise e,
             after s w (["Unzipping file" ++ nl] ++ out)
                   [Extractall filename (dirname filename)]))
    as Hraise.
  { unfold MHW.try_unzip. rewrite run_bind, run_invoke. simpl.
    rewrite Hex. same_state. }
  replace (print "Failed to unzip....")
    with (print (W:=W) "Failed to unzip...." ;; ret tt) by done.
  rewrite (try_except_raise _ _ _ _ _ _ Hraise). same_state.
Qed.

(** C7.  Both [try] statements of the notebooks, the one that loads the
    data descriptor in the how-to notebook and the one that unzips a file
    in the marine-heatwaves notebook, take every exception of their block:
    the statement then ends normally, in the state in which the exception
    was raised but for the one fixed message printed after it; no call is
    made after the exception, and the block had made each of its calls at
    most once.  For the unzip loop this is one turn of the loop for a zip
    file, whether it is the extraction that raises or, after it, the
    removal of the file. *)
Theorem handlers_print_only :
  (forall (s s' : state W) (e : exn),
      HowTo.try_load s = (Raise e, s') ->
      HowTo.load_descriptor s
      = (Ret None, after s' (world s') [HowTo.not_loaded ++ nl] [])
      /\ exists w out,
          s' = after s w out [JsonLoad "./olci_data_descriptor.json"])
  /\ (forall (filename : string) (s : state W),
         snd (splitext filename) = ".zip" ->
         (forall e w out,
             extractall filename (dirname filename) (world s)
             = (Raise e, w, out) ->
             MHW.unzip_file filename s
             = (Ret tt,
                after s w (["Unzipping file" ++ nl] ++ out
                             ++ ["Failed to unzip...." ++ nl])
                      [Extractall filename (dirname filename)]))
         /\ (forall e w1 out1 w out,
                extractall filename (dirname filename) (world s)
                = (Ret tt, w1, out1) ->
                remove filename w1 = (Raise e, w, out) ->
                MHW.unzip_file filename s
                = (Ret tt,
                   after s w (["Unzipping file" ++ nl] ++ out1 ++ out
                                ++ ["Failed to unzip...." ++ nl])
                         [Extractall filename (dirname filename);
                          Remove filename]))).
Proof.
  split.
  - intros s s' e H. split.
    + unfold HowTo.load_descriptor. by apply try_except_raise with e.
    + destruct (try_load_raises _ _ _ H) as (w & out & _ & ->). eauto.
  - intros filename s Hext. split.
    + intros e w out. by apply unzip_file_extract_raises.
    + intros e w1 out1 w out. by apply unzip_file_remove_raises.
Qed.

(** One turn of the unzip loop, by cases: the file is not a zip file; the
    extraction raises; the extraction does not end; the extraction
    succeeds and the file is removed. *)
Lemma unzip_file_cases (filename : string) (s : state W) :
  let unzipping := "Unzipping file" ++ nl in
  let failed := "Failed to unzip...." ++ nl in
  let extract := Extractall filename (dirname filename) in
  if String.eqb (snd (splitext filename)) ".zip" then
    match extractall filename (dirname filename) (world s) with
    | (Raise e, w, out) =>
        MHW.unzip_file filename s
        = (Ret tt, after s w ([unzipping] ++ out ++ [failed]) [extract])
    | (Timeout, w, out) =>
        MHW.unzip_file filename s
        = (Timeout, after s w ([unzipping] ++ out) [extract])
    | (Ret _, w1, out1) =>
        exists r s', MHW.unzip_file filename s = (r, s')
                     /\ log s' = (log s ++ [extract; Remove filename])%list
    end
  else MHW.unzip_file filename s = (Ret tt, s).
Proof.
  intros unzipping failed extract. unfold MHW.unzip_file.
  destruct (String.eqb _ _); [| done].
  rewrite run_bind, run_print.
  destruct (extractall _ _ (world s)) as [[r w1] out1] eqn:Hex.
  destruct r as [[] | e |].
  - assert (exists r s', MHW.try_unzip filename
                           (after s (world s) [unzipping] []) = (r, s')
                         /\ log s' = (log s ++ [extract; Remove filename])%list)
      as (r & s' & Hrun & Hlog).
    { unfold MHW.try_unzip. rewrite run_bind, run_invoke. simpl. rewrite Hex.
      rewrite run_invoke. simpl.
      destruct (remove filename w1) as [[r w] out].
      eexists _, _. split; [done |]. simpl.
      by rewrite app_nil_r, <- app_assoc. }
    destruct r as [[] | e |].
    + eexists _, _. split; [by eapply try_except_ret |]. done.
    + eexists _, _. split.
      * replace (print "Failed to unzip....")
          with (print (W:=W) "Failed to unzip...." ;; ret tt) by done.
        by eapply try_except_raise.
      * simpl. by rewrite app_nil_r.
    + eexists _, _. split; [by eapply try_except_timeout |]. done.
  - assert (MHW.try_unzip filename (after s (world s) [unzipping] [])
            = (Raise e, after s w1 ([unzipping] ++ out1) [extract]))
      as Hraise.
    { unfold MHW.try_unzip. rewrite run_bind, run_invoke. simpl.
      rewrite Hex. same_state. }
    replace (print "Failed to unzip....")
      with (print (W:=W) "Failed to unzip...." ;; ret tt) by done.
    rewrite (try_except_raise _ _ _ _ _ _ Hraise). same_state.
  - assert (MHW.try_unzip filename (after s (world s) [unzipping] [])
            = (Timeout, after s w1 ([unzipping] ++ out1) [extract]))
      as Htime.
    { unfold MHW.try_unzip. rewrite run_bind, run_invoke. simpl.
      rewrite Hex. same_state. }
    by rewrite (try_except_timeout _ _ _ _ Htime).
Qed.

(** Every call of the unzip cell is about a zip file. *)
Lemma unzip_file_calls (filename : string) (s : state W) :
  adds MHW.zip_call s (snd (MHW.unzip_file filename s)).
Proof.
  unfold MHW.unzip_file.
  destruct (String.eqb _ _) eqn:Hext; [| apply ret_adds].
  apply String.eqb_eq in Hext.
  apply bind_adds; [apply print_adds |]. intros _ s'.
  apply try_except_adds; [| intros; apply print_adds].
  unfold MHW.try_unzip.
  apply bind_adds; [by apply invoke_adds |]. intros _ s''.
  by apply invoke_adds.
Qed.

Lemma unzip_cell_calls (download_data : bool) (HAPI_dict : option value)
      (s : state W) :
  adds MHW.zip_call s (snd (MHW.unzip_cell download_data HAPI_dict s)).
Proof.
  unfold MHW.unzip_cell. destruct download_data; [| apply ret_adds].
  apply bind_adds.
  { destruct HAPI_dict; [apply ret_adds | apply raise_adds]. }
  intros d s1. apply bind_adds; [apply eval_adds |].
  intros filenames s2. apply for_each_adds. intros x s3.
  apply bind_adds; [apply eval_adds |].
  intros filename s4. apply unzip_file_calls.
Qed.

(** C8, as amended.  The unzip loop removes a zip file only after its
    extraction has succeeded.  For a file whose extension is [.zip]: if
    the extraction raises, the turn ends normally having made the one call
    that extracts and no call that removes; the cell does nothing more to
    the file, and the world is as the failed extraction left it, with
    whatever that extraction had written before it raised; the file is
    removed only where the extraction returned.  For a file with another
    extension the turn does nothing.  Every call the whole cell makes
    extracts or removes a file whose extension is [.zip]. *)
Theorem zip_removed_only_after_extraction (filename : string)
        (s : state W) :
  (snd (splitext filename) = ".zip" ->
   (forall e w out,
       extractall filename (dirname filename) (world s) = (Raise e, w, out) ->
       MHW.unzip_file filename s
       = (Ret tt,
          after s w (["Unzipping file" ++ nl] ++ out
                       ++ ["Failed to unzip...." ++ nl])
                [Extractall filename (dirname filename)]))
   /\ (forall r s' calls,
          MHW.unzip_file filename s = (r, s') ->
          log s' = (log s ++ calls)%list ->
          Remove filename ∈ calls ->
          exists w out,
            extractall filename (dirname filename) (world s)
            = (Ret tt, w, out)))
  /\ (snd (splitext filename) <> ".zip" ->
      MHW.unzip_file filename s = (Ret tt, s))
  /\ (forall download_data HAPI_dict,
         adds MHW.zip_call s
              (snd (MHW.unzip_cell download_data HAPI_dict s))).
Proof.
  pose proof (unzip_file_cases filename s) as Hcases. simpl in Hcases.
  split; [| split].
  - intros Hext. apply String.eqb_eq in Hext. rewrite Hext in Hcases.
    split.
    + intros e w out Hex. by rewrite Hex in Hcases.
    + intros r s' calls Hrun Hlog Hin.
      destruct (extractall _ _ (world s)) as [[r1 w1] out1].
      destruct r1 as [[] | e |].
      * by exists w1, out1.
      * rewrite Hcases in Hrun. injection Hrun as <- <-. simpl in Hlog.
        apply app_inv_head in Hlog. subst calls.
        apply list_elem_of_singleton in Hin. discriminate.
      * rewrite Hcases in Hrun. injection Hrun as <- <-. simpl in Hlog.
        apply app_inv_head in Hlog. subst calls.
        apply list_elem_of_singleton in Hin. discriminate.
  - intros Hext. apply String.eqb_neq in Hext. by rewrite Hext in Hcases.
  - intros download_data HAPI_dict. apply unzip_cell_calls.
Qed.

End Handlers.

(** The descriptor file is missing from the sample world; the first zip
    file of the sample disk cannot be read; on a disk from which nothing
    can be removed the extraction is followed by the one failed removal. *)
Lemma handlers_print_only_witness :
  HowTo.load_descriptor (K:=Sample.kernel) (start Sample.world)
  = (Ret None,
     after (start Sample.world) Sample.world [HowTo.not_loaded ++ nl]
           [JsonLoad "./olci_data_descriptor.json"])
  /\ MHW.unzip_file (K:=Sample.unzipper) "/products/a.zip"
                    (start Sample.zips)
     = (Ret tt,
        after (start Sample.zips) Sample.zips
              ["Unzipping file" ++ nl; "Failed to unzip...." ++ nl]
              [Extractall "/products/a.zip" "/products"])
  /\ MHW.unzip_file (K:=Cases.read_only) "/products/a.zip" (start tt)
     = (Ret tt,
        after (start tt) tt
              ["Unzipping file" ++ nl; "Failed to unzip...." ++ nl]
              [Extractall "/products/a.zip" "/products";
               Remove "/products/a.zip"]).
Proof.
  split; [| split].
  - destruct (handlers_print_only (K:=Sample.kernel)) as [H _].
    edestruct (H (start Sample.world)) as [Hrun _].
    + vm_compute. reflexivity.
    + rewrite Hrun. reflexivity.
  - destruct (handlers_print_only (K:=Sample.unzipper)) as [_ H].
    destruct (H "/products/a.zip" (start Sample.zips)) as [Hrun _];
      [reflexivity |].
    erewrite Hrun by (vm_compute; reflexivity). reflexivity.
  - destruct (handlers_print_only (K:=Cases.read_only)) as [_ H].
    destruct (H "/products/a.zip" (start tt)) as [_ Hrun];
      [reflexivity |].
    erewrite Hrun by (vm_compute; reflexivity). reflexivity.
Defined.

(** The first zip file of the sample disk cannot be read: it is still
    there after the turn, with the bytes it had. *)
Lemma zip_removed_only_after_extraction_witness :
  let '(r, s) := MHW.unzip_file (K:=Sample.unzipper) "/products/a.zip"
                                (start Sample.zips) in
  r = Ret tt
  /\ log s = [Extractall "/products/a.zip" "/products"]
  /\ HDA.disk (world s) !! "/products/a.zip" = Some "broken".
Proof.
  destruct (zip_removed_only_after_extraction (K:=Sample.unzipper)
              "/products/a.zip" (start Sample.zips)) as [H _].
  destruct H as [H _]; [reflexivity |].
  erewrite H by (vm_compute; reflexivity).
  repeat split.
Defined.

(** C8 fails where it says that the zip file remains on the disk
    unchanged.  The zip file of this world holds a file and, after it, a
    member of its own name: [extractall] writes the file, creates the
    target of the member where the zip file is, which empties it, and
    raises as it reads on.  The turn ends normally and [os.remove] is not
    called, but the zip file no longer holds the bytes it held. *)
Lemma failed_extraction_changes_the_zip :
  let s := start Cases.self_zip in
  let '(r, s') := MHW.unzip_file (K:=Cases.self_unzipper) "/products/a.zip"
                                 s in
  (exists e w out,
      extractall (Kernel:=Cases.self_unzipper) "/products/a.zip"
                 (dirname "/products/a.zip") (world s)
      = (Raise e, w, out))
  /\ r = Ret tt
  /\ log s' = [Extractall "/products/a.zip" "/products"]
  /\ HDA.disk (world s) !! "/products/a.zip" = Some "PK b.nc a.zip"
  /\ HDA.disk (world s') !! "/products/a.zip" = Some ""
  /\ HDA.disk (world s') !! "/products/b.nc" = Some "CDF"
  /\ HDA.disk (world s') !! "/products/a.zip"
     <> HDA.disk (world s) !! "/products/a.zip".
Proof.
  vm_compute. split; [by eexists _, _, _ |]. by repeat split.
Qed.

End HandlerFacts.

(** ** The order of the calls of a notebook *)

Module WorkflowFacts.
Import Py Nb NbFacts Workflow.
Local Open Scope nb_scope.

Lemma bind_assoc {W A B C} (m : M W A) (k : A -> M W B) (k' : B -> M W C)
      (s : state W) :
  bind (bind m k) k' s = bind m (fun a => bind (k a) k') s.
Proof. rewrite !run_bind. by destruct (m s) as [[a | e |] s']. Qed.

(** One statement of a cell, by its ends. *)
Ltac statement :=
  match goal with
  | |- context [bind (bind ?m ?k) ?k' ?s] =>
      rewrite (bind_assoc m k k' s)
  | |- context [bind (if ?b then _ else _) _ _] => destruct b
  | |- context [bind (invoke ?c ?f) ?k ?s] =>
      rewrite (run_bind (invoke c f) k s), (run_invoke c f s);
      cbn [world after];
      let r := fresh "r" in
      let w := fresh "w" in
      let out := fresh "out" in
      destruct f as [[r w] out];
      destruct r as [? | ? |]; cbn [fst snd]
  | |- context [bind (print ?x) ?k ?s] =>
      rewrite (run_bind (print x) k s), (run_print x s); cbn [world after]
  | |- context [bind (eval ?o) ?k ?s] =>
      rewrite (run_bind (eval o) k s); unfold eval at 1;
      destruct o as [? | ? |]; cbn [fst snd]
  | |- context [bind (ret ?a) ?k ?s] =>
      rewrite (run_bind (ret a) k s), (run_ret a s)
  | |- context [bind (raise ?e) ?k ?s] =>
      rewrite (run_bind (raise e) k s); unfold raise at 1; cbn [fst snd]
  | |- context [invoke ?c ?f ?s] =>
      rewrite (run_invoke c f s);
      cbn [world after];
      let r := fresh "r" in
      let w := fresh "w" in
      let out := fresh "out" in
      destruct f as [[r w] out];
      destruct r as [? | ? |]; cbn [fst snd]
  end.

Section Order.
Context {W : Type} {K : Kernel W}.



Lemma asdf_unbound :
  name (W:=W) MHW.bound_at_asdf "asdf" = raise (NameError "asdf").
Proof. reflexivity. Qed.




End Order.

End WorkflowFacts.

(** ** The SLSTR download cell *)

Module SLSTRFacts.
Import Py Nb NbFacts WorkflowFacts.
Local Open Scope nb_scope.

Section Cell.
Context {W : Type} {K : Kernel W}.

Lemma launch_job_calls (api_key download_dir_path JSON_query_file : string)
      (s : state W) :
  adds MHW.launch_call s
       (snd (MHW.launch_job api_key download_dir_path JSON_query_file s)).
Proof.
  unfold MHW.launch_job.
  repeat (apply bind_adds; [first [by apply invoke_adds | apply print_adds] |];
          intros ? ?).
  by apply invoke_adds.
Qed.

(** The statements between the job and the loop print three lines and
    raise. *)
Lemma check_results_raises (HAPI_dict : value) (s : state W) :
  MHW.check_results HAPI_dict s
  = (Raise (NameError "asdf"),
     after s (world s)
           ["Getting results..." ++ nl; "------------------" ++ nl;
            repr HAPI_dict ++ nl] []).
Proof.
  unfold MHW.check_results. rewrite asdf_unbound.
  repeat statement. unfold raise. f_equal. same_state.
Qed.

(** C4.  With [download_data] set to [True], the SLSTR download cell never
    reaches its end and makes no call but those of its first statements
    ([init], [get_access_token], [acceptTandC], the load of the query,
    [get_job_id]): no results are listed, nothing is ordered, nothing is
    downloaded.  Once [get_job_id] has returned, three lines are printed
    and the name [asdf], which nothing binds, raises a [NameError]; the
    pagination loop is not entered, whatever the steps it is allowed. *)
Theorem SLSTR_cell_stops_at_asdf (fuel : nat)
        (api_key download_dir_path JSON_query_file : string)
        (verbose : bool) (s : state W) :
  let cell := MHW.SLSTR_download_cell fuel true api_key download_dir_path
                                      JSON_query_file verbose in
  (forall HAPI_dict, fst (cell s) <> Ret HAPI_dict)
  /\ adds MHW.launch_call s (snd (cell s))
  /\ (forall HAPI_dict s',
         MHW.launch_job api_key download_dir_path JSON_query_file s
         = (Ret HAPI_dict, s') ->
         cell s
         = (Raise (NameError "asdf"),
            after s' (world s')
                  ["Getting results..." ++ nl; "------------------" ++ nl;
                   repr HAPI_dict ++ nl] [])).
Proof.
  intros cell. subst cell. unfold MHW.SLSTR_download_cell.
  pose proof (launch_job_calls api_key download_dir_path JSON_query_file s)
    as Hcalls.
  rewrite run_bind.
  destruct (MHW.launch_job _ _ _ s) as [[d | e |] s1]; cbn [fst snd] in *.
  - rewrite run_bind, check_results_raises. cbn [fst snd].
    split; [done |]. split.
    + eapply adds_trans; [done |]. by apply adds_after.
    + by intros ? ? [= <- <-].
  - split; [done |]. split; [done |]. discriminate.
  - split; [done |]. split; [done |]. discriminate.
Qed.

End Cell.

Section Loop.
Context {W : Type} {K : Kernel W}.

(** What is known of the server and of the helper functions while the loop
    runs.  [Listing], [Ordering] and [Downloading] say of [HAPI_dict] and
    the world that they are fit for the next call: wherever a page can be
    listed, a page of results is returned that reports [T] items in all and
    at least one item in the page, and its files can be ordered; wherever
    files can be ordered, the orders return and the files can be
    downloaded; wherever they can be downloaded, the download returns and
    a page can be listed again. *)
Variables Listing Ordering Downloading : value -> W -> Prop.
Variable T : Z.
Variable verbose : bool.

Hypothesis results_page : forall d w page,
  Listing d w ->
  exists d' w' out n,
    get_results_list d (Some page) (Some verbose) w = (Ret d', w', out)
    /\ Ordering d' w'
    /\ and_then (getitem d' "results") (fun r => getitem r "totItems")
       = Ret (VInt T)
    /\ and_then (getitem d' "results") (fun r => getitem r "itemsInPage")
       = Ret (VInt n)
    /\ 1 <= n.

Hypothesis orders_return : forall d w,
  Ordering d w ->
  exists d' w' out,
    get_order_ids d w = (Ret d', w', out) /\ Downloading d' w'.

Hypothesis download_returns : forall d w,
  Downloading d w ->
  exists d' w' out,
    download_data d (Some ".zip") None w = (Ret d', w', out)
    /\ Listing d' w'.

Lemma less_int (a b : Z) : less (VInt a) (VInt b) = Ret (a <? b).
Proof.
  unfold less, number, Qle_bool. simpl. rewrite !Z.mul_1_r.
  f_equal. destruct (Z.leb_spec b a), (Z.ltb_spec a b); simpl; lia.
Qed.

(** One turn of the loop. *)
Lemma next_page_run (v : MHW.paging) (f : Z) (s : state W) :
  Listing (MHW.HAPI_dict v) (world s) ->
  MHW.found_results v = VInt f ->
  exists d' n s',
    1 <= n
    /\ MHW.next_page verbose v s
       = (Ret (MHW.before_first_page d' (VInt T) (VInt (f + n))
                                     (MHW.page_count v + 1)), s')
    /\ Listing d' (world s')
    /\ log s' = (log s ++ [GetResultsList (Some (MHW.page_count v + 1));
                           GetOrderIds;
                           DownloadData (Some ".zip") None])%list.
Proof.
  intros HInv Hfound. unfold MHW.next_page.
  destruct (results_page _ _ (MHW.page_count v + 1) HInv)
    as (d1 & w1 & out1 & n & Hget & HInv1 & Htot & Hitems & Hn).
  rewrite run_bind, run_invoke, Hget.
  rewrite run_bind. unfold eval at 1. rewrite Htot.
  rewrite run_bind. unfold eval at 1.
  assert (and_then (getitem d1 "results") (fun r =>
          and_then (getitem r "itemsInPage") (fun n =>
          add (MHW.found_results v) n)) = Ret (VInt (f + n))) as ->.
  { revert Hitems. destruct (getitem d1 "results") as [r | |]; simpl;
      [| discriminate | discriminate].
    intros ->. simpl. by rewrite Hfound. }
  do 4 (rewrite run_bind, run_print).
  destruct (orders_return _ _ HInv1) as (d2 & w2 & out2 & Hord & HInv2).
  rewrite run_bind, run_invoke. cbn [world after]. rewrite Hord.
  rewrite run_bind, run_print.
  destruct (download_returns _ _ HInv2) as (d3 & w3 & out3 & Hdl & HInv3).
  rewrite run_bind, run_invoke. cbn [world after]. rewrite Hdl.
  rewrite run_ret.
  exists d3, n. eexists. split; [done |]. split; [done |].
  split; [done |]. same_state.
Qed.

Lemma pages_from_S (first : Z) (n : nat) :
  MHW.pages_from first (S n) = first :: MHW.pages_from (first + 1) n.
Proof.
  unfold MHW.pages_from. simpl. rewrite Z.add_0_r. f_equal.
  rewrite <- List.seq_shift, List.map_map.
  apply List.map_ext. intros i. lia.
Qed.

(** The loop once the total is known: it ends within [T - f] turns. *)
Lemma loop_ends (k : nat) :
  forall (v : MHW.paging) (f : Z) (s : state W),
    (Z.to_nat (T - f) <= k)%nat ->
    Listing (MHW.HAPI_dict v) (world s) ->
    MHW.total_results v = VInt T ->
    MHW.found_results v = VInt f ->
    exists n v' s' calls f',
      (n <= Z.to_nat (T - f))%nat
      /\ (forall fuel, (n < fuel)%nat ->
                       MHW.pagination_loop fuel verbose v s = (Ret v', s'))
      /\ log s' = (log s ++ calls)%list
      /\ MHW.pages_of calls = MHW.pages_from (MHW.page_count v + 1) n
      /\ MHW.found_results v' = VInt f'
      /\ T <= f'.
Proof.
  induction k as [| k IH]; intros v f s Hk HInv Htot Hfound.
  - exists 0%nat, v, s, [], f.
    split; [lia |]. split.
    + intros [| fuel] Hfuel; [lia |].
      unfold MHW.pagination_loop. simpl. rewrite run_bind.
      unfold MHW.more_pages, eval. rewrite Hfound, Htot, less_int.
      assert ((f <? T) = false) as -> by (apply Z.ltb_ge; lia). done.
    + split; [by rewrite app_nil_r |]. split; [done |].
      split; [done | lia].
  - destruct (Z.ltb_spec f T) as [Hlt | Hge].
    + destruct (next_page_run v f s HInv Hfound)
        as (d' & n1 & s1 & Hn1 & Hrun & HInv1 & Hlog1).
      destruct (IH (MHW.before_first_page d' (VInt T) (VInt (f + n1))
                                          (MHW.page_count v + 1))
                   (f + n1) s1) as (n & v' & s' & calls & f' & Hn & Hloop
                                    & Hlog & Hpages & Hf' & HT);
        [lia | done | done | done |].
      exists (S n), v', s',
        ([GetResultsList (Some (MHW.page_count v + 1)); GetOrderIds;
          DownloadData (Some ".zip") None] ++ calls)%list, f'.
      split; [lia |]. split.
      * intros [| fuel] Hfuel; [lia |].
        unfold MHW.pagination_loop. simpl. rewrite run_bind.
        unfold MHW.more_pages, eval. rewrite Hfound, Htot, less_int.
        assert ((f <? T) = true) as -> by (apply Z.ltb_lt; lia).
        rewrite run_bind, Hrun. apply Hloop. lia.
      * split; [by rewrite Hlog, Hlog1, <- app_assoc |].
        split; [| done].
        rewrite pages_from_S. simpl. f_equal. exact Hpages.
    + exists 0%nat, v, s, [], f.
      split; [lia |]. split.
      * intros [| fuel] Hfuel; [lia |].
        unfold MHW.pagination_loop. simpl. rewrite run_bind.
        unfold MHW.more_pages, eval. rewrite Hfound, Htot, less_int.
        assert ((f <? T) = false) as -> by (apply Z.ltb_ge; lia). done.
      * split; [by rewrite app_nil_r |]. split; [done |].
        split; [done | lia].
Qed.

(** C3.  The pagination loop of the SLSTR download cell ends.  If every
    page of results reports the same total [T] and at least one item, and
    the orders and downloads return, then from [found_results = 0],
    [total_results = 1e6] and [page_count = -1] the loop asks for the pages
    0, 1, 2, ..., n-1 in that order, for some n from 1 to the larger of 1
    and [T], and leaves normally with [found_results >= T]; allowed more
    than n tests of its condition it always does so. *)
Theorem pagination_terminates (HAPI_dict : value) (s : state W) :
  Listing HAPI_dict (world s) ->
  exists n v s' calls f,
    (1 <= n)%nat
    /\ Z.of_nat n <= Z.max 1 T
    /\ (forall fuel,
           (n < fuel)%nat ->
           MHW.pagination_loop fuel verbose
             (MHW.before_first_page HAPI_dict (VFloat (1000000 # 1))
                                    (VInt 0) (-1)) s
           = (Ret v, s'))
    /\ log s' = (log s ++ calls)%list
    /\ MHW.pages_of calls = List.map Z.of_nat (List.seq 0 n)
    /\ MHW.found_results v = VInt f
    /\ T <= f.
Proof.
  intros HInv.
  set (v0 := MHW.before_first_page HAPI_dict (VFloat (1000000 # 1))
                                   (VInt 0) (-1)).
  destruct (next_page_run v0 0 s HInv eq_refl)
    as (d1 & n1 & s1 & Hn1 & Hrun & HInv1 & Hlog1).
  destruct (loop_ends (Z.to_nat (T - (0 + n1)))
              (MHW.before_first_page d1 (VInt T) (VInt (0 + n1))
                                     (MHW.page_count v0 + 1))
              (0 + n1) s1) as (n & v' & s' & calls & f' & Hn & Hloop
                               & Hlog & Hpages & Hf' & HT);
    [lia | done | done | done |].
  exists (S n), v', s',
    ([GetResultsList (Some 0); GetOrderIds;
      DownloadData (Some ".zip") None] ++ calls)%list, f'.
  split; [lia |]. split; [lia |]. split.
  - intros [| fuel] Hfuel; [lia |].
    unfold MHW.pagination_loop. simpl. rewrite run_bind.
    replace (MHW.more_pages v0 s) with (Ret true, s) by done.
    rewrite run_bind, Hrun. apply Hloop. lia.
  - split; [by rewrite Hlog, Hlog1, <- app_assoc |].
    split; [| done].
    change (List.map Z.of_nat (List.seq 0 (S n)))
      with (MHW.pages_from 0 (S n)).
    rewrite pages_from_S. simpl. f_equal. exact Hpages.
Qed.

End Loop.

End SLSTRFacts.

(** ** The helper functions as modelled *)

Module HDAFacts.
Import Py Nb HDA.
Local Open Scope hda_scope.

Lemma sequence_runs {A B} (m : ext world A) (k : A -> ext world B) (w : world) :
  bind m k w
  = match m w with
    | (Ret a, w', out) =>
        let '(r, w'', out') := k a w' in (r, w'', (out ++ out')%list)
    | (Raise e, w', out) => (Raise e, w', out)
    | (Timeout, w', out) => (Timeout, w', out)
    end.
Proof. done. Qed.

(** If a sequence returns, its first part has returned and the rest has
    returned from where the first part ended. *)
Lemma bind_returns {A B} (m : ext world A) (k : A -> ext world B)
      (w w'' : world) (b : B) (out : list string) :
  bind m k w = (Ret b, w'', out) ->
  exists a w' out1 out2,
    m w = (Ret a, w', out1) /\ k a w' = (Ret b, w'', out2)
    /\ out = (out1 ++ out2)%list.
Proof.
  rewrite sequence_runs. destruct (m w) as [[[a | e |] w'] out1]; try discriminate.
  destruct (k a w') as [[r w2] out2] eqn:Hk. intros [= -> <- <-].
  by exists a, w', out1, out2.
Qed.

Lemma steps_srv (w w' : world) (actions : list action) :
  steps w w' actions -> srv w' = srv w.
Proof. by intros (H & _). Qed.

Lemma steps_refl (w : world) : steps w w [].
Proof. unfold steps. by rewrite app_nil_r. Qed.

Lemma steps_trans (w1 w2 w3 : world) (a1 a2 : list action) :
  steps w1 w2 a1 -> steps w2 w3 a2 -> steps w1 w3 (a1 ++ a2).
Proof.
  intros (S1 & C1 & D1) (S2 & C2 & D2). unfold steps.
  rewrite S2, S1, C2, C1, D2, D1, app_assoc. done.
Qed.

Lemma ret_returns {A} (a b : A) (w w' : world) out :
  ret a w = (Ret b, w', out) -> b = a /\ w' = w /\ out = [].
Proof. unfold ret. by intros [= <- <- <-]. Qed.

Lemma eval_returns {A} (o : outcome A) (w w' : world) (a : A) out :
  eval o w = (Ret a, w', out) -> o = Ret a /\ w' = w /\ out = [].
Proof. unfold eval. by intros [= -> <- <-]. Qed.

Lemma print_returns (x : string) (w w' : world) u out :
  print x w = (Ret u, w', out) -> w' = w /\ out = [x ++ nl].
Proof. unfold print, write. by intros [= <- <-]. Qed.

Lemma write_returns (x : string) (w w' : world) u out :
  write x w = (Ret u, w', out) -> w' = w /\ out = [x].
Proof. unfold write. by intros [= <- <-]. Qed.

Lemma act_returns (a : action) (w w' : world) u out :
  act a w = (Ret u, w', out) -> steps w w' [a] /\ out = [].
Proof. unfold act. intros [= <- <-]. by split. Qed.

Lemma ask_returns {A} (f : server -> A) (w w' : world) (a : A) out :
  ask f w = (Ret a, w', out) -> a = f (srv w) /\ w' = w /\ out = [].
Proof. unfold ask. by intros [= <- <- <-]. Qed.

Lemma save_returns (path data : string) (w w' : world) u out :
  save path data w = (Ret u, w', out) -> steps w w' [] /\ out = [].
Proof.
  unfold save. intros [= <- <-]. split; [| done].
  unfold steps. simpl. by rewrite app_nil_r.
Qed.

(** Take a returning sequence apart, statement by statement. *)
Ltac returned_step H1 :=
  lazymatch type of H1 with
  | eval _ _ = _ => apply eval_returns in H1 as (H1 & -> & ->)
  | print _ _ = _ => apply print_returns in H1 as (-> & ->)
  | write _ _ = _ => apply write_returns in H1 as (-> & ->)
  | ask _ _ = _ => apply ask_returns in H1 as (-> & -> & ->)
  | act _ _ = _ => apply act_returns in H1 as (H1 & ->)
  | save _ _ _ = _ => apply save_returns in H1 as (H1 & ->)
  | ret _ _ = _ => apply ret_returns in H1 as (-> & -> & ->)
  | _ => idtac
  end.

Ltac returned H :=
  repeat match type of H with
    | bind _ _ _ = (Ret _, _, _) =>
        let a := fresh "a" in
        let w := fresh "w" in
        let o1 := fresh "out" in
        let o2 := fresh "out" in
        let H1 := fresh "H" in
        let E := fresh "E" in
        apply bind_returns in H as (a & w & o1 & o2 & H1 & H & E);
        returned_step H1
    end;
  returned_step H.

Section Polling.
Variable wait : nat -> Z.

(** A status loop whose [n]-th status after [first] is the first to be
    [completed] makes [n + 1] checks, each after the pause it announces,
    and returns. *)
Lemma poll_completes (check : action) (status : nat -> string)
      (n : nat) :
  forall (first fuel : nat) (w : world),
    (forall i, (first <= i < first + n)%nat -> status i <> "completed") ->
    status (first + n)%nat = "completed" ->
    (n < fuel)%nat ->
    poll wait check status fuel first w
    = (Ret tt,
       {| srv := srv w; disk := disk w; cwd := cwd w;
          done_so_far :=
            (done_so_far w ++ checks wait check first (S n))%list |},
       check_lines wait status first (S n)).
Proof.
  induction n as [| n IH]; intros first fuel w Hrun Hend Hfuel.
  - destruct fuel as [| fuel]; [lia |]. simpl.
    rewrite Nat.add_0_r in Hend.
    unfold bind, print, write, act, ret. simpl. rewrite Hend. simpl.
    unfold checks, check_lines. simpl.
    rewrite Hend. by rewrite <- app_assoc.
  - destruct fuel as [| fuel]; [lia |]. simpl.
    unfold bind at 1 2 3 4, print, write, act. simpl.
    assert (String.eqb (status first) "completed" = false) as ->.
    { apply String.eqb_neq, Hrun. lia. }
    rewrite (IH (S first) fuel); [| intros i Hi; apply Hrun; lia
                                  | by rewrite <- Hend; f_equal; lia | lia].
    simpl. unfold checks, check_lines. simpl.
    by rewrite <- !app_assoc.
Qed.

End Polling.

Section Steps.
Variable wait : nat -> Z.
Variable patience : nat.

Lemma waiting_pair (check : action) (seconds : Z) :
  Forall (waiting check) [Sleep seconds; check].
Proof.
  apply Forall_cons; split; [right; by eexists |].
  apply Forall_cons; split; [by left | constructor].
Qed.

Lemma poll_steps (check : action) (status : nat -> string) (fuel : nat) :
  forall (first : nat) (w w' : world) r out,
    poll wait check status fuel first w = (r, w', out) ->
    exists actions, steps w w' actions /\ Forall (waiting check) actions.
Proof.
  induction fuel as [| fuel IH]; intros first w w' r out; simpl.
  - intros [= <- <- <-]. exists []. split; [apply steps_refl | done].
  - unfold bind at 1 2 3 4, print, write, act. simpl.
    destruct (String.eqb (status first) "completed").
    + intros [= <- <- <-]. exists [Sleep (wait first); check].
      split.
      * unfold steps. simpl. by rewrite <- app_assoc.
      * apply waiting_pair.
    + destruct (poll _ _ _ _ _ _) as [[r1 w1] out1] eqn:Hpoll.
      intros [= <- <- <-].
      apply IH in Hpoll as (actions & Hsteps & Hall).
      exists ([Sleep (wait first); check] ++ actions)%list. split.
      * eapply steps_trans; [| done].
        unfold steps. simpl. by rewrite <- app_assoc.
      * apply Forall_app. split; [apply waiting_pair | done].
Qed.

Lemma assoc_set_same (k : string) (v : value) (d : list (string * value)) :
  assoc k (assoc_set k v d) = Some v.
Proof.
  induction d as [| [k' v'] d IH]; simpl.
  - by rewrite String.eqb_refl.
  - destruct (String.eqb k k') eqn:E; simpl.
    + by rewrite String.eqb_refl.
    + by rewrite E.
Qed.

Lemma assoc_set_other (k k' : string) (v : value)
      (d : list (string * value)) :
  k <> k' -> assoc k' (assoc_set k v d) = assoc k' d.
Proof.
  intros Hne. induction d as [| [k0 v0] d IH]; simpl.
  - apply String.eqb_neq in Hne. rewrite String.eqb_sym in Hne.
    by rewrite Hne.
  - destruct (String.eqb k k0) eqn:E; simpl.
    + apply String.eqb_eq in E. subst k0.
      apply String.eqb_neq in Hne. rewrite String.eqb_sym in Hne.
      by rewrite Hne.
    + destruct (String.eqb k' k0); [done | apply IH].
Qed.

(** A key that has just been set holds the value set; the other keys hold
    what they held. *)
Lemma getitem_setitem_same (d d' : value) (k : string) (v : value) :
  setitem d k v = Ret d' -> getitem d' k = Ret v.
Proof.
  destruct d; simpl; try discriminate. intros [= <-]. simpl.
  by rewrite assoc_set_same.
Qed.

Lemma getitem_setitem_other (d d' : value) (k k' : string) (v : value) :
  setitem d k v = Ret d' -> k <> k' -> getitem d' k' = getitem d k'.
Proof.
  destruct d; simpl; try discriminate. intros [= <-] Hne. simpl.
  by rewrite assoc_set_other.
Qed.

Lemma waiting_orders_of (check : action) (actions : list action) :
  (forall j item, check <> PostOrder j item) ->
  Forall (waiting check) actions -> orders_of actions = [].
Proof.
  intros Hcheck. induction 1 as [| a l [-> | [z ->]] _ IH]; simpl; [done | |].
  - unfold orders_of in *. simpl.
    destruct check; try done. by destruct (Hcheck job_id item).
  - done.
Qed.

Lemma waiting_downloads_of (check : action) (actions : list action) :
  (forall o, check <> GetDownload o) ->
  Forall (waiting check) actions -> downloads_of actions = [].
Proof.
  intros Hcheck. induction 1 as [| a l [-> | [z ->]] _ IH]; simpl; [done | |].
  - unfold downloads_of in *. simpl.
    destruct check; try done. by destruct (Hcheck order_id).
  - done.
Qed.

Lemma orders_of_app (a b : list action) :
  orders_of (a ++ b) = (orders_of a ++ orders_of b)%list.
Proof. apply omap_app. Qed.

Lemma downloads_of_app (a b : list action) :
  downloads_of (a ++ b) = (downloads_of a ++ downloads_of b)%list.
Proof. apply omap_app. Qed.

(** One order: the server is asked once for this file of this job, and the
    order ID it gives is the one returned. *)
Lemma order_file_returns (job_id : string) (item : value)
      (w w' : world) (order_id : string) out :
  order_file wait patience job_id item w = (Ret order_id, w', out) ->
  order (srv w) job_id item = Ret order_id
  /\ exists actions,
      steps w w' actions
      /\ orders_of actions = [(job_id, item)]
      /\ downloads_of actions = []
      /\ jobs_of actions = [job_id].
Proof.
  unfold order_file. intros H. returned H. subst.
  match goal with
  | Hpost : steps w _ [PostOrder _ _], Horder : order _ _ _ = Ret _,
    Hpoll : poll _ _ _ _ _ _ = _ |- _ =>
      rewrite (steps_srv _ _ _ Hpost) in Horder;
      apply poll_steps in Hpoll as (actions & Hsteps & Hall);
      pose proof (steps_trans _ _ _ _ _ Hpost Hsteps) as Hall_steps
  end.
  split; [done |].
  exists ([PostOrder job_id item] ++ actions)%list.
  split; [done |].
  assert (orders_of actions = []) as Ho.
  { eapply waiting_orders_of; [| done]. done. }
  assert (downloads_of actions = []) as Hd.
  { eapply waiting_downloads_of; [| done]. done. }
  assert (jobs_of actions = []) as Hj.
  { clear -Hall. induction Hall as [| x l [-> | [z ->]] _ IH]; done. }
  rewrite orders_of_app, downloads_of_app, Ho, Hd.
  unfold jobs_of in *. rewrite omap_app, Hj. done.
Qed.

(** The orders of the files of a results list: one order ID for each
    file, the one the server gives for it; nothing is downloaded. *)
Lemma order_files_returns (job_id : string) (items : list value) :
  forall (w w' : world) (order_ids : list string) out,
    order_files wait patience job_id items w = (Ret order_ids, w', out) ->
    Forall2 (fun item order_id => order (srv w) job_id item = Ret order_id)
            items order_ids
    /\ exists actions,
        steps w w' actions
        /\ orders_of actions = List.map (pair job_id) items
        /\ downloads_of actions = []
        /\ Forall (eq job_id) (jobs_of actions).
Proof.
  induction items as [| item items IH]; intros w w' order_ids out H; simpl in H.
  - returned H. split; [constructor |].
    exists []. split; [apply steps_refl | done].
  - returned H. subst.
    match goal with
    | Hone : order_file _ _ _ _ _ = _, Hmore : order_files _ _ _ _ _ = _
      |- _ =>
        apply order_file_returns in Hone
          as (Hfirst & actions1 & Hsteps1 & Ho1 & Hd1 & Hj1);
        apply IH in Hmore as (Hrest & actions2 & Hsteps2 & Ho2 & Hd2 & Hj2)
    end.
    rewrite (steps_srv _ _ _ Hsteps1) in Hrest.
    split; [by constructor |].
    exists (actions1 ++ actions2)%list.
    split; [by eapply steps_trans |].
    rewrite orders_of_app, downloads_of_app, Ho1, Ho2, Hd1, Hd2.
    split; [done |]. split; [done |].
    unfold jobs_of in *. rewrite omap_app, Hj1.
    by constructor.
Qed.

(** One download: the server is asked once, for the order ID, and the
    report of the download is written. *)
Lemma download_file_returns (path order_id : string) (w w' : world) u out :
  download_file path order_id w = (Ret u, w', out) ->
  exists d,
    fetch (srv w) order_id = Ret d
    /\ out = report path d
    /\ steps w w' [GetDownload order_id]
    /\ disk w' = <[path := content d]> (disk w).
Proof.
  unfold download_file, bind, print, write, act, ask, eval, save.
  simpl. destruct (fetch (srv w) order_id) as [d | e |]; try discriminate.
  intros [= <- <- <-]. exists d. split; [done |]. split; [done |].
  split; [| done]. unfold steps. simpl. done.
Qed.

(** The downloads of the ordered files: one download for each order ID, in
    their order, and the report of each. *)
Lemma download_files_returns (hda_dict : value)
      (file_extension user_filename : option string)
      (ordered : list value) :
  forall (i : nat) (w w' : world) (paths : list string) out,
    download_files hda_dict i file_extension user_filename ordered w
    = (Ret paths, w', out) ->
    exists order_ids files,
      ordered = List.map VStr order_ids
      /\ steps w w' (List.map GetDownload order_ids)
      /\ Forall2 (fun order_id file =>
                    fetch (srv w) order_id = Ret (snd file))
                 order_ids files
      /\ paths = List.map fst files
      /\ out = List.flat_map (fun file => report (fst file) (snd file))
                             files
      /\ disk w' = saved files (disk w)
      /\ Forall (fun path =>
                   exists n, target hda_dict n file_extension user_filename
                             = Ret path) paths.
Proof.
  induction ordered as [| o ordered IH]; intros i w w' paths out H;
    simpl in H.
  - returned H. exists [], []. split; [done |].
    split; [apply steps_refl |]. by repeat split.
  - returned H. subst.
    match goal with
    | Hstr : as_str o = Ret ?order_id,
      Htarget : target _ _ _ _ = Ret ?path,
      Hone : download_file ?path _ _ = _,
      Hmore : download_files _ _ _ _ _ _ = _ |- _ =>
        destruct o; try discriminate; injection Hstr as ->;
        apply download_file_returns in Hone
          as (d & Hfetch & -> & Hsteps & Hdisk);
        apply IH in Hmore
          as (order_ids & files & -> & Hsteps' & Hall & -> & -> & Hdisk'
              & Htargets);
        rewrite (steps_srv _ _ _ Hsteps) in Hall;
        exists (order_id :: order_ids), ((path, d) :: files)
    end.
    split; [done |].
    split; [exact (steps_trans _ _ _ _ _ Hsteps Hsteps') |].
    split; [by constructor |]. split; [done |].
    split; [simpl; by rewrite ?app_nil_r, <- ?app_assoc |].
    split; [by rewrite Hdisk', Hdisk |].
    constructor; [by eexists | done].
Qed.

Lemma as_str_returns (o : outcome value) (x : string) :
  and_then o as_str = Ret x -> o = Ret (VStr x).
Proof.
  destruct o as [v | |]; simpl; try discriminate.
  destruct v; simpl; try discriminate. by intros [= ->].
Qed.

Lemma VStr_injective (a b : list string) :
  List.map VStr a = List.map VStr b -> a = b.
Proof.
  revert b. induction a as [| x a IH]; intros [| y b]; simpl; try done.
  intros [= -> H]. f_equal. by apply IH.
Qed.

(** The path of a file is its name joined to the download directory of
    the dictionary. *)
Lemma target_returns (hda_dict : value) (n : nat)
      (file_extension user_filename : option string) (path : string) :
  target hda_dict n file_extension user_filename = Ret path ->
  exists dir name,
    getitem hda_dict "download_dir_path" = Ret (VStr dir)
    /\ file_name hda_dict n file_extension user_filename = Ret name
    /\ path = path_join dir name.
Proof.
  unfold target.
  destruct (and_then (getitem hda_dict "download_dir_path") as_str)
    as [dir | |] eqn:Hdir; simpl; try discriminate.
  apply as_str_returns in Hdir.
  destruct (file_name hda_dict n file_extension user_filename)
    as [name | |]; simpl; try discriminate.
  intros [= <-]. by exists dir, name.
Qed.


(** What can be indexed by a string can be assigned to by a string. *)
Lemma getitem_setitem (d : value) (k k' : string) (v v' : value) :
  getitem d k = Ret v -> exists d', setitem d k' v' = Ret d'.
Proof. destruct d; try discriminate. intros _. by eexists. Qed.

Lemma world_as_it_is (w : world) :
  {| srv := srv w; disk := disk w; cwd := cwd w;
     done_so_far := (done_so_far w ++ [])%list |} = w.
Proof. destruct w. simpl. by rewrite app_nil_r. Qed.

(** *** The calls return *)

(** One order goes through when the server takes it and completes it
    within the patience of the status loop. *)
Lemma order_file_goes_through (job_id : string) (item : value)
      (order_id : string) (w : world) :
  order (srv w) job_id item = Ret order_id ->
  completes (order_status (srv w) order_id) patience ->
  exists w' out,
    order_file wait patience job_id item w = (Ret order_id, w', out).
Proof.
  intros Horder (n & Hn & Hrun & Hend).
  unfold order_file, bind, act, ask, eval, print, write. cbn [srv].
  rewrite Horder.
  erewrite (poll_completes wait _ _ n 0 patience);
    [| intros i Hi; apply Hrun; lia | exact Hend | exact Hn].
  unfold ret. by eexists _, _.
Qed.

Lemma order_files_go_through (job_id : string) (items : list value)
      (order_ids : list string) (w : world) :
  Forall2 (fun item order_id =>
             order (srv w) job_id item = Ret order_id
             /\ completes (order_status (srv w) order_id) patience)
          items order_ids ->
  exists w' out,
    order_files wait patience job_id items w = (Ret order_ids, w', out).
Proof.
  intros H. remember (srv w) as s eqn:Hs. revert w Hs.
  induction H as [| item order_id items order_ids [Horder Hdone] _ IH];
    intros w ->; simpl.
  - by eexists _, _.
  - destruct (order_file_goes_through job_id item order_id w Horder Hdone)
      as (w1 & out1 & Hone).
    destruct (order_file_returns _ _ _ _ _ _ Hone)
      as (_ & actions & Hsteps & _).
    destruct (IH w1) as (w2 & out2 & Hrest);
      [symmetry; by eapply steps_srv |].
    rewrite sequence_runs, Hone, sequence_runs, Hrest. unfold ret.
    by eexists _, _.
Qed.

(** [get_order_ids] returns when the dictionary holds a job ID and a
    results list and the server takes and completes the order of each
    file. *)
Lemma get_order_ids_goes_through (hda_dict : value) (job_id : string)
      (files : list value) (order_ids : list string) (w : world) :
  getitem hda_dict "job_id" = Ret (VStr job_id) ->
  files_of hda_dict = Ret files ->
  Forall2 (fun file order_id =>
             order (srv w) job_id file = Ret order_id
             /\ completes (order_status (srv w) order_id) patience)
          files order_ids ->
  exists ordered w' out,
    get_order_ids wait patience hda_dict w = (Ret ordered, w', out)
    /\ setitem hda_dict "order_ids" (VList (List.map VStr order_ids))
       = Ret ordered.
Proof.
  intros Hjob Hfiles Hall.
  destruct (order_files_go_through job_id files order_ids w Hall)
    as (w1 & out1 & Horders).
  destruct (getitem_setitem hda_dict "job_id" "order_ids" _
              (VList (List.map VStr order_ids)) Hjob) as (ordered & Hset).
  exists ordered. unfold get_order_ids.
  rewrite sequence_runs. unfold eval at 1. rewrite Hjob. cbn [and_then as_str].
  rewrite sequence_runs. unfold eval at 1. rewrite Hfiles.
  rewrite sequence_runs, Horders. unfold eval. rewrite Hset.
  by eexists _, _.
Qed.

(** [get_job_id] returns when the server takes the request and completes
    the job within the patience of the status loop. *)
Lemma get_job_id_goes_through (session : list (string * value))
      (data : value) (job_id : string) (w : world) :
  submit (srv w) data = Ret job_id ->
  completes (job_status (srv w) job_id) patience ->
  exists w' out,
    get_job_id wait patience (VDict session) data w
    = (Ret (VDict (assoc_set "job_id" (VStr job_id) session)), w', out).
Proof.
  intros Hsubmit (n & Hn & Hrun & Hend).
  unfold get_job_id, bind, act, ask, eval, print, write. cbn [srv].
  rewrite Hsubmit.
  erewrite (poll_completes wait _ _ n 0 patience);
    [| intros i Hi; apply Hrun; lia | exact Hend | exact Hn].
  cbn [setitem]. by eexists _, _.
Qed.

(** The names of the files of a page are printed if each file has one;
    the world is as it was. *)
Lemma print_filenames_go_through (items : list value) (w : world) :
  Forall (fun item => exists name,
                        getitem item "filename" = Ret (VStr name)) items ->
  exists out, print_filenames items w = (Ret tt, w, out).
Proof.
  induction 1 as [| item items [name Hname] _ [out IH]]; simpl.
  - by eexists.
  - unfold bind, eval, print, write. rewrite Hname. cbn [and_then as_str].
    fold (bind (A:=unit) (B:=unit)). rewrite IH. by eexists.
Qed.

Lemma print_filenames_returns (items : list value) (w w' : world) u out :
  print_filenames items w = (Ret u, w', out) -> w' = w.
Proof.
  revert out. induction items as [| item items IH]; intros out H;
    simpl in H.
  - by returned H.
  - returned H. subst. by eapply IH.
Qed.

(** [get_results_list] returns when the dictionary holds a job ID and
    the server has a page of results for it, with a name for each file if
    the names are to be printed. *)
Lemma get_results_list_goes_through (hda_dict : value) (job_id : string)
      (page : option Z) (verbose : option bool) (found : value)
      (files : list value) (w : world) :
  getitem hda_dict "job_id" = Ret (VStr job_id) ->
  results (srv w) job_id (default 0 page) = Ret found ->
  and_then (getitem found "content") iterate = Ret files ->
  (default true verbose = true ->
   Forall (fun file => exists name,
                         getitem file "filename" = Ret (VStr name)) files) ->
  exists listed w' out,
    get_results_list hda_dict page verbose w = (Ret listed, w', out)
    /\ setitem hda_dict "results" found = Ret listed.
Proof.
  intros Hjob Hfound Hfiles Hnames.
  destruct (getitem_setitem hda_dict "job_id" "results" _ found Hjob)
    as (listed & Hset).
  exists listed. unfold get_results_list.
  rewrite sequence_runs. unfold eval at 1. rewrite Hjob.
  cbn [and_then as_str].
  rewrite sequence_runs. unfold act at 1.
  rewrite sequence_runs. unfold ask at 1. cbn [srv]. rewrite Hfound.
  rewrite sequence_runs. unfold eval at 1.
  rewrite sequence_runs.
  destruct (default true verbose).
  - rewrite sequence_runs. unfold eval at 1. rewrite Hfiles.
    edestruct (print_filenames_go_through files) as (out & ->);
      [by apply Hnames |].
    unfold eval. rewrite Hset. by eexists _, _.
  - unfold ret, eval. rewrite Hset. by eexists _, _.
Qed.

(** *** What the calls have done when they return *)

Lemma get_job_id_returns (hda_dict data launched : value)
      (w w' : world) out :
  get_job_id wait patience hda_dict data w = (Ret launched, w', out) ->
  exists job_id actions,
    submit (srv w) data = Ret job_id
    /\ setitem hda_dict "job_id" (VStr job_id) = Ret launched
    /\ steps w w' actions.
Proof.
  unfold get_job_id. intros H. returned H. subst.
  match goal with
  | Hpost : steps w ?w0 [PostJob data],
    Hsubmit : submit (srv ?w0) data = Ret ?job_id,
    Hpoll : poll _ _ _ _ _ _ = _ |- _ =>
      rewrite (steps_srv _ _ _ Hpost) in Hsubmit;
      apply poll_steps in Hpoll as (actions & Hsteps & _);
      exists job_id, ([PostJob data] ++ actions)%list
  end.
  split; [done |]. split; [done |]. by eapply steps_trans.
Qed.

Lemma get_results_list_returns (hda_dict listed : value) (page : option Z)
      (verbose : option bool) (w w' : world) out :
  get_results_list hda_dict page verbose w = (Ret listed, w', out) ->
  exists job_id found,
    getitem hda_dict "job_id" = Ret (VStr job_id)
    /\ results (srv w) job_id (default 0 page) = Ret found
    /\ setitem hda_dict "results" found = Ret listed
    /\ steps w w' [GetResults job_id (default 0 page)].
Proof.
  unfold get_results_list. intros H. returned H. subst.
  repeat match goal with
         | H : and_then _ as_str = Ret _ |- _ => apply as_str_returns in H
         end.
  match goal with
  | Hjob : getitem hda_dict "job_id" = Ret (VStr ?job_id),
    Hact : steps w ?w0 [GetResults ?job_id _],
    Hfound : results (srv ?w0) _ _ = Ret ?found,
    Hprint : (if default true verbose then _ else _) ?w0 = (Ret _, ?w1, _)
    |- _ =>
      rewrite (steps_srv _ _ _ Hact) in Hfound;
      exists job_id, found;
      assert (w1 = w0) as ->
  end.
  { destruct (default true verbose).
    - match goal with
      | Hprint : bind _ _ _ = _ |- _ =>
          returned Hprint; subst; by eapply print_filenames_returns
      end.
    - match goal with Hprint : ret _ _ = _ |- _ => by returned Hprint end. }
  repeat (split; [assumption |]). assumption.
Qed.

Lemma get_order_ids_returns (hda_dict ordered : value)
      (w w' : world) out :
  get_order_ids wait patience hda_dict w = (Ret ordered, w', out) ->
  exists job_id files order_ids ordering,
    getitem hda_dict "job_id" = Ret (VStr job_id)
    /\ files_of hda_dict = Ret files
    /\ Forall2 (fun file order_id =>
                  order (srv w) job_id file = Ret order_id)
               files order_ids
    /\ setitem hda_dict "order_ids" (VList (List.map VStr order_ids))
       = Ret ordered
    /\ steps w w' ordering
    /\ orders_of ordering = List.map (pair job_id) files
    /\ downloads_of ordering = []
    /\ Forall (eq job_id) (jobs_of ordering).
Proof.
  unfold get_order_ids. intros H. returned H. subst.
  repeat match goal with
         | H : and_then _ as_str = Ret _ |- _ => apply as_str_returns in H
         end.
  match goal with
  | Hjob : getitem hda_dict "job_id" = Ret (VStr ?job_id),
    Hfiles : files_of hda_dict = Ret ?files,
    Horders : order_files _ _ _ _ _ = (Ret ?order_ids, _, _) |- _ =>
      apply order_files_returns in Horders
        as (Hall & ordering & Hsteps & Ho & Hd & Hj);
      exists job_id, files, order_ids, ordering
  end.
  repeat (split; [assumption |]). assumption.
Qed.

(** One download, from the request to the file on the disk. *)
Lemma download_file_runs (path order_id : string) (d : download)
      (w : world) :
  fetch (srv w) order_id = Ret d ->
  download_file path order_id w
  = (Ret tt,
     {| srv := srv w; disk := <[path := content d]> (disk w); cwd := cwd w;
        done_so_far := (done_so_far w ++ [GetDownload order_id])%list |},
     report path d).
Proof.
  intros Hfetch.
  unfold download_file, bind, print, write, act, ask, eval, save.
  cbn [srv]. by rewrite Hfetch.
Qed.

(** The downloads of the ordered files, when the server has a file for
    each order ID and the dictionary a path for each file. *)
Lemma download_files_run (hda_dict : value)
      (file_extension user_filename : option string)
      (order_ids : list string) (files : list download) (w : world) :
  Forall2 (fun order_id file => fetch (srv w) order_id = Ret file)
          order_ids files ->
  forall (paths : list string) (i : nat),
    length paths = length order_ids ->
    (forall k path,
        paths !! k = Some path ->
        target hda_dict (i + k) file_extension user_filename = Ret path) ->
    download_files hda_dict i file_extension user_filename
                   (List.map VStr order_ids) w
    = (Ret paths,
       {| srv := srv w; disk := saved (zip paths files) (disk w);
          cwd := cwd w;
          done_so_far :=
            (done_so_far w ++ List.map GetDownload order_ids)%list |},
       List.flat_map (fun file => report (fst file) (snd file))
                     (zip paths files)).
Proof.
  intros H. remember (srv w) as s eqn:Hs. revert w Hs.
  induction H as [| order_id file order_ids files Hfetch _ IH];
    intros w -> paths i Hlen Hpaths.
  - destruct paths; [| discriminate]. simpl. unfold ret.
    by rewrite world_as_it_is.
  - destruct paths as [| path paths]; [discriminate |].
    injection Hlen as Hlen.
    pose proof (Hpaths 0%nat path eq_refl) as Hpath.
    rewrite Nat.add_0_r in Hpath.
    cbn [List.map download_files].
    rewrite sequence_runs. unfold eval at 1. cbn [as_str].
    rewrite sequence_runs. unfold eval at 1. rewrite Hpath.
    rewrite sequence_runs, (download_file_runs path order_id file w Hfetch).
    rewrite sequence_runs.
    erewrite IH; [| reflexivity | exact Hlen |].
    + unfold ret. cbn [srv disk cwd done_so_far zip zip_with List.flat_map
                        saved List.fold_left fst snd].
      rewrite <- !app_assoc, ?app_nil_r. done.
    + intros k path' Hk. rewrite Nat.add_succ_comm. by apply Hpaths.
Qed.

(** [download_data] returns when the server has a file for each order ID
    of the dictionary and the dictionary a path for each file. *)
Lemma download_data_runs (hda_dict : value)
      (file_extension user_filename : option string)
      (order_ids : list string) (files : list download)
      (paths : list string) (w : world) :
  and_then (getitem hda_dict "order_ids") iterate
  = Ret (List.map VStr order_ids) ->
  Forall2 (fun order_id file => fetch (srv w) order_id = Ret file)
          order_ids files ->
  length paths = length order_ids ->
  (forall k path,
      paths !! k = Some path ->
      target hda_dict k file_extension user_filename = Ret path) ->
  exists downloaded,
    setitem hda_dict "filenames" (VList (List.map VStr paths))
    = Ret downloaded
    /\ download_data hda_dict file_extension user_filename w
       = (Ret downloaded,
          {| srv := srv w; disk := saved (zip paths files) (disk w);
             cwd := cwd w;
             done_so_far :=
               (done_so_far w ++ List.map GetDownload order_ids)%list |},
          List.flat_map (fun file => report (fst file) (snd file))
                        (zip paths files)).
Proof.
  intros Hids Hfetch Hlen Hpaths.
  assert (exists downloaded,
             setitem hda_dict "filenames" (VList (List.map VStr paths))
             = Ret downloaded) as (downloaded & Hset).
  { destruct hda_dict; try discriminate. by eexists. }
  exists downloaded. split; [done |].
  unfold download_data. rewrite sequence_runs. unfold eval at 1.
  rewrite Hids.
  rewrite sequence_runs,
    (download_files_run hda_dict file_extension user_filename order_ids
       files w Hfetch paths 0 Hlen Hpaths).
  unfold eval. rewrite Hset. by rewrite !app_nil_r.
Qed.

(** C5.  When the dictionary holds the job ID and the results list of a
    job, and the server takes the order of each file of the list,
    completes it within the patience of the status loop and has the file
    for it, [get_order_ids] returns: it has posted one order for each
    file, with the job ID, it has asked for no download, and the
    dictionary it returns holds the order IDs the server gave, one for
    each file.  [download_data], called then on that dictionary, or on one
    that holds the same order IDs (the how-to notebook renames a file in
    between) and a path for each file, returns too: it has asked for the
    download of exactly those order IDs, one request for each, in their
    order, and done nothing else with the server.  A file is downloaded
    only through the order ID it was given. *)
Theorem downloads_follow_orders (hda_dict : value) (job_id : string)
        (files : list value) (order_ids : list string) (w : world) :
  getitem hda_dict "job_id" = Ret (VStr job_id) ->
  files_of hda_dict = Ret files ->
  Forall2 (fun file order_id =>
             order (srv w) job_id file = Ret order_id
             /\ completes (order_status (srv w) order_id) patience
             /\ exists d, fetch (srv w) order_id = Ret d)
          files order_ids ->
  exists ordered w1 out1 ordering,
    get_order_ids wait patience hda_dict w = (Ret ordered, w1, out1)
    /\ getitem ordered "order_ids" = Ret (VList (List.map VStr order_ids))
    /\ steps w w1 ordering
    /\ orders_of ordering = List.map (pair job_id) files
    /\ downloads_of ordering = []
    /\ forall (renamed : value)
              (file_extension user_filename : option string)
              (paths : list string),
        getitem renamed "order_ids" = getitem ordered "order_ids" ->
        length paths = length order_ids ->
        (forall k path,
            paths !! k = Some path ->
            target renamed k file_extension user_filename = Ret path) ->
        exists downloaded w2 out2,
          download_data renamed file_extension user_filename w1
          = (Ret downloaded, w2, out2)
          /\ steps w1 w2 (List.map GetDownload order_ids)
          /\ getitem downloaded "filenames"
             = Ret (VList (List.map VStr paths)).
Proof.
  intros Hjob Hfiles Hall.
  destruct (get_order_ids_goes_through hda_dict job_id files order_ids w
              Hjob Hfiles) as (ordered & w1 & out1 & Horder & Hset).
  { eapply Forall2_impl; [exact Hall |]. intros ? ? (? & ? & _). by split. }
  destruct (get_order_ids_returns _ _ _ _ _ Horder)
    as (job_id' & files' & _ & ordering & Hjob' & Hfiles' & _ & _ & Hsteps
        & Ho & Hd & _).
  rewrite Hjob in Hjob'. injection Hjob' as <-.
  rewrite Hfiles in Hfiles'. injection Hfiles' as <-.
  exists ordered, w1, out1, ordering.
  pose proof (getitem_setitem_same _ _ _ _ Hset) as Hids.
  repeat (split; [assumption |]).
  intros renamed file_extension user_filename paths Hsame Hlen Hpaths.
  assert (exists downloads,
             Forall2 (fun order_id file => fetch (srv w1) order_id = Ret file)
                     order_ids downloads) as (downloads & Hfetch).
  { rewrite (steps_srv _ _ _ Hsteps). clear -Hall.
    induction Hall as [| file order_id files order_ids (_ & _ & d & Hd) _
                        [downloads IH]].
    - by exists [].
    - exists (d :: downloads). by constructor. }
  destruct (download_data_runs renamed file_extension user_filename
              order_ids downloads paths w1) as (downloaded & Hset' & Hrun);
    [by rewrite Hsame, Hids | done | done | done |].
  eexists _, _, _. split; [exact Hrun |].
  split; [by unfold steps |]. by eapply getitem_setitem_same.
Qed.

(** C6.  When the server takes the request and completes the job within
    the patience of the status loop, [get_job_id] returns, and the
    dictionary it returns holds the job ID that the server gave.  When
    the server then has a page of results for that job, and takes and
    completes the order of each file of the page, [get_results_list] and
    [get_order_ids] that follow return as well: they have asked the
    server about that job ID and no other, and the dictionaries they
    return hold it as it was. *)
Theorem job_id_kept (session : list (string * value)) (data : value)
        (job_id : string) (page : option Z) (verbose : option bool)
        (found : value) (files : list value) (order_ids : list string)
        (w : world) :
  submit (srv w) data = Ret job_id ->
  completes (job_status (srv w) job_id) patience ->
  results (srv w) job_id (default 0 page) = Ret found ->
  and_then (getitem found "content") iterate = Ret files ->
  (default true verbose = true ->
   Forall (fun file => exists name,
                         getitem file "filename" = Ret (VStr name)) files) ->
  Forall2 (fun file order_id =>
             order (srv w) job_id file = Ret order_id
             /\ completes (order_status (srv w) order_id) patience)
          files order_ids ->
  exists launched listed ordered w1 w2 w3 out1 out2 out3 ordering,
    get_job_id wait patience (VDict session) data w
    = (Ret launched, w1, out1)
    /\ get_results_list launched page verbose w1 = (Ret listed, w2, out2)
    /\ get_order_ids wait patience listed w2 = (Ret ordered, w3, out3)
    /\ getitem launched "job_id" = Ret (VStr job_id)
    /\ getitem listed "job_id" = Ret (VStr job_id)
    /\ getitem ordered "job_id" = Ret (VStr job_id)
    /\ steps w1 w2 [GetResults job_id (default 0 page)]
    /\ steps w2 w3 ordering
    /\ orders_of ordering = List.map (pair job_id) files
    /\ Forall (eq job_id) (jobs_of ordering).
Proof.
  intros Hsubmit Hdone Hfound Hfiles Hnames Hall.
  destruct (get_job_id_goes_through session data job_id w Hsubmit Hdone)
    as (w1 & out1 & Hjob).
  destruct (get_job_id_returns _ _ _ _ _ _ Hjob)
    as (job_id' & actions & _ & _ & Hsteps1).
  set (launched := VDict (assoc_set "job_id" (VStr job_id) session)) in *.
  assert (getitem launched "job_id" = Ret (VStr job_id)) as Hjob1.
  { unfold launched. cbn [getitem]. by rewrite assoc_set_same. }
  pose proof (steps_srv _ _ _ Hsteps1) as Hsrv1.
  destruct (get_results_list_goes_through launched job_id page verbose
              found files w1) as (listed & w2 & out2 & Hlist & Hset2);
    [done | by rewrite Hsrv1 | done | done |].
  destruct (get_results_list_returns _ _ _ _ _ _ _ Hlist)
    as (job_id2 & found2 & Hjob1' & _ & _ & Hsteps2).
  rewrite Hjob1 in Hjob1'. injection Hjob1' as <-.
  pose proof (steps_srv _ _ _ Hsteps2) as Hsrv2.
  assert (getitem listed "job_id" = Ret (VStr job_id)) as Hjob2.
  { by rewrite (getitem_setitem_other _ _ _ "job_id" _ Hset2). }
  assert (files_of listed = Ret files) as Hfiles2.
  { unfold files_of. by rewrite (getitem_setitem_same _ _ _ _ Hset2). }
  destruct (get_order_ids_goes_through listed job_id files order_ids w2
              Hjob2 Hfiles2) as (ordered & w3 & out3 & Horder & Hset3);
    [by rewrite Hsrv2, Hsrv1 |].
  destruct (get_order_ids_returns _ _ _ _ _ Horder)
    as (job_id3 & files3 & _ & ordering & Hjob2' & Hfiles2' & _ & _ & Hsteps3
        & Ho & _ & Hj).
  rewrite Hjob2 in Hjob2'. injection Hjob2' as <-.
  rewrite Hfiles2 in Hfiles2'. injection Hfiles2' as <-.
  exists launched, listed, ordered, w1, w2, w3, out1, out2, out3, ordering.
  repeat (split; [assumption |]).
  split; [by rewrite (getitem_setitem_other _ _ _ "job_id" _ Hset3) |].
  repeat (split; [assumption |]). assumption.
Qed.


End Steps.

(** An archive that cannot be opened leaves the disk as it was. *)
Lemma extract_unreadable
      (members : string -> outcome (list (string * member)))
      (zip dir : string) (w : world) :
  (forall data, disk w !! zip = Some data -> exists e, members data = Raise e) ->
  exists e, extract members zip dir w = (Raise e, w, []).
Proof.
  intros H. unfold extract. rewrite sequence_runs. unfold read.
  destruct (disk w !! zip) as [data |]; [| by eexists].
  destruct (H data eq_refl) as [e He].
  rewrite sequence_runs. unfold eval. rewrite He. by eexists.
Qed.

(** The how-to notebook run in the sample world ends with the dictionary
    of the sample world, and writes what the notebook recorded from the
    cell of [get_job_id] on: the lines of [get_job_id], of
    [get_results_list], of [get_order_ids], and the report of the one
    download. *)
Lemma HowTo_as_recorded :
  let '(r, s) := HowTo.notebook (K:=Sample.kernel) "user" "password"
                                (start Sample.world) in
  r = Ret Sample.downloaded
  /\ String.concat "" (stdout s)
     = String.concat ""
         (List.app
            [ "Getting an access token. This token is valid for one hour only."
                ++ nl;
              "Success: Access token is token" ++ nl;
              "Copernicus_General_License Terms and Conditions already accepted"
                ++ nl ]
            (List.app HowTo.recorded_get_job_id
               (List.app HowTo.recorded_get_results_list
                  (List.app HowTo.recorded_get_order_ids
                     HowTo.recorded_download_data)))).
Proof. vm_compute. split; reflexivity. Qed.

End HDAFacts.


(** ** The theorems at work in the sample worlds *)

Module SampleFacts.
Import Py Nb HDA.

(** In the sample ocean world [get_job_id] returns, so the SLSTR download
    cell gets as far as the name [asdf]. *)
Lemma SLSTR_cell_stops_at_asdf_witness :
  let run := MHW.SLSTR_download_cell (K:=Sample.kernel) 10 true
               "user:password" "/work/products" "/work/query.json" false
               (start Sample.ocean) in
  fst run = Raise (NameError "asdf")
  /\ log (snd run)
     = [Init MHW.dataset_id "user:password" "/work/products";
        GetAccessToken; AcceptTandC; JsonLoad "/work/query.json"; GetJobId].
Proof.
  destruct (SLSTRFacts.SLSTR_cell_stops_at_asdf (K:=Sample.kernel) 10
              "user:password" "/work/products" "/work/query.json" false
              (start Sample.ocean)) as (_ & _ & H).
  cbv zeta in H |- *. erewrite H by (vm_compute; reflexivity).
  split; reflexivity.
Defined.

(** In the sample ocean world every page holds one file of three: the loop
    asks for three pages at most. *)
Lemma pagination_terminates_witness :
  exists n v s' calls f,
    (1 <= n)%nat
    /\ Z.of_nat n <= Z.max 1 3
    /\ (forall fuel,
           (n < fuel)%nat ->
           MHW.pagination_loop (K:=Sample.kernel) fuel false
             (MHW.before_first_page Sample.paging_dict
                (VFloat (1000000 # 1)) (VInt 0) (-1))
             (start Sample.ocean)
           = (Ret v, s'))
    /\ log s' = ([] ++ calls)%list
    /\ MHW.pages_of calls = List.map Z.of_nat (List.seq 0 n)
    /\ MHW.found_results v = VInt f
    /\ 3 <= f.
Proof.
  set (fit := fun (d : value) (w : world) =>
                d = Sample.paging_dict /\ srv w = Sample.paged).
  apply (SLSTRFacts.pagination_terminates (K:=Sample.kernel)
           fit fit fit 3 false).
  - intros d [s dsk c l] page [-> Hs]. simpl in Hs. subst s.
    eexists _, _, _, 1. cbv -[insert].
    split; [reflexivity |]. split; [by split |].
    split; [reflexivity |]. split; [reflexivity | discriminate].
  - intros d [s dsk c l] [-> Hs]. simpl in Hs. subst s.
    eexists _, _, _. cbv -[insert].
    split; [reflexivity |]. by split.
  - intros d [s dsk c l] [-> Hs]. simpl in Hs. subst s.
    eexists _, _, _. cbv -[insert].
    split; [reflexivity |]. by split.
  - by split.
Defined.

(** The order and the download of the one file of the sample world, which
    the how-to notebook renames in between. *)
Lemma downloads_follow_orders_witness :
  exists w1 w2 out1 out2,
    get_order_ids Sample.wait 10 Sample.listed Sample.world
    = (Ret Sample.ordered, w1, out1)
    /\ done_so_far w1
       = [PostOrder Sample.job_id Sample.listed_file;
          Sleep 5; GetOrderStatus Sample.order_id]
    /\ HowTo.set_first_filename Sample.ordered HowTo.filename
       = Ret Sample.renamed
    /\ download_data Sample.renamed (Some ".nc") None w1
       = (Ret Sample.downloaded, w2, out2)
    /\ done_so_far w2 = (done_so_far w1 ++ [GetDownload Sample.order_id])%list.
Proof.
  destruct (HDAFacts.downloads_follow_orders Sample.wait 10 Sample.listed
              Sample.job_id [Sample.listed_file] [Sample.order_id]
              Sample.world)
    as (ordered & w1 & out1 & ordering & Horder & Hids & _ & _ & _
        & Hdownload).
  - reflexivity.
  - reflexivity.
  - constructor; [| constructor]. split; [reflexivity |].
    split; [| by eexists].
    exists 0%nat. split; [lia |]. split; [lia | reflexivity].
  - destruct (Hdownload Sample.renamed (Some ".nc") None
                [(Sample.download_dir_path ++ "waves_spain_forecast.nc")%string])
      as (downloaded & w2 & out2 & Hrun & Hsteps & Hnames).
    + rewrite Hids. reflexivity.
    + reflexivity.
    + intros [| k] path; [intros [= <-]; reflexivity | discriminate].
    + vm_compute in Horder. injection Horder as <- <- <-.
      vm_compute in Hrun. injection Hrun as <- <- <-.
      eexists _, _, _, _. repeat split; reflexivity.
Defined.

(** The job of the sample world, from the request to the orders. *)
Lemma job_id_kept_witness :
  exists w1 w2 w3 out1 out2 out3,
    get_job_id Sample.wait 10 Sample.session HowTo.data Sample.world
    = (Ret Sample.launched, w1, out1)
    /\ get_results_list Sample.launched None None w1
       = (Ret Sample.listed, w2, out2)
    /\ get_order_ids Sample.wait 10 Sample.listed w2
       = (Ret Sample.ordered, w3, out3)
    /\ done_so_far w3
       = [PostJob HowTo.data;
          Sleep 5; GetJobStatus Sample.job_id;
          Sleep 10; GetJobStatus Sample.job_id;
          GetResults Sample.job_id 0;
          PostOrder Sample.job_id Sample.listed_file;
          Sleep 5; GetOrderStatus Sample.order_id].
Proof.
  destruct (HDAFacts.job_id_kept Sample.wait 10
              [("dataset_id", VStr HowTo.dataset_id);
               ("api_key", VStr "user:password");
               ("download_dir_path", VStr Sample.download_dir_path);
               ("access_token", VStr "token")]
              HowTo.data Sample.job_id None None Sample.page
              [Sample.listed_file] [Sample.order_id] Sample.world)
    as (launched & listed & ordered & w1 & w2 & w3 & out1 & out2 & out3
        & ordering & Hjob & Hlist & Horder & _).
  - reflexivity.
  - exists 1%nat. split; [lia |]. split; [| reflexivity].
    intros [| i] Hi; [discriminate | lia].
  - reflexivity.
  - reflexivity.
  - intros _. constructor; [by eexists | constructor].
  - constructor; [| constructor]. split; [reflexivity |].
    exists 0%nat. split; [lia |]. split; [lia | reflexivity].
  - vm_compute in Hjob. injection Hjob as <- <- <-.
    vm_compute in Hlist. injection Hlist as <- <- <-.
    vm_compute in Horder. injection Horder as <- <- <-.
    eexists _, _, _, _, _, _. repeat split; reflexivity.
Defined.


End SampleFacts.

(** ** The calls of each notebook, one after the other *)

Module SequenceFacts.
Import Py Nb NbFacts Workflow WorkflowFacts Calls.
Local Open Scope nb_scope.

Section Sequence.
Context {W : Type} {K : Kernel W}.

Ltac calls_found names :=
  unshelve (names; split;
            [eexists; cbn; reflexivity
            | intros ? ?; first [discriminate | reflexivity]]);
  exact "".

(** X1.  The how-to notebook and the retrieve notebook stop at the first
    call that fails.  Whatever the helper functions and the world do, the
    calls a run has made are the first calls of the notebook's fixed
    sequence, in its order and with none skipped: a helper function is
    called only after every call before it has returned.  A
    run that reaches the end has made the whole sequence. *)
Theorem notebooks_stop_at_first_failure (user_name password : string)
        (w : W) :
  (exists api_key cwd,
      let '(r, s) := HowTo.notebook user_name password (start w) in
      log s `prefix_of` HowTo_calls api_key cwd
      /\ forall d, r = Ret d -> log s = HowTo_calls api_key cwd)
  /\ (exists api_key,
         let '(r, s) := Retrieve.notebook user_name password (start w) in
         log s `prefix_of` Retrieve_calls api_key
         /\ forall d, r = Ret d -> log s = Retrieve_calls api_key).
Proof.
  split.
  - unfold HowTo.notebook, HowTo_calls.
    repeat statement; calls_found ltac:(eexists _, _).
  - unfold Retrieve.notebook, Retrieve_calls.
    repeat statement; calls_found ltac:(eexists).
Qed.

(** X2.  With [download_data] set to [False] the marine-heatwaves
    notebook gets no data: whatever the world does, a run calls none of
    [init], [get_access_token], [acceptTandC], [get_job_id],
    [get_results_list], [get_order_ids] and [download_data], opens no
    query file, and neither extracts nor removes a file.  It only asks for
    the working directory, makes the API key, looks for the download
    directory and the query file, lists the files that are there, and
    plots. *)
Theorem MHW_offline_without_download (fuel : nat)
        (user_name password : string) (w : W) :
  Forall offline
         (log (snd (MHW.notebook fuel false user_name password (start w)))).
Proof.
  unfold MHW.notebook, MHW.find_query_file, MHW.SLSTR_download_cell,
    MHW.unzip_cell, MHW.SST_download_cell, MHW.plot_SLSTR,
    MHW.plot_time_series.
  repeat statement; cbn; repeat constructor.
Qed.

(** X3.  With [download_data] set to [True] a run of the
    marine-heatwaves notebook from its first cell never reaches its last:
    it ends in the SLSTR download cell at the latest, and every call it has
    made is one of the cells above or of the first statements of that
    cell.  No results are listed, nothing is ordered, downloaded, unzipped
    or plotted. *)
Theorem MHW_stops_in_the_SLSTR_cell (fuel : nat)
        (user_name password : string) (w : W) :
  let '(r, s) := MHW.notebook fuel true user_name password (start w) in
  r <> Ret tt /\ Forall before_asdf (log s).
Proof.
  unfold MHW.notebook, MHW.find_query_file, MHW.SLSTR_download_cell,
    MHW.launch_job, MHW.check_results.
  rewrite asdf_unbound.
  repeat statement; (split; [discriminate | cbn; repeat constructor]).
Qed.

Lemma omap_prefix {A B} (f : A -> option B) (l1 l2 : list A) :
  l1 `prefix_of` l2 -> omap f l1 `prefix_of` omap f l2.
Proof. intros [k ->]. rewrite omap_app. by apply prefix_app_r. Qed.

Ltac turn_found :=
  cbn [log after]; rewrite <- ?app_assoc; cbn;
  eexists; split; [reflexivity |];
  split; [eexists; cbn; reflexivity
         | intros; first [discriminate | reflexivity]].

(** One turn of the loop over the dates. *)
Lemma SST_download_calls (JSON_query_dir : string) (r : SST.request)
      (d : value) (s : state W) :
  let '(o, s') := MHW.SST_download JSON_query_dir r d s in
  exists calls,
    log s' = (log s ++ calls)%list
    /\ calls `prefix_of` SST_calls JSON_query_dir r
    /\ forall d', o = Ret d' -> calls = SST_calls JSON_query_dir r.
Proof.
  unfold MHW.SST_download, MHW.find_query_file, SST_calls.
  repeat statement; turn_found.
Qed.

Lemma SST_loop_calls (JSON_query_dir : string) (l : list SST.request) :
  forall (d : value) (s : state W),
    let '(o, s') := for_in l (MHW.SST_download JSON_query_dir) d s in
    exists calls,
      log s' = (log s ++ calls)%list
      /\ calls `prefix_of` List.flat_map (SST_calls JSON_query_dir) l
      /\ forall d', o = Ret d'
                    -> calls = List.flat_map (SST_calls JSON_query_dir) l.
Proof.
  induction l as [| r l IH]; intros d s; cbn [for_in List.flat_map].
  - exists []. rewrite app_nil_r. by repeat split.
  - rewrite run_bind.
    pose proof (SST_download_calls JSON_query_dir r d s) as H1.
    destruct (MHW.SST_download JSON_query_dir r d s) as [[d1 | e |] s1].
    + destruct H1 as (c1 & Hlog1 & _ & Hall).
      specialize (Hall d1 eq_refl). subst c1.
      specialize (IH d1 s1).
      destruct (for_in l (MHW.SST_download JSON_query_dir) d1 s1)
        as [o s2].
      destruct IH as (c2 & Hlog2 & Hpre & Hall2).
      exists (SST_calls JSON_query_dir r ++ c2)%list.
      split; [by rewrite Hlog2, Hlog1, app_assoc |].
      split; [by apply prefix_app |].
      intros d' ->. f_equal. by eapply Hall2.
    + destruct H1 as (c1 & Hlog1 & Hpre & _). exists c1.
      split; [done |]. split; [by apply prefix_app_r | discriminate].
    + destruct H1 as (c1 & Hlog1 & Hpre & _). exists c1.
      split; [done |]. split; [by apply prefix_app_r | discriminate].
Qed.

Lemma SST_cell_user_filenames (api_key download_dir_path qdir : string) :
  user_filenames_of (SST_cell_calls api_key download_dir_path qdir)
  = SST.in_time_order.
Proof. reflexivity. Qed.

(** The calls of the SST download cell are the first calls of its
    sequence, and all of them when the cell returns. *)
Lemma SST_cell_calls_found
      (api_key download_dir_path JSON_query_dir : string) (s : state W) :
  let '(o, s') := MHW.SST_download_cell true api_key download_dir_path
                                        JSON_query_dir s in
  exists calls,
    log s' = (log s ++ calls)%list
    /\ calls `prefix_of`
             SST_cell_calls api_key download_dir_path JSON_query_dir
    /\ (o = Ret tt
        -> calls = SST_cell_calls api_key download_dir_path JSON_query_dir).
Proof.
  unfold MHW.SST_download_cell, SST_cell_calls.
  repeat statement;
    try (lazy beta iota; unfold SST_cell_calls; turn_found).
  rewrite run_bind.
  match goal with
  | |- context [for_in _ _ ?d ?s1] =>
      pose proof (SST_loop_calls JSON_query_dir SST.requests d s1) as Hloop;
      destruct (for_in SST.requests (MHW.SST_download JSON_query_dir) d s1)
        as [[d' | e |] s2]
  end; destruct Hloop as (calls & Hlog & Hpre & Hall);
    unfold SST_cell_calls;
    cbn [log after] in Hlog; rewrite <- ?app_assoc in Hlog;
    cbn [List.app] in Hlog.
  - eexists. split; [exact Hlog |].
    split; [by do 3 apply prefix_cons |].
    intros _. cbn [List.app]. do 3 f_equal. by eapply Hall.
  - eexists. split; [exact Hlog |].
    split; [by do 3 apply prefix_cons | discriminate].
  - eexists. split; [exact Hlog |].
    split; [by do 3 apply prefix_cons | discriminate].
Qed.

(** X4.  The SST download cell goes through the years in their order.
    Whatever the helper functions do, the calls the cell has made are the
    first calls of the sequence that opens the session once and then, year
    by year from 2008 to 2021, looks for the query file, reads it, submits
    the job, lists its results, orders them and downloads them under the
    name of that year; a turn that fails ends the cell, so that no year is
    reached before the years before it have been downloaded.  A cell that
    returns has made the whole sequence.  The names given to
    [download_data] are therefore the first names of the files in the
    order of time. *)
Theorem SST_cell_year_by_year
        (api_key download_dir_path JSON_query_dir : string) (s : state W) :
  let '(o, s') := MHW.SST_download_cell true api_key download_dir_path
                                        JSON_query_dir s in
  exists calls,
    log s' = (log s ++ calls)%list
    /\ calls `prefix_of`
             SST_cell_calls api_key download_dir_path JSON_query_dir
    /\ (o = Ret tt
        -> calls = SST_cell_calls api_key download_dir_path JSON_query_dir)
    /\ user_filenames_of calls `prefix_of` SST.in_time_order.
Proof.
  pose proof (SST_cell_calls_found api_key download_dir_path JSON_query_dir
                                   s) as H.
  destruct (MHW.SST_download_cell true api_key download_dir_path
                                  JSON_query_dir s) as [o s'].
  destruct H as (calls & Hlog & Hpre & Hall). exists calls.
  repeat (split; [done |]).
  rewrite <- (SST_cell_user_filenames api_key download_dir_path
                                      JSON_query_dir).
  by apply omap_prefix.
Qed.

(** One turn of the unzip loop never raises, and hands the file to
    [extractall] if and only if its extension is [.zip]. *)
Lemma unzip_file_extractions (filename : string) (s : state W) :
  let '(o, s') := MHW.unzip_file filename s in
  (forall e, o <> Raise e)
  /\ exists calls,
      log s' = (log s ++ calls)%list
      /\ extractions_of calls
         = if is_zip filename then [(filename, dirname filename)] else [].
Proof.
  unfold MHW.unzip_file, is_zip. destruct (String.eqb _ _).
  - rewrite run_bind, run_print. unfold try_except, MHW.try_unzip.
    repeat statement; rewrite ?run_print;
      (split; [intros ?; discriminate |]);
      cbn [log after]; rewrite <- ?app_assoc;
      eexists; (split; [reflexivity |]); reflexivity.
  - split; [intros ?; discriminate |]. exists [].
    by rewrite app_nil_r.
Qed.

Lemma unzip_loop_extractions (names : list string) :
  forall s : state W,
    let '(o, s') :=
      for_each (List.map VStr names)
               (fun x => filename <- eval (as_str x) ;;
                         MHW.unzip_file filename) s in
    (forall e, o <> Raise e)
    /\ exists calls,
        log s' = (log s ++ calls)%list
        /\ extractions_of calls
           `prefix_of` List.map (fun f => (f, dirname f))
                                (List.filter is_zip names)
        /\ (o = Ret tt
            -> extractions_of calls
               = List.map (fun f => (f, dirname f))
                          (List.filter is_zip names)).
Proof.
  induction names as [| f names IH]; intros s;
    cbn [for_each List.map List.filter].
  - split; [intros ?; discriminate |]. exists [].
    rewrite app_nil_r. by repeat split.
  - rewrite run_bind, run_bind. unfold eval at 1. cbn [as_str].
    pose proof (unzip_file_extractions f s) as H1.
    destruct (MHW.unzip_file f s) as [[[] | e |] s1].
    + destruct H1 as (_ & c1 & Hlog1 & Hex1).
      specialize (IH s1).
      destruct (for_each _ _ s1) as [o s2].
      destruct IH as (Hraise & c2 & Hlog2 & Hpre & Hall).
      split; [done |]. exists (c1 ++ c2)%list.
      split; [by rewrite Hlog2, Hlog1, app_assoc |].
      unfold extractions_of in *. rewrite omap_app, Hex1.
      destruct (is_zip f); cbn [List.map List.app].
      * split; [by apply prefix_cons |]. intros Ho. f_equal. by apply Hall.
      * done.
    + destruct H1 as (Hraise & _). by destruct (Hraise e).
    + destruct H1 as (_ & c1 & Hlog1 & Hex1).
      split; [intros ?; discriminate |]. exists c1.
      split; [done |]. split; [| discriminate].
      rewrite Hex1. destruct (is_zip f); cbn [List.map].
      * apply prefix_cons. apply prefix_nil.
      * apply prefix_nil.
Qed.

(** X5.  The unzip cell goes on after a file that cannot be unzipped.
    Where [HAPI_dict['filenames']] is a list of strings, the cell never
    raises an exception, whatever [extractall] and [remove] do; the files
    it hands to [extractall] are the first of the file names whose
    extension is [.zip], in their order, each once and each with its own
    directory as the target; and a cell that returns has handed over every
    one of them. *)
Theorem unzip_cell_tries_every_zip (d : value) (names : list string)
        (s : state W) :
  and_then (getitem d "filenames") iterate = Ret (List.map VStr names) ->
  let '(o, s') := MHW.unzip_cell true (Some d) s in
  (forall e, o <> Raise e)
  /\ exists calls,
      log s' = (log s ++ calls)%list
      /\ extractions_of calls
         `prefix_of` List.map (fun f => (f, dirname f))
                              (List.filter is_zip names)
      /\ (o = Ret tt
          -> extractions_of calls
             = List.map (fun f => (f, dirname f))
                        (List.filter is_zip names)).
Proof.
  intros Hnames. unfold MHW.unzip_cell.
  rewrite run_bind, run_ret, run_bind. unfold eval at 1. rewrite Hnames.
  apply unzip_loop_extractions.
Qed.

End Sequence.
End SequenceFacts.

(** ** The pagination loop, turn by turn *)

Module PagingFacts.
Import Py Nb NbFacts WorkflowFacts Pages.
Local Open Scope nb_scope.

Section AnyKernel.
Context {W : Type} {K : Kernel W}.

Ltac calls_so_far :=
  rewrite ?run_ret; cbn [log after];
  rewrite ?app_nil_r, <- ?app_assoc; cbn [List.app];
  eexists; split; [reflexivity |];
  split; [eexists; cbn; reflexivity
         | intros ? ?; first [discriminate | idtac]].

(** One turn of the loop, whatever the helper functions do. *)
Lemma next_page_calls (verbose : bool) (v : MHW.paging) (s : state W) :
  let '(o, s') := MHW.next_page verbose v s in
  exists calls,
    log s' = (log s ++ calls)%list
    /\ calls `prefix_of` page_calls (MHW.page_count v + 1)
    /\ forall v', o = Ret v'
                  -> calls = page_calls (MHW.page_count v + 1)
                     /\ MHW.page_count v' = MHW.page_count v + 1.
Proof.
  unfold MHW.next_page, page_calls.
  repeat statement; calls_so_far.
  injection H as <-. by split.
Qed.

Lemma pagination_calls (verbose : bool) (fuel : nat) :
  forall (v : MHW.paging) (s : state W),
    let '(o, s') := MHW.pagination_loop fuel verbose v s in
    exists calls,
      log s' = (log s ++ calls)%list
      /\ calls `prefix_of`
               List.flat_map page_calls
                 (MHW.pages_from (MHW.page_count v + 1) fuel)
      /\ forall v', o = Ret v'
                    -> exists n,
                      (n < fuel)%nat
                      /\ calls = List.flat_map page_calls
                                   (MHW.pages_from (MHW.page_count v + 1) n)
                      /\ MHW.page_count v' = MHW.page_count v + Z.of_nat n.
Proof.
  unfold MHW.pagination_loop.
  induction fuel as [| fuel IH]; intros v s.
  - exists []. rewrite app_nil_r. split; [done |].
    split; [apply prefix_nil | discriminate].
  - cbn [while]. rewrite run_bind. unfold MHW.more_pages at 1, eval at 1.
    destruct (less _ _) as [[] | e |].
    + rewrite run_bind.
      pose proof (next_page_calls verbose v s) as H1.
      destruct (MHW.next_page verbose v s) as [[v1 | e |] s1].
      * destruct H1 as (c1 & Hlog1 & _ & Hall).
        destruct (Hall v1 eq_refl) as [-> Hpage].
        specialize (IH v1 s1).
        destruct (while fuel MHW.more_pages (MHW.next_page verbose) v1 s1)
          as [o s2].
        destruct IH as (c2 & Hlog2 & Hpre & Hret).
        rewrite Hpage in Hpre, Hret.
        exists (page_calls (MHW.page_count v + 1) ++ c2)%list.
        split; [by rewrite Hlog2, Hlog1, app_assoc |].
        rewrite SLSTRFacts.pages_from_S. cbn [List.flat_map].
        split; [by apply prefix_app |].
        intros v' Ho. destruct (Hret v' Ho) as (n & Hn & -> & Hv').
        exists (S n). split; [lia |].
        rewrite SLSTRFacts.pages_from_S. cbn [List.flat_map].
        split; [done | lia].
      * destruct H1 as (c1 & Hlog1 & Hpre & _). exists c1.
        split; [done |]. rewrite SLSTRFacts.pages_from_S.
        cbn [List.flat_map]. split; [by apply prefix_app_r | discriminate].
      * destruct H1 as (c1 & Hlog1 & Hpre & _). exists c1.
        split; [done |]. rewrite SLSTRFacts.pages_from_S.
        cbn [List.flat_map]. split; [by apply prefix_app_r | discriminate].
    + rewrite run_ret. exists []. rewrite app_nil_r. split; [done |].
      split; [apply prefix_nil |].
      intros v' [= <-]. exists 0%nat. split; [lia |]. split; [done | lia].
    + exists []. rewrite app_nil_r. split; [done |].
      split; [apply prefix_nil | discriminate].
    + exists []. rewrite app_nil_r. split; [done |].
      split; [apply prefix_nil | discriminate].
Qed.

Lemma first_test (d : value) (s : state W) :
  MHW.more_pages (first_page d) s = (Ret true, s).
Proof. reflexivity. Qed.

(** The loop from the first page on: its first test holds whatever the
    results are, so that a loop that returns has taken a turn. *)
Lemma pagination_from_first_page (verbose : bool) (fuel : nat)
        (HAPI_dict : value) (s : state W) :
  let '(o, s') := MHW.pagination_loop fuel verbose (first_page HAPI_dict) s in
  exists calls,
    log s' = (log s ++ calls)%list
    /\ calls `prefix_of` List.flat_map page_calls (MHW.pages_from 0 fuel)
    /\ forall v', o = Ret v'
                  -> exists n,
                    (1 <= n < fuel)%nat
                    /\ calls = List.flat_map page_calls (MHW.pages_from 0 n)
                    /\ MHW.page_count v' = Z.of_nat n - 1.
Proof.
  destruct fuel as [| fuel].
  - exists []. rewrite app_nil_r. split; [done |].
    split; [apply prefix_nil | discriminate].
  - unfold MHW.pagination_loop. cbn [while].
    rewrite run_bind, first_test, run_bind.
    pose proof (next_page_calls verbose (first_page HAPI_dict) s) as H1.
    destruct (MHW.next_page verbose (first_page HAPI_dict) s)
      as [[v1 | e |] s1].
    + destruct H1 as (c1 & Hlog1 & _ & Hall).
      destruct (Hall v1 eq_refl) as [-> Hpage].
      pose proof (pagination_calls verbose fuel v1 s1) as H2.
      unfold MHW.pagination_loop in H2.
      destruct (while fuel MHW.more_pages (MHW.next_page verbose) v1 s1)
        as [o s2].
      destruct H2 as (c2 & Hlog2 & Hpre & Hret).
      rewrite Hpage in Hpre, Hret.
      change (MHW.page_count (first_page HAPI_dict) + 1) with 0 in *.
      exists (page_calls 0 ++ c2)%list.
      split; [by rewrite Hlog2, Hlog1, app_assoc |].
      rewrite SLSTRFacts.pages_from_S. cbn [List.flat_map].
      split; [by apply prefix_app |].
      intros v' Ho. destruct (Hret v' Ho) as (n & Hn & -> & Hv').
      exists (S n). split; [lia |].
      rewrite SLSTRFacts.pages_from_S. cbn [List.flat_map].
      split; [done | lia].
    + destruct H1 as (c1 & Hlog1 & Hpre & _). exists c1.
      split; [done |]. rewrite SLSTRFacts.pages_from_S.
      cbn [List.flat_map]. split; [by apply prefix_app_r | discriminate].
    + destruct H1 as (c1 & Hlog1 & Hpre & _). exists c1.
      split; [done |]. rewrite SLSTRFacts.pages_from_S.
      cbn [List.flat_map]. split; [by apply prefix_app_r | discriminate].
Qed.

(** X6.  The pagination loop of the SLSTR download cell works page by
    page.  Whatever the helper functions do and however many tests of its
    condition the loop is allowed, the calls it has made are the first
    calls of the sequence that lists page 0, orders it, downloads it, lists
    page 1, orders it, downloads it, and so on: a page is ordered only
    after it has been listed, downloaded only after it has been ordered,
    and the next page is listed only after that.  A loop that returns has
    taken at least one turn, has made these three calls for each of its
    pages, and leaves [page_count] at the number of the last page. *)
Theorem pagination_page_by_page (verbose : bool) (fuel : nat)
        (HAPI_dict : value) (s : state W) :
  let '(o, s') := MHW.pagination_loop fuel verbose (first_page HAPI_dict) s in
  exists calls,
    log s' = (log s ++ calls)%list
    /\ calls `prefix_of` List.flat_map page_calls (MHW.pages_from 0 fuel)
    /\ forall v', o = Ret v'
                  -> exists n,
                    (1 <= n < fuel)%nat
                    /\ calls = List.flat_map page_calls (MHW.pages_from 0 n)
                    /\ MHW.page_count v' = Z.of_nat n - 1.
Proof. apply pagination_from_first_page. Qed.

(** X10.  The pagination loop needs the counts of the first page.  If
    the results that [get_results_list] returns for page 0 have no
    [totItems], or have it but no [itemsInPage] that can be added to
    [found_results], the loop raises the exception of that lookup or sum
    right after the one call that lists the page: nothing is ordered and
    nothing is downloaded. *)
Theorem pagination_needs_counts (verbose : bool) (fuel : nat)
        (HAPI_dict d' : value) (s : state W) (w' : W) (out : list string)
        (e : exn) :
  get_results_list HAPI_dict (Some 0) (Some verbose) (world s)
  = (Ret d', w', out) ->
  and_then (getitem d' "results") (fun r => getitem r "totItems") = Raise e
  \/ (exists total,
         and_then (getitem d' "results") (fun r => getitem r "totItems")
         = Ret total
         /\ and_then (getitem d' "results") (fun r =>
            and_then (getitem r "itemsInPage") (fun n => add (VInt 0) n))
            = Raise e) ->
  MHW.pagination_loop (S fuel) verbose (first_page HAPI_dict) s
  = (Raise e, after s w' out [GetResultsList (Some 0)]).
Proof.
  intros Hlist Hcount. unfold MHW.pagination_loop. cbn [while].
  rewrite run_bind, first_test, run_bind. unfold MHW.next_page.
  change (MHW.page_count (first_page HAPI_dict) + 1) with 0.
  change (MHW.HAPI_dict (first_page HAPI_dict)) with HAPI_dict.
  change (MHW.found_results (first_page HAPI_dict)) with (VInt 0).
  rewrite run_bind, run_invoke, Hlist.
  rewrite run_bind. unfold eval at 1.
  destruct Hcount as [-> | (total & -> & Hitems)]; [done |].
  rewrite run_bind. unfold eval at 1. by rewrite Hitems.
Qed.

End AnyKernel.

Section Pages.
Context {W : Type} {K : Kernel W}.

(** What is known of the server and of the helper functions while the loop
    runs: wherever a page can be listed, page [p] of the results is
    returned with [T] as its [totItems] and [items p] as its
    [itemsInPage], and its files can be ordered; wherever files can be
    ordered, the orders return and the files can be downloaded; wherever
    they can be downloaded, the download returns and a page can be listed
    again. *)
Variables Listing Ordering Downloading : value -> W -> Prop.
Variable T : Z.
Variable items : Z -> Z.
Variable verbose : bool.

Hypothesis page_listed : forall d w page,
  Listing d w ->
  exists d' w' out,
    get_results_list d (Some page) (Some verbose) w = (Ret d', w', out)
    /\ Ordering d' w'
    /\ and_then (getitem d' "results") (fun r => getitem r "totItems")
       = Ret (VInt T)
    /\ and_then (getitem d' "results") (fun r => getitem r "itemsInPage")
       = Ret (VInt (items page)).

Hypothesis orders_placed : forall d w,
  Ordering d w ->
  exists d' w' out,
    get_order_ids d w = (Ret d', w', out) /\ Downloading d' w'.

Hypothesis files_downloaded : forall d w,
  Downloading d w ->
  exists d' w' out,
    download_data d (Some ".zip") None w = (Ret d', w', out)
    /\ Listing d' w'.

(** One turn of the loop. *)
Lemma one_turn (v : MHW.paging) (f : Z) (s : state W) :
  Listing (MHW.HAPI_dict v) (world s) ->
  MHW.found_results v = VInt f ->
  exists d' s',
    MHW.next_page verbose v s
    = (Ret (MHW.before_first_page d' (VInt T)
              (VInt (f + items (MHW.page_count v + 1)))
              (MHW.page_count v + 1)), s')
    /\ Listing d' (world s')
    /\ log s' = (log s ++ page_calls (MHW.page_count v + 1))%list.
Proof.
  intros HInv Hfound. unfold MHW.next_page.
  destruct (page_listed _ _ (MHW.page_count v + 1) HInv)
    as (d1 & w1 & out1 & Hget & HInv1 & Htot & Hitems).
  rewrite run_bind, run_invoke, Hget.
  rewrite run_bind. unfold eval at 1. rewrite Htot.
  rewrite run_bind. unfold eval at 1.
  assert (and_then (getitem d1 "results") (fun r =>
          and_then (getitem r "itemsInPage") (fun n =>
          add (MHW.found_results v) n))
          = Ret (VInt (f + items (MHW.page_count v + 1)))) as ->.
  { revert Hitems. destruct (getitem d1 "results") as [r | |]; simpl;
      [| discriminate | discriminate].
    intros ->. simpl. by rewrite Hfound. }
  do 4 (rewrite run_bind, run_print).
  destruct (orders_placed _ _ HInv1) as (d2 & w2 & out2 & Hord & HInv2).
  rewrite run_bind, run_invoke. cbn [world after]. rewrite Hord.
  rewrite run_bind, run_print.
  destruct (files_downloaded _ _ HInv2) as (d3 & w3 & out3 & Hdl & HInv3).
  rewrite run_bind, run_invoke. cbn [world after]. rewrite Hdl.
  rewrite run_ret.
  exists d3. eexists. split; [done |]. split; [done |]. same_state.
Qed.

(** The turns the loop takes while the items found stay below the
    total. *)
Lemma turns (n : nat) :
  forall (v : MHW.paging) (f : Z) (s : state W),
    Listing (MHW.HAPI_dict v) (world s) ->
    MHW.total_results v = VInt T ->
    MHW.found_results v = VInt f ->
    (forall m, (m < n)%nat
               -> f + items_found items (MHW.page_count v + 1) m < T) ->
    exists d' s',
      Listing d' (world s')
      /\ log s'
         = (log s ++ List.flat_map page_calls
                       (MHW.pages_from (MHW.page_count v + 1) n))%list
      /\ forall fuel,
          MHW.pagination_loop (n + fuel) verbose v s
          = MHW.pagination_loop fuel verbose
              (MHW.before_first_page d' (VInt T)
                 (VInt (f + items_found items (MHW.page_count v + 1) n))
                 (MHW.page_count v + Z.of_nat n)) s'.
Proof.
  induction n as [| n IH]; intros v f s HInv Htot Hfound Hbelow.
  - exists (MHW.HAPI_dict v), s. split; [done |].
    split; [by rewrite app_nil_r |].
    intros fuel. cbn [items_found Nat.add Z.of_nat].
    rewrite !Z.add_0_r. destruct v. cbn in *. by subst.
  - destruct (one_turn v f s HInv Hfound) as (d1 & s1 & Hrun & HInv1 & Hlog1).
    destruct (IH (MHW.before_first_page d1 (VInt T)
                    (VInt (f + items (MHW.page_count v + 1)))
                    (MHW.page_count v + 1))
                 (f + items (MHW.page_count v + 1)) s1)
      as (d' & s' & HInv' & Hlog' & Hloop); [done | done | done | |].
    { intros m Hm. cbn [MHW.page_count MHW.before_first_page].
      specialize (Hbelow (S m)). cbn [items_found] in Hbelow. lia. }
    cbn [MHW.page_count MHW.before_first_page] in Hlog', Hloop.
    exists d', s'. split; [done |]. split.
    + rewrite Hlog', Hlog1, <- app_assoc.
      by rewrite SLSTRFacts.pages_from_S.
    + intros fuel. cbn [Nat.add]. unfold MHW.pagination_loop at 1.
      cbn [while]. rewrite run_bind.
      unfold MHW.more_pages at 1, eval at 1.
      rewrite Hfound, Htot, SLSTRFacts.less_int.
      assert ((f <? T) = true) as ->.
      { apply Z.ltb_lt. specialize (Hbelow 0%nat). cbn in Hbelow. lia. }
      rewrite run_bind, Hrun.
      fold (MHW.pagination_loop (n + fuel) verbose
              (MHW.before_first_page d1 (VInt T)
                 (VInt (f + items (MHW.page_count v + 1)))
                 (MHW.page_count v + 1)) s1).
      rewrite Hloop. cbn [items_found].
      replace (f + items (MHW.page_count v + 1)
               + items_found items (MHW.page_count v + 1 + 1) n)
        with (f + (items (MHW.page_count v + 1)
                   + items_found items (MHW.page_count v + 1 + 1) n))
        by lia.
      replace (MHW.page_count v + 1 + Z.of_nat n)
        with (MHW.page_count v + Z.of_nat (S n)) by lia.
      done.
Qed.

(** The same from the variables as the cell sets them: the first turn is
    always taken. *)
Lemma turns_from_first_page (n : nat) (d : value) (s : state W) :
  Listing d (world s) ->
  (forall m, (1 <= m <= n)%nat -> items_found items 0 m < T) ->
  exists d' s',
    Listing d' (world s')
    /\ log s'
       = (log s ++ List.flat_map page_calls (MHW.pages_from 0 (S n)))%list
    /\ forall fuel,
        MHW.pagination_loop (S n + fuel) verbose (first_page d) s
        = MHW.pagination_loop fuel verbose
            (MHW.before_first_page d' (VInt T)
               (VInt (items_found items 0 (S n))) (Z.of_nat n)) s'.
Proof.
  intros HInv Hbelow.
  destruct (one_turn (first_page d) 0 s HInv eq_refl)
    as (d1 & s1 & Hrun & HInv1 & Hlog1).
  change (MHW.page_count (first_page d) + 1) with 0 in *.
  destruct (turns n (MHW.before_first_page d1 (VInt T) (VInt (0 + items 0)) 0)
                  (0 + items 0) s1)
    as (d' & s' & HInv' & Hlog' & Hloop); [done | done | done | |].
  { intros m Hm. cbn [MHW.page_count MHW.before_first_page].
    destruct m as [| m].
    - specialize (Hbelow 1%nat). cbn in Hbelow |- *. lia.
    - specialize (Hbelow (S (S m))). cbn [items_found] in Hbelow |- *.
      change (0 + 1) with 1 in *. lia. }
  cbn [MHW.page_count MHW.before_first_page] in Hlog', Hloop.
  change (0 + 1) with 1 in *.
  exists d', s'. split; [done |]. split.
  - rewrite Hlog', Hlog1, <- app_assoc.
    by rewrite SLSTRFacts.pages_from_S.
  - intros fuel. cbn [Nat.add]. unfold MHW.pagination_loop at 1.
    cbn [while]. rewrite run_bind, first_test, run_bind, Hrun.
    fold (MHW.pagination_loop (n + fuel) verbose
            (MHW.before_first_page d1 (VInt T) (VInt (0 + items 0)) 0) s1).
    rewrite Hloop. cbn [items_found]. change (0 + 1) with 1.
    replace (0 + items 0 + items_found items 1 n)
      with (items 0 + items_found items 1 n) by lia.
    replace (0 + Z.of_nat n) with (Z.of_nat n) by lia.
    done.
Qed.

(** The loop stops where the items found have reached the total. *)
Lemma loop_stops (fuel : nat) (d : value) (f p : Z) (s : state W) :
  T <= f ->
  MHW.pagination_loop (S fuel) verbose
    (MHW.before_first_page d (VInt T) (VInt f) p) s
  = (Ret (MHW.before_first_page d (VInt T) (VInt f) p), s).
Proof.
  intros Hf. unfold MHW.pagination_loop. cbn [while]. rewrite run_bind.
  unfold MHW.more_pages at 1, eval at 1.
  cbn [MHW.found_results MHW.total_results MHW.before_first_page].
  rewrite SLSTRFacts.less_int.
  assert ((f <? T) = false) as -> by (apply Z.ltb_ge; lia). done.
Qed.

Lemma turns_then_stop (n : nat) (d : value) (s : state W) :
  Listing d (world s) ->
  (forall m, (1 <= m <= n)%nat -> items_found items 0 m < T) ->
  T <= items_found items 0 (S n) ->
  exists d' s',
    (forall fuel,
        (S n < fuel)%nat ->
        MHW.pagination_loop fuel verbose (first_page d) s
        = (Ret (MHW.before_first_page d' (VInt T)
                  (VInt (items_found items 0 (S n))) (Z.of_nat n)), s'))
    /\ log s'
       = (log s ++ List.flat_map page_calls (MHW.pages_from 0 (S n)))%list.
Proof.
  intros HInv Hbelow Hreached.
  destruct (turns_from_first_page n d s HInv Hbelow)
    as (d' & s' & _ & Hlog & Hloop).
  exists d', s'. split; [| done].
  intros fuel Hfuel.
  replace fuel with (S n + S (fuel - S n - 1))%nat by lia.
  rewrite Hloop. by apply loop_stops.
Qed.

(** X7.  The number of turns of the pagination loop.  Let every page [p]
    be returned with [T] as its [totItems] and [items p] as its
    [itemsInPage], and let the orders and downloads return.  If [n >= 1]
    is the first number of pages whose items add up to [T] or more, the
    loop takes exactly [n] turns: it lists, orders and downloads the pages
    0 to [n-1], each once and in that order, and returns with
    [found_results] at the sum of their items, [total_results] at [T] and
    [page_count] at [n-1]; allowed more than [n] tests of its condition it
    always does so. *)
Theorem pagination_turns (n : nat) (HAPI_dict : value) (s : state W) :
  Listing HAPI_dict (world s) ->
  (1 <= n)%nat ->
  (forall m, (1 <= m < n)%nat -> items_found items 0 m < T) ->
  T <= items_found items 0 n ->
  exists d' s',
    (forall fuel,
        (n < fuel)%nat ->
        MHW.pagination_loop fuel verbose (first_page HAPI_dict) s
        = (Ret (MHW.before_first_page d' (VInt T)
                  (VInt (items_found items 0 n)) (Z.of_nat n - 1)), s'))
    /\ log s' = (log s ++ List.flat_map page_calls (MHW.pages_from 0 n))%list.
Proof.
  intros HInv Hn Hbelow Hreached. destruct n as [| n]; [lia |].
  destruct (turns_then_stop n HAPI_dict s HInv) as (d' & s' & Hloop & Hlog);
    [intros m Hm; apply Hbelow; lia | done |].
  exists d', s'. split; [| done].
  replace (Z.of_nat (S n) - 1) with (Z.of_nat n) by lia. done.
Qed.

(** X8.  The pagination loop does not end if the items of the pages
    never add up to the total, as when the server goes on returning pages
    without a file for a job that reports a positive total: however many
    tests of its condition the loop is allowed, it has not returned after
    them, and it has listed, ordered and downloaded one more page at each
    of them. *)
Theorem pagination_never_ends (HAPI_dict : value) (s : state W) :
  Listing HAPI_dict (world s) ->
  (forall m, (1 <= m)%nat -> items_found items 0 m < T) ->
  forall fuel,
  exists s',
    MHW.pagination_loop fuel verbose (first_page HAPI_dict) s = (Timeout, s')
    /\ log s'
       = (log s ++ List.flat_map page_calls (MHW.pages_from 0 fuel))%list.
Proof.
  intros HInv Hbelow [| n].
  - exists s. split; [done |]. by rewrite app_nil_r.
  - destruct (turns_from_first_page n HAPI_dict s HInv)
      as (d' & s' & _ & Hlog & Hloop); [intros m Hm; apply Hbelow; lia |].
    exists s'. split; [| done].
    replace (S n) with (S n + 0)%nat by lia. by rewrite Hloop.
Qed.

(** X9.  If the first page holds all the items, the pagination loop
    takes one turn; so it does if the job found nothing, where the total
    and the items of the page are both 0: [get_order_ids] and
    [download_data] are still called once each, and the loop returns with
    [page_count] at 0. *)
Theorem pagination_one_turn (HAPI_dict : value) (s : state W) :
  Listing HAPI_dict (world s) ->
  T <= items 0 ->
  exists d' s',
    (forall fuel,
        (1 < fuel)%nat ->
        MHW.pagination_loop fuel verbose (first_page HAPI_dict) s
        = (Ret (MHW.before_first_page d' (VInt T) (VInt (items 0)) 0), s'))
    /\ log s' = (log s ++ page_calls 0)%list.
Proof.
  intros HInv Hfirst.
  destruct (turns_then_stop 0 HAPI_dict s HInv) as (d' & s' & Hloop & Hlog);
    [intros m Hm; lia | cbn; lia |].
  exists d', s'. cbn [items_found] in Hloop. rewrite Z.add_0_r in Hloop.
  split; [done |]. rewrite Hlog. done.
Qed.

End Pages.
End PagingFacts.

(** ** The order of the workflow, notebook by notebook *)

Module OrderFacts.
Import Py Nb NbFacts Workflow WorkflowFacts Calls Pages.
Local Open Scope nb_scope.

Section Order.
Context {W : Type} {K : Kernel W}.






End Order.


End OrderFacts.


(** ** The cell that renames the first file *)

Module RenameFacts.
Import Py Nb NbFacts Workflow WorkflowFacts Fields.
Local Open Scope nb_scope.

Lemma assoc_assoc_set (k k' : string) (v : value)
      (d : list (string * value)) :
  assoc k' (assoc_set k v d) = if String.eqb k' k then Some v else assoc k' d.
Proof.
  induction d as [| [k0 v0] d IH]; simpl.
  - destruct (String.eqb k' k); done.
  - destruct (String.eqb k k0) eqn:E; simpl.
    + apply String.eqb_eq in E. subst k0.
      destruct (String.eqb k' k); done.
    + destruct (String.eqb k' k0) eqn:E'.
      * apply String.eqb_eq in E'. subst k0.
        rewrite String.eqb_sym in E. by rewrite E.
      * exact IH.
Qed.

(** X11.  The cell of the how-to notebook that renames the first file,
    [hda_dict['results']['content'][0]['filename'] = filename], changes
    that one field and nothing else.  If the assignment succeeds, the
    field reads back as the new name; the other fields of the first file
    (its [url]), the other files of the results, the other fields of the
    results ([totItems], [itemsInPage]) and the other entries of the
    dictionary (the job ID, the order IDs, the access token) are as they
    were. *)
Theorem set_first_filename_round_trip (hda_dict renamed : value)
        (filename : string) :
  HowTo.set_first_filename hda_dict filename = Ret renamed ->
  file_field renamed 0 "filename" = Ret (VStr filename)
  /\ (forall key, key <> "filename"
                  -> file_field renamed 0 key = file_field hda_dict 0 key)
  /\ (forall i, content_item renamed (S i) = content_item hda_dict (S i))
  /\ (forall key, key <> "content"
                  -> results_field renamed key = results_field hda_dict key)
  /\ (forall key, key <> "results"
                  -> getitem renamed key = getitem hda_dict key).
Proof.
  unfold HowTo.set_first_filename. intros H.
  destruct hda_dict as [| | | | | | d]; try discriminate.
  cbn [getitem] in H. destruct (assoc "results" d) as [results |] eqn:Hr;
    [| discriminate].
  cbn [and_then] in H.
  destruct results as [| | | | | | r]; try discriminate.
  cbn [getitem] in H. destruct (assoc "content" r) as [content |] eqn:Hc;
    [| discriminate].
  cbn [and_then] in H.
  destruct content as [| | | | text | l |]; try discriminate.
  { destruct text; discriminate. }
  destruct l as [| item rest]; [discriminate |].
  cbn [getindex nth_error and_then] in H.
  destruct item as [| | | | | | i]; try discriminate.
  simpl in H. injection H as <-.
  unfold file_field, content_item, results_field.
  cbn [getitem]. rewrite !assoc_assoc_set, Hr.
  cbn [String.eqb Ascii.eqb Bool.eqb and_then getitem].
  rewrite ?assoc_assoc_set.
  cbn [String.eqb Ascii.eqb Bool.eqb and_then getitem getindex nth_error].
  rewrite ?assoc_assoc_set, ?Hc.
  cbn [String.eqb Ascii.eqb Bool.eqb and_then getitem getindex nth_error].
  assert (forall key k v items,
             key <> k ->
             match assoc key (assoc_set k v items) with
             | Some v => Ret v
             | None => Raise (KeyError key)
             end
             = match assoc key items with
               | Some v => Ret v
               | None => Raise (KeyError key)
               end) as Hother.
  { intros key k v items Hkey. rewrite assoc_assoc_set.
    apply String.eqb_neq in Hkey. by rewrite Hkey. }
  split; [done |]. split; [intros; by apply Hother |].
  split; [done |]. split; intros; by apply Hother.
Qed.

(** With no file in the results there is no first file to rename. *)
Lemma set_first_filename_empty (hda_dict : value) (filename : string) :
  results_field hda_dict "content" = Ret (VList []) ->
  HowTo.set_first_filename hda_dict filename = Raise IndexError.
Proof.
  unfold results_field, HowTo.set_first_filename.
  destruct (getitem hda_dict "results") as [results | |];
    [| discriminate | discriminate].
  cbn [and_then]. by intros ->.
Qed.

Section NothingFound.
Context {W : Type} {K : Kernel W}.

Hypothesis nothing_found : forall d w,
  exists d' w' out,
    get_order_ids d w = (Ret d', w', out)
    /\ results_field d' "content" = Ret (VList []).

(** X12.  The how-to notebook needs a file to rename.  If the job found
    nothing, so that the dictionary [get_order_ids] returns has an empty
    [content], the cell that renames the first file raises an
    [IndexError]: the run never reaches its end and [download_data] is
    never called. *)
Theorem HowTo_needs_a_file (user_name password : string) (w : W) :
  let '(r, s) := HowTo.notebook user_name password (start w) in
  (forall d, r <> Ret d)
  /\ ranks (log s) `prefix_of` [0; 1; 2; 3; 4; 5; 6]%nat
  /\ (ranks (log s) = [0; 1; 2; 3; 4; 5; 6]%nat -> r = Raise IndexError).
Proof.
  unfold HowTo.notebook.
  repeat first
    [ match goal with
      | |- context [bind (invoke GetOrderIds (get_order_ids ?d)) ?k ?s] =>
          rewrite (run_bind (invoke GetOrderIds (get_order_ids d)) k s),
            (run_invoke GetOrderIds (get_order_ids d) s);
          cbn [world after];
          match goal with
          | |- context [get_order_ids d ?w] =>
              let Hc := fresh "Hc" in
              destruct (nothing_found d w) as (? & ? & ? & -> & Hc);
              cbn [fst snd];
              rewrite run_bind; unfold eval at 1;
              rewrite (set_first_filename_empty _ HowTo.filename Hc)
          end
      end
    | statement ];
    (split; [intros ?; discriminate |]);
    (split; [by eexists | first [discriminate | reflexivity]]).
Qed.

End NothingFound.

End RenameFacts.

(** ** The names of the SST files *)

Module TextFacts.
Import Py PyFacts Text.

Lemma all_chars_app (P : ascii -> bool) (a b : string) :
  all_chars P (a ++ b) = all_chars P a && all_chars P b.
Proof.
  induction a as [| c a IH]; [done |].
  change (P c && all_chars P (a ++ b) = P c && all_chars P a && all_chars P b).
  by rewrite IH, andb_assoc.
Qed.

Lemma all_chars_impl (P Q : ascii -> bool) (s : string) :
  (forall c, P c = true -> Q c = true) ->
  all_chars P s = true -> all_chars Q s = true.
Proof.
  intros HPQ. induction s as [| c s IH]; [done |]. simpl.
  intros [Hc Hs]%andb_true_iff. apply andb_true_iff. auto.
Qed.

Lemma length_app (a b : string) :
  String.length (a ++ b) = (String.length a + String.length b)%nat.
Proof.
  induction a as [| c a IH]; [done |].
  change (S (String.length (a ++ b)) = S (String.length a + String.length b)).
  by rewrite IH.
Qed.

Lemma append_nil_r (a : string) : a ++ "" = a.
Proof.
  induction a as [| c a IH]; [done |].
  change (String c (a ++ "") = String c a). by rewrite IH.
Qed.

(** [s.split(sep)[0]] is what comes before the first [sep]. *)
Lemma split_first (sep : ascii) (a b : string) :
  lacks sep a = true ->
  first (split sep (a ++ String sep b)) = a.
Proof.
  induction a as [| c a IH].
  - intros _. change (first (split sep (String sep b)) = ""). simpl.
    by rewrite Ascii.eqb_refl.
  - unfold lacks. simpl. intros [Hc Ha]%andb_true_iff.
    apply negb_true_iff in Hc.
    change (first (split sep (String c (a ++ String sep b))) = String c a).
    simpl. rewrite Hc. specialize (IH Ha).
    destruct (split sep (a ++ String sep b)) as [| p ps]; simpl in *;
      by subst.
Qed.

Lemma uint_digits (d : Decimal.uint) :
  all_chars is_digit (NilEmpty.string_of_uint d) = true.
Proof. induction d; simpl; [done | by rewrite IHd ..]. Qed.

Lemma uint_digits_nilzero (d : Decimal.uint) :
  all_chars is_digit (NilZero.string_of_uint d) = true.
Proof. destruct d; try apply uint_digits. reflexivity. Qed.

(** [str(n)] of an integer that is not negative is made of digits. *)
Lemma str_digits (n : Z) : 0 <= n -> all_chars is_digit (str n) = true.
Proof.
  intros Hn. unfold str. destruct n as [| p | p]; [done | | lia].
  apply uint_digits_nilzero.
Qed.

Lemma digit_not (c : ascii) :
  is_digit c = false ->
  forall d, is_digit d = true -> negb (Ascii.eqb d c) = true.
Proof.
  intros Hc d Hd. apply negb_true_iff, Ascii.eqb_neq. intros ->. congruence.
Qed.

(** [str(n)] holds digits and, for a negative integer, a minus sign
    before them. *)
Lemma str_lacks (c : ascii) (n : Z) :
  is_digit c = false -> c <> "-"%char -> lacks c (str n) = true.
Proof.
  intros Hc Hminus. unfold str, lacks.
  destruct n as [| p | p].
  - apply (all_chars_impl is_digit); [by apply digit_not | done].
  - apply (all_chars_impl is_digit);
      [by apply digit_not | apply uint_digits_nilzero].
  - change (all_chars (fun d => negb (Ascii.eqb d c))
              (String "-" (NilZero.string_of_uint (Pos.to_uint p))) = true).
    cbn [all_chars]. apply andb_true_iff. split.
    + apply negb_true_iff, Ascii.eqb_neq. congruence.
    + apply (all_chars_impl is_digit);
        [by apply digit_not | apply uint_digits_nilzero].
Qed.

Lemma digits_app_inj (a b t t' : string) (c c' : ascii) :
  all_chars is_digit a = true -> all_chars is_digit b = true ->
  is_digit c = false -> is_digit c' = false ->
  a ++ String c t = b ++ String c' t' -> a = b.
Proof.
  intros Ha Hb Hc Hc'. revert b Hb.
  induction a as [| x a IH]; intros [| y b] Hb Heq.
  - done.
  - injection Heq as -> _. simpl in Hb.
    apply andb_true_iff in Hb as [Hb _]. congruence.
  - injection Heq as -> _. simpl in Ha.
    apply andb_true_iff in Ha as [Ha _]. congruence.
  - injection Heq as -> Heq. f_equal. simpl in Ha, Hb.
    apply andb_true_iff in Ha as [_ Ha]. apply andb_true_iff in Hb as [_ Hb].
    by apply IH.
Qed.

Lemma str_inj (n n' : Z) : str n = str n' -> n = n'.
Proof.
  unfold str. intros H. apply DecimalZ.to_int_inj.
  assert (forall z, Z.to_int z <> Decimal.Pos Decimal.Nil
                    /\ Z.to_int z <> Decimal.Neg Decimal.Nil) as Hnil.
  { intros z. split; intros Hz;
      pose proof (DecimalZ.of_to z) as Hof; rewrite Hz in Hof;
      simpl in Hof; subst z; discriminate. }
  destruct (Hnil n) as [H1 H2]. destruct (Hnil n') as [H1' H2'].
  pose proof (NilZero.isi _ H1 H2) as E.
  pose proof (NilZero.isi _ H1' H2') as E'.
  rewrite H in E. congruence.
Qed.

(** The date tag of a year. *)
Lemma date_tag_of_year (dataset : string) (year : Z) :
  SST.date_tag (SST.year_request dataset year)
  = str year ++ "-01-01_" ++ str year ++ "-12-31".
Proof.
  unfold SST.date_tag, SST.year_request.
  cbn [SST.start_date SST.end_date].
  change (str year ++ "-01-01T00:00:00.000Z")
    with (str year ++ "-01-01" ++ String "T" "00:00:00.000Z").
  change (str year ++ "-12-31T00:00:00.000Z")
    with (str year ++ "-12-31" ++ String "T" "00:00:00.000Z").
  assert (forall day rest,
             lacks "T" day = true ->
             first (split "T" (str year ++ day ++ String "T" rest))
             = str year ++ day) as Hday.
  { intros day rest Hlacks. rewrite <- append_assoc. apply split_first.
    unfold lacks. rewrite all_chars_app. apply andb_true_iff. split; [| done].
    by apply str_lacks. }
  rewrite (Hday "-01-01" "00:00:00.000Z" eq_refl).
  rewrite (Hday "-12-31" "00:00:00.000Z" eq_refl).
  by rewrite !append_assoc.
Qed.

Lemma user_filename_year (dataset : string) (year : Z) :
  SST.user_filename (SST.year_request dataset year)
  = SST.file_of_year (SST.tag (SST.year_request dataset year)) year.
Proof.
  unfold SST.user_filename, SST.file_of_year. rewrite date_tag_of_year.
  by rewrite !append_assoc.
Qed.

(** X13.  The name under which the SST download cell saves the file of a
    year.  For every year that is put into the loop, not only for 2008 to
    2021, the date tag cut out of the start date and the end date is
    [YYYY-01-01_YYYY-12-31], and the file name is
    [METOFFICE-GLO-SST-L4-<tag>_YYYY-01-01_YYYY-12-31.nc], where the tag is
    [XNRT] for a dataset whose key holds [NRT] and [REP] for any other. *)
Theorem user_filename_of_year (dataset : string) (year : Z) :
  SST.date_tag (SST.year_request dataset year)
  = str year ++ "-01-01_" ++ str year ++ "-12-31"
  /\ SST.user_filename (SST.year_request dataset year)
     = SST.file_of_year
         (if contains "NRT" dataset then "XNRT" else "REP") year.
Proof. split; [apply date_tag_of_year | apply user_filename_year]. Qed.

(** X14.  No two years share a file.  The files that the SST download
    cell names for two different years, neither of them negative, have
    different names, whatever the datasets: the download of a year never
    overwrites the file of another year. *)
Theorem years_get_their_own_file (dataset dataset' : string)
        (year year' : Z) :
  0 <= year -> 0 <= year' -> year <> year' ->
  SST.user_filename (SST.year_request dataset year)
  <> SST.user_filename (SST.year_request dataset' year').
Proof.
  intros Hy Hy' Hne. unfold SST.user_filename. rewrite !date_tag_of_year.
  unfold SST.tag.
  destruct (contains _ _), (contains _ _); intros H; simplify_eq/=;
    rewrite !append_assoc in H; apply Hne, str_inj;
    exact (digits_app_inj (str year) (str year') _ _ "-" "-"
             (str_digits _ Hy) (str_digits _ Hy') eq_refl eq_refl H).
Qed.

(** X15.  The files of a near-real-time dataset sort last.  Whatever the
    years, the name the SST download cell gives to a file of a dataset
    whose key holds [NRT] comes, in the order of [sorted], after the name
    it gives to a file of a dataset whose key does not. *)
Theorem NRT_files_sort_last (dataset dataset' : string) (year year' : Z) :
  contains "NRT" dataset = false ->
  contains "NRT" dataset' = true ->
  lt (SST.user_filename (SST.year_request dataset year))
     (SST.user_filename (SST.year_request dataset' year')) = true.
Proof.
  intros H H'. rewrite !user_filename_year. unfold SST.tag.
  cbn [SST.dataset_id SST.year_request]. rewrite H, H'.
  unfold SST.file_of_year. by rewrite lt_app.
Qed.

(** *** Paths *)

Lemma rfind_from_lacks (c : ascii) (s : string) (i : Z) :
  lacks c s = true -> rfind_from c s i = -1.
Proof.
  revert i. induction s as [| d s IH]; intros i; [done |].
  unfold lacks. cbn [all_chars rfind_from].
  intros [Hd Hs]%andb_true_iff. rewrite (IH _ Hs).
  apply negb_true_iff in Hd. rewrite Ascii.eqb_sym in Hd. by rewrite Hd.
Qed.

(** The last [c] of a string that has nothing but [b] after it. *)
Lemma rfind_from_last (c : ascii) (a b : string) (i : Z) :
  0 <= i -> lacks c b = true ->
  rfind_from c (a ++ String c b) i = i + Z.of_nat (String.length a).
Proof.
  intros Hi Hb. revert i Hi. induction a as [| d a IH]; intros i Hi.
  - change (rfind_from c (String c b) i = i + 0). cbn [rfind_from].
    rewrite (rfind_from_lacks _ _ _ Hb), Ascii.eqb_refl. simpl. lia.
  - change (rfind_from c (String d (a ++ String c b)) i
            = i + Z.of_nat (S (String.length a))).
    cbn [rfind_from]. rewrite IH by lia.
    destruct (Z.leb_spec 0 (i + 1 + Z.of_nat (String.length a))); lia.
Qed.

Lemma rfind_from_app_lacks (c : ascii) (a b : string) (i : Z) :
  lacks c b = true -> rfind_from c (a ++ b) i = rfind_from c a i.
Proof.
  intros Hb. revert i. induction a as [| d a IH]; intros i.
  - change (rfind_from c b i = -1). by apply rfind_from_lacks.
  - change (rfind_from c (String d (a ++ b)) i = rfind_from c (String d a) i).
    cbn [rfind_from]. by rewrite IH.
Qed.

Lemma endswith_split (c : ascii) (a : string) :
  endswith c a = true -> exists a0, a = a0 ++ String c "".
Proof.
  induction a as [| d a IH]; [done |].
  destruct a as [| e a].
  - simpl. intros ->%Ascii.eqb_eq. by exists "".
  - intros H. destruct IH as [a0 ->]; [exact H |].
    by exists (String d a0).
Qed.

Lemma endswith_last (c : ascii) (a : string) :
  endswith c (a ++ String c "") = true.
Proof.
  induction a as [| d a IH].
  - simpl. apply Ascii.eqb_refl.
  - change (endswith c (String d (a ++ String c "")) = true).
    destruct a as [| e a]; exact IH.
Qed.

Lemma substring_prefix (a b : string) :
  String.substring 0 (String.length a) (a ++ b) = a.
Proof.
  induction a as [| c a IH].
  - simpl. by destruct b.
  - change (String c (String.substring 0 (String.length a) (a ++ b))
            = String c a). by rewrite IH.
Qed.

Lemma substring_skip (a b : string) (n : nat) :
  String.substring (String.length a) n (a ++ b) = String.substring 0 n b.
Proof. induction a as [| c a IH]; [done | exact IH]. Qed.

(** A relative name is put under a directory after a prefix that is empty
    or ends with a slash. *)
Lemma path_join_under (dir : string) :
  exists pre,
    (pre = "" \/ endswith "/" pre = true)
    /\ forall name, startswith "/" name = false
                    -> path_join dir name = pre ++ name.
Proof.
  unfold path_join.
  destruct (String.eqb dir "" || endswith "/" dir)%bool eqn:E.
  - exists dir. split; [| by intros name ->].
    apply orb_true_iff in E as [->%String.eqb_eq | E]; auto.
  - exists (dir ++ "/"). split; [right; apply endswith_last |].
    intros name ->. by rewrite append_assoc.
Qed.

Lemma lacks_startswith (c : ascii) (s : string) :
  lacks c s = true -> startswith c s = false.
Proof.
  destruct s as [| d r]; [done |]. unfold lacks. simpl.
  intros [Hd _]%andb_true_iff. apply negb_true_iff in Hd.
  by rewrite Ascii.eqb_sym.
Qed.

(** The index of the last slash of a prefix that is empty or ends with a
    slash. *)
Lemma rfind_slash_prefix (pre : string) :
  pre = "" \/ endswith "/" pre = true ->
  rfind_from "/" pre 0 = Z.of_nat (String.length pre) - 1.
Proof.
  intros [-> | [a0 ->]%endswith_split]; [done |].
  rewrite rfind_from_last by done. rewrite length_app. simpl. lia.
Qed.

(** [os.path.splitext] of a name with the extension [.zip] under a
    directory. *)
Lemma splitext_zip (pre name : string) :
  pre = "" \/ endswith "/" pre = true ->
  lacks "/" name = true ->
  splitext (pre ++ name ++ ".zip")
  = if has_non_dot name then (pre ++ name, ".zip")
    else (pre ++ name ++ ".zip", "").
Proof.
  intros Hpre Hname. unfold splitext, rfind.
  assert (lacks "/" (name ++ ".zip") = true) as Hrel.
  { unfold lacks. rewrite all_chars_app. by apply andb_true_iff. }
  rewrite (rfind_from_app_lacks "/" pre _ 0 Hrel), (rfind_slash_prefix _ Hpre).
  rewrite <- (append_assoc pre name ".zip").
  change ((pre ++ name) ++ ".zip") with ((pre ++ name) ++ String "." "zip").
  rewrite (rfind_from_last "." (pre ++ name) "zip" 0) by done.
  rewrite !length_app. cbn [String.length].
  assert ((Z.of_nat (String.length pre) - 1
           <? 0 + Z.of_nat (String.length pre + String.length name)) = true)
    as -> by (apply Z.ltb_lt; lia).
  unfold slice.
  replace (Z.to_nat (Z.of_nat (String.length pre) - 1 + 1))
    with (String.length pre) by lia.
  replace (Z.to_nat (0 + Z.of_nat (String.length pre + String.length name)
                     - (Z.of_nat (String.length pre) - 1 + 1)))
    with (String.length name) by lia.
  rewrite (append_assoc pre name), substring_skip, substring_prefix.
  cbn [andb]. destruct (has_non_dot name); [| done].
  rewrite <- (append_assoc pre name).
  replace (Z.to_nat 0) with 0%nat by done.
  replace (Z.to_nat (0 + Z.of_nat (String.length pre + String.length name)
                     - 0))
    with (String.length (pre ++ name)) by (rewrite length_app; lia).
  rewrite substring_prefix.
  replace (Z.to_nat (0 + Z.of_nat (String.length pre + String.length name)))
    with (String.length (pre ++ name)) by (rewrite length_app; lia).
  replace (Z.to_nat
             (Z.of_nat (String.length pre + String.length name + 4)
              - (0 + Z.of_nat (String.length pre + String.length name))))
    with 4%nat by lia.
  by rewrite substring_skip.
Qed.

End TextFacts.

(** ** The paths of the unzip loop *)

Module PathFacts.
Import Py Nb NbFacts PyFacts Text TextFacts Calls.
Local Open Scope nb_scope.

Lemma all_slashes_app (a b : string) :
  all_slashes (a ++ b) = all_slashes a && all_slashes b.
Proof.
  induction a as [| c a IH]; [done |].
  change (Ascii.eqb c "/" && all_slashes (a ++ b)
          = Ascii.eqb c "/" && all_slashes a && all_slashes b).
  by rewrite IH, andb_assoc.
Qed.

Lemma all_slashes_endswith (a : string) :
  a <> "" -> all_slashes a = true -> endswith "/" a = true.
Proof.
  induction a as [| c a IH]; [done |]. intros _.
  cbn [all_slashes]. intros [Hc Ha]%andb_true_iff.
  destruct a as [| d a].
  - cbn [endswith]. by rewrite Ascii.eqb_sym.
  - apply IH; done.
Qed.

Lemma rstrip_slash_one (a : string) :
  a <> "" -> endswith "/" a = false -> rstrip_slash (a ++ "/") = a.
Proof.
  induction a as [| c a IH]; [done |]. intros _ Hend.
  change (rstrip_slash (String c (a ++ "/")) = String c a).
  cbn [rstrip_slash].
  assert (all_slashes (String c (a ++ "/")) = false) as ->.
  { change (all_slashes (String c a ++ "/") = false).
    rewrite all_slashes_app. apply andb_false_iff. left.
    destruct (all_slashes (String c a)) eqn:E; [| done].
    apply all_slashes_endswith in E; [congruence | done]. }
  f_equal. destruct a as [| d a]; [done |].
  apply IH; done.
Qed.

(** [os.path.dirname] of a name put under a directory. *)
Lemma dirname_path_join (dir name : string) :
  dir <> "" -> endswith "/" dir = false -> lacks "/" name = true ->
  dirname (path_join dir name) = dir.
Proof.
  intros Hdir Hend Hname. unfold path_join.
  rewrite (lacks_startswith "/" name Hname).
  assert (String.eqb dir "" = false) as -> by by apply String.eqb_neq.
  rewrite Hend. cbn [orb].
  unfold dirname, rfind.
  change (dir ++ "/" ++ name) with (dir ++ String "/" name).
  rewrite rfind_from_last by done.
  unfold slice.
  replace (Z.to_nat 0) with 0%nat by done.
  replace (Z.to_nat (0 + Z.of_nat (String.length dir) + 1 - 0))
    with (String.length (dir ++ "/")) by (rewrite length_app; simpl; lia).
  change (dir ++ String "/" name) with (dir ++ "/" ++ name).
  rewrite <- append_assoc, substring_prefix.
  assert (all_slashes (dir ++ "/") = false) as ->.
  { rewrite all_slashes_app. apply andb_false_iff. left.
    destruct (all_slashes dir) eqn:E; [| done].
    apply all_slashes_endswith in E; [congruence | done]. }
  by apply rstrip_slash_one.
Qed.

Section Unzip.
Context {W : Type} {K : Kernel W}.

(** X17.  A zip file is extracted into the directory it was downloaded
    to.  For a file name without a slash put under a directory whose path
    is not empty and does not end with a slash, as the download directory
    of the notebook is, [os.path.dirname] of the joined path is that
    directory, and the first call of the [try] block of the unzip loop
    asks [extractall] to extract the file into it. *)
Theorem zip_extracted_beside_itself (dir name : string) (s : state W) :
  dir <> "" -> endswith "/" dir = false -> lacks "/" name = true ->
  dirname (path_join dir name) = dir
  /\ exists calls,
      log (snd (MHW.try_unzip (path_join dir name) s))
      = (log s ++ Extractall (path_join dir name) dir :: calls)%list.
Proof.
  intros Hdir Hend Hname.
  rewrite (dirname_path_join dir name Hdir Hend Hname). split; [done |].
  unfold MHW.try_unzip.
  rewrite (dirname_path_join dir name Hdir Hend Hname).
  rewrite run_bind, run_invoke.
  destruct (extractall _ _ (world s)) as [[[[] | e |] w1] out1].
  - rewrite run_invoke. cbn [world after].
    destruct (remove _ w1) as [[r w2] out2]. cbn [snd log after].
    rewrite <- app_assoc. by eexists.
  - by exists [].
  - by exists [].
Qed.

(** X18.  What the unzip loop takes for a zip file.  A file
    [<name>.zip] under a directory, where the name holds no slash, passes
    the test [os.path.splitext(filename)[-1] == '.zip'] if and only if the
    name holds a character other than a dot.  A file that is called
    [.zip], or whose name holds nothing but dots, is passed over: the turn
    of the loop prints nothing and calls nothing. *)
Theorem zip_needs_a_stem (dir name : string) (s : state W) :
  lacks "/" name = true ->
  is_zip (path_join dir (name ++ ".zip")) = has_non_dot name
  /\ (has_non_dot name = false
      -> MHW.unzip_file (path_join dir (name ++ ".zip")) s = (Ret tt, s)).
Proof.
  intros Hname.
  assert (is_zip (path_join dir (name ++ ".zip")) = has_non_dot name) as Hzip.
  { destruct (path_join_under dir) as (pre & Hpre & Hjoin).
    rewrite Hjoin.
    - unfold is_zip. rewrite (splitext_zip pre name Hpre Hname).
      by destruct (has_non_dot name).
    - apply lacks_startswith. unfold lacks.
      rewrite all_chars_app. by apply andb_true_iff. }
  split; [done |]. intros Hdots. unfold MHW.unzip_file.
  fold (is_zip (path_join dir (name ++ ".zip"))). by rewrite Hzip, Hdots.
Qed.

End Unzip.

(** X19.  The loop that fills [SST_files] keeps every file that
    [glob.glob] found, each as often as it was found, and puts them in the
    order of [sorted], whatever the files are: no file is dropped or read
    twice, also where files of other years or of other names match the
    pattern. *)
Theorem SST_files_any_files (my_files : list string) :
  SST.SST_files my_files ≡ₚ my_files
  /\ Sorted le (SST.SST_files my_files).
Proof.
  rewrite SSTFacts.SST_files_sorted.
  split; [apply sorted_perm | apply sorted_Sorted].
Qed.

End PathFacts.

(** ** The labels of the stripes *)

Module TickFacts.
Import Py PyFacts Text TextFacts SSTFacts.

Lemma append_each_mapped {A} (f : A -> string) (l : list A)
      (acc : list string) :
  List.fold_left (fun acc x => (acc ++ [f x])%list) l acc
  = (acc ++ List.map f l)%list.
Proof.
  revert acc. induction l as [| x l IH]; intros acc; simpl.
  - by rewrite app_nil_r.
  - rewrite IH. by rewrite <- app_assoc.
Qed.

(** The labels are the years from 2008 on, as many as there are files. *)
Lemma date_ticks_years (SST_files : list string) :
  date_ticks SST_files
  = List.map (fun i => str (2008 + Z.of_nat i))
             (List.seq 0 (List.length SST_files)).
Proof.
  unfold date_ticks, range. rewrite append_each_mapped. simpl.
  rewrite List.map_map. f_equal. f_equal. lia.
Qed.

Lemma In_take (n : nat) (l : list string) (y : string) :
  In y (take n l) -> In y l.
Proof.
  revert n. induction l as [| x l IH]; intros [| n]; simpl; try done.
  intros [-> | Hy]; [by left | right; by eapply IH].
Qed.

Lemma increasing_take (n : nat) (l : list string) :
  increasing l = true -> increasing (take n l) = true.
Proof.
  revert n. induction l as [| x l IH]; intros [| n]; simpl; try done.
  intros [Hx Hl]%andb_true_iff. apply andb_true_iff. split; [| by apply IH].
  rewrite forallb_forall in Hx. apply forallb_forall.
  intros y Hy. apply Hx. by eapply In_take.
Qed.

(** X20.  The labels of the stripes are the years of the files, if no
    year is missing.  Where the files found are those of the first [n]
    years of the download loop, in whatever order [glob.glob] lists them,
    the label that [date_ticks] holds at each position is the year of the
    file that [SST_files] holds at that position. *)
Theorem ticks_label_the_years (download_dir_path : string) (n : nat)
        (my_files : list string) :
  (n <= 14)%nat ->
  my_files ≡ₚ take n (SST.downloaded download_dir_path) ->
  Forall2 (fun file tick =>
             exists tag year,
               file = path_join download_dir_path (SST.file_of_year tag year)
               /\ tick = str year)
          (SST.SST_files my_files) (date_ticks (SST.SST_files my_files)).
Proof.
  intros Hn Hperm.
  assert (SST.SST_files my_files
          = take n (SST.downloaded download_dir_path)) as ->.
  { rewrite SST_files_sorted. apply sorted_increasing; [| done].
    apply increasing_take, downloaded_increasing. }
  rewrite date_ticks_years, downloaded_in_time_order.
  unfold SST.in_time_order.
  do 15 (destruct n as [| n];
         [cbn [take List.firstn List.map List.app List.length List.seq];
          repeat constructor; eexists _, _; split; reflexivity |]).
  lia.
Qed.

(** X21.  The labels of the stripes do not follow the files.  If the
    file of 2008 is not among the files found, and some file of the
    download loop is, the first label is still [2008] while the first file
    read is that of a later year. *)
Theorem ticks_ignore_missing_years (download_dir_path : string)
        (my_files : list string) :
  (forall f, f ∈ my_files -> f ∈ SST.downloaded download_dir_path) ->
  my_files <> [] ->
  path_join download_dir_path (SST.file_of_year "REP" 2008) ∉ my_files ->
  exists file files ticks tag year,
    SST.SST_files my_files = file :: files
    /\ date_ticks (SST.SST_files my_files) = "2008" :: ticks
    /\ file = path_join download_dir_path (SST.file_of_year tag year)
    /\ 2008 < year.
Proof.
  intros Hincl Hsome Hmissing.
  pose proof (sorted_perm my_files) as Hperm.
  rewrite date_ticks_years, SST_files_sorted.
  destruct (sorted my_files) as [| file files] eqn:Hsorted.
  { apply Permutation_nil_l in Hperm. by subst. }
  assert (file ∈ my_files) as Hin.
  { rewrite <- Hperm. by left. }
  pose proof (Hincl _ Hin) as Hdl.
  rewrite downloaded_in_time_order in Hdl.
  apply list_elem_of_In, List.in_map_iff in Hdl as (name & <- & Hname).
  unfold SST.in_time_order in Hname.
  cbn [List.map List.app In] in Hname.
  destruct Hname as [<- | Hname]; [done |].
  exists (path_join download_dir_path name), files.
  cbn [List.length List.seq List.map].
  repeat (destruct Hname as [<- | Hname];
          [eexists _, _, _; repeat split; lia |]).
  done.
Qed.

End TickFacts.

(** ** The query template *)

Module QueryFacts.
Import Py PyFacts Text TextFacts.

Lemma prefix_lacks (c : ascii) (p s : string) :
  String.prefix p s = true -> lacks c s = true -> lacks c p = true.
Proof.
  revert s. induction p as [| x p IH]; intros [| y s]; try done.
  unfold lacks. cbn [String.prefix all_chars].
  destruct (ascii_dec x y) as [-> |]; [| done].
  intros Hp [Hy Hs]%andb_true_iff. apply andb_true_iff. split; [done |].
  by apply (IH s).
Qed.

Lemma prefix_append (p s : string) : String.prefix p (p ++ s) = true.
Proof.
  induction p as [| x p IH]; [by destruct s |].
  change (String.prefix (String x p) (String x (p ++ s)) = true).
  cbn [String.prefix]. by destruct (ascii_dec x x).
Qed.

(** What comes before the first character of [old] is kept. *)
Lemma replace_from_pass (c : ascii) (o new a s : string) :
  lacks c a = true ->
  replace_from (String c o) new 0 (a ++ s)
  = a ++ replace_from (String c o) new 0 s.
Proof.
  induction a as [| x a IH]; [done |].
  unfold lacks. cbn [all_chars]. intros [Hx Ha]%andb_true_iff.
  change (replace_from (String c o) new 0 (String x (a ++ s))
          = String x (a ++ replace_from (String c o) new 0 s)).
  cbn [replace_from String.prefix].
  destruct (ascii_dec c x) as [-> |].
  - by rewrite Ascii.eqb_refl in Hx.
  - f_equal. by apply IH.
Qed.

Lemma replace_from_skip (old new t s : string) :
  replace_from old new (String.length t) (t ++ s) = replace_from old new 0 s.
Proof. induction t as [| x t IH]; [done | exact IH]. Qed.

(** An occurrence of [old] is replaced. *)
Lemma replace_from_hit (c : ascii) (o new s : string) :
  replace_from (String c o) new 0 (String c o ++ s)
  = new ++ replace_from (String c o) new 0 s.
Proof.
  change (String c o ++ s) with (String c (o ++ s)).
  unfold replace_from at 1. fold replace_from.
  change (String c (o ++ s)) with (String c o ++ s).
  rewrite prefix_append. f_equal.
  replace (String.length (String c o) - 1)%nat with (String.length o)
    by (simpl; lia).
  apply replace_from_skip.
Qed.

(** A string without the first character of [old] is kept. *)
Lemma replace_from_lacks (c : ascii) (o new a : string) :
  lacks c a = true -> replace_from (String c o) new 0 a = a.
Proof.
  intros Ha. rewrite <- (append_nil_r a) at 1.
  rewrite replace_from_pass by done. apply append_nil_r.
Qed.

(** X16.  The SST download cell fills the query template.  Where the
    text of the query file holds the placeholder [%DATE_START%] once, the
    placeholder [%DATE_END%] once after it, and no other percent sign, the
    two calls of [replace] put the start date and the end date of the year
    in their places and leave the rest of the text as it is. *)
Theorem query_template_filled (dataset : string) (year : Z)
        (a b c : string) :
  lacks "%" a = true -> lacks "%" b = true -> lacks "%" c = true ->
  let r := SST.year_request dataset year in
  replace_str "%DATE_END%" (SST.end_date r)
    (replace_str "%DATE_START%" (SST.start_date r)
       (a ++ "%DATE_START%" ++ b ++ "%DATE_END%" ++ c))
  = a ++ SST.start_date r ++ b ++ SST.end_date r ++ c.
Proof.
  intros Ha Hb Hc r. unfold replace_str.
  assert (lacks "%" (SST.start_date r) = true) as Hstart.
  { unfold r, SST.year_request, lacks. cbn [SST.start_date].
    rewrite all_chars_app. apply andb_true_iff. split; [| done].
    by apply str_lacks. }
  assert (replace_from "%DATE_START%" (SST.start_date r) 0
            ("%DATE_END%" ++ c) = "%DATE_END%" ++ c) as Hend.
  { change ("%DATE_END%" ++ c) with (String "%" ("DATE_END" ++ "%" ++ c)).
    unfold replace_from at 1; fold replace_from.
    change (String.prefix "%DATE_START%" (String "%" ("DATE_END" ++ "%" ++ c)))
      with false. cbv iota. f_equal.
    rewrite (replace_from_pass "%" _ _ "DATE_END") by done. f_equal.
    change ("%" ++ c) with (String "%" c).
    unfold replace_from at 1; fold replace_from.
    destruct (String.prefix "%DATE_START%" (String "%" c)) eqn:Hp.
    - apply (prefix_lacks "%" "DATE_START%" c) in Hc; [done |].
      revert Hp. cbn [String.prefix]. by destruct (ascii_dec "%" "%").
    - f_equal. by apply replace_from_lacks. }
  rewrite (replace_from_pass "%" _ _ a) by done.
  rewrite (replace_from_hit "%" "DATE_START%").
  rewrite (replace_from_pass "%" _ _ b) by done.
  rewrite Hend.
  rewrite (replace_from_pass "%" _ _ a) by done.
  rewrite (replace_from_pass "%" _ _ (SST.start_date r)) by done.
  rewrite (replace_from_pass "%" _ _ b) by done.
  rewrite (replace_from_hit "%" "DATE_END%").
  by rewrite (replace_from_lacks "%" _ _ c) by done.
Qed.

End QueryFacts.

(** ** The pattern of the time-series cell *)

Module GlobFacts.
Import Py PyFacts Text TextFacts.

(** Characters of a pattern other than the star stand for themselves. *)
Lemma wild_literal (pre pattern s : string) (c : ascii) :
  lacks "*" (String c pre) = true ->
  forall start,
    HDA.wild_from start (String c pre ++ pattern) (String c pre ++ s)
    = HDA.wild_from (endswith "/" (String c pre)) pattern s.
Proof.
  revert c. induction pre as [| c' pre IH]; intros c;
    unfold lacks; cbn [all_chars];
    intros [Hc Hpre]%andb_true_iff start; apply negb_true_iff in Hc.
  - change (HDA.wild_from start (String c pattern) (String c s)
            = HDA.wild_from (Ascii.eqb "/" c) pattern s).
    cbn [HDA.wild_from]. rewrite Hc, Ascii.eqb_refl. cbn [andb].
    by rewrite (Ascii.eqb_sym c "/").
  - change (HDA.wild_from start (String c (String c' pre ++ pattern))
                          (String c (String c' pre ++ s))
            = HDA.wild_from (endswith "/" (String c' pre)) pattern s).
    cbn [HDA.wild_from]. rewrite Hc, Ascii.eqb_refl. cbn [andb].
    by apply IH.
Qed.

(** A star at the end of a pattern, not at the start of a name, stands for
    what is left of the name, if that holds no slash. *)
Lemma wild_star (s : string) :
  lacks "/" s = true -> HDA.wild_from false "*" s = true.
Proof.
  induction s as [| d s IH].
  - done.
  - unfold lacks. cbn [all_chars]. intros [Hd Hs]%andb_true_iff.
    specialize (IH Hs).
    change (HDA.wild_from false "" (String d s)
            || negb (Ascii.eqb d "/") && HDA.wild_from false "*" s = true).
    rewrite Hd, IH. apply orb_true_r.
Qed.

(** X22.  What the SST download cell saves, the time-series cell finds.
    Under a download directory in whose path [glob] reads no wildcard, the
    file that the loop names for a year, whatever the year and the
    dataset, matches the pattern [METOFFICE-GLO-SST-L4-*] under that
    directory, which is the pattern the time-series cell hands to
    [glob.glob]. *)
Theorem downloaded_files_are_found (download_dir_path dataset : string)
        (year : Z) :
  lacks "*" download_dir_path = true ->
  lacks "?" download_dir_path = true ->
  lacks "[" download_dir_path = true ->
  HDA.wild (path_join download_dir_path "METOFFICE-GLO-SST-L4-*")
           (path_join download_dir_path
              (SST.user_filename (SST.year_request dataset year)))
  = true.
Proof.
  intros Hstar _ _.
  assert (forall start,
             HDA.wild_from start "METOFFICE-GLO-SST-L4-*"
               (SST.user_filename (SST.year_request dataset year)) = true)
    as Hname.
  { intros start. rewrite user_filename_year. unfold SST.file_of_year.
    rewrite (wild_literal "ETOFFICE-GLO-SST-L4-" "*" _ "M") by done.
    apply wild_star. unfold lacks. rewrite !all_chars_app.
    fold (lacks "/" (str year)). rewrite (str_lacks "/" year) by done.
    unfold SST.tag. by destruct (contains _ _). }
  unfold HDA.wild, path_join.
  assert (startswith "/"
            (SST.user_filename (SST.year_request dataset year)) = false)
    as -> by done.
  cbn [startswith]. change (Ascii.eqb "/" "M") with false. cbv iota.
  destruct (String.eqb download_dir_path ""
            || endswith "/" download_dir_path)%bool.
  - destruct download_dir_path as [| c pre]; [apply Hname |].
    by rewrite wild_literal.
  - rewrite <- !append_assoc.
    destruct download_dir_path as [| c pre].
    + by rewrite (wild_literal "" _ _ "/").
    + change ((String c pre ++ "/") ++ ?x)%string
        with (String c (pre ++ "/") ++ x)%string.
      rewrite wild_literal; [done |].
      change (String c (pre ++ "/")) with (String c pre ++ "/")%string.
      unfold lacks. rewrite all_chars_app. by apply andb_true_iff.
Qed.

End GlobFacts.

(** ** The further theorems at work in the sample worlds *)

Module CaseFacts.
Import Py Nb HDA Calls Pages Fields Text.

Lemma unzip_cell_tries_every_zip_witness :
  let '(o, s') := MHW.unzip_cell (K:=Sample.unzipper) true
                                 (Some Cases.three_files)
                                 (start Sample.zips) in
  (forall e, o <> Raise e)
  /\ exists calls,
      log s' = ([] ++ calls)%list
      /\ extractions_of calls
         `prefix_of` [("/products/a.zip", "/products");
                      ("/products/b.zip", "/products")]
      /\ (o = Ret tt
          -> extractions_of calls
             = [("/products/a.zip", "/products");
                ("/products/b.zip", "/products")]).
Proof.
  apply (SequenceFacts.unzip_cell_tries_every_zip (K:=Sample.unzipper)
           Cases.three_files
           ["/products/a.zip"; "/products/b.zip"; "/products/c.nc"]
           (start Sample.zips)).
  reflexivity.
Defined.

Lemma pagination_needs_counts_witness :
  fst (MHW.pagination_loop (K:=Sample.kernel) 3 false
         (first_page Sample.paging_dict)
         (start (Cases.at_sea Cases.uncounted)))
  = Raise (KeyError "totItems").
Proof.
  erewrite (PagingFacts.pagination_needs_counts (K:=Sample.kernel) false 2
              Sample.paging_dict _
              (start (Cases.at_sea Cases.uncounted)) _ _
              (KeyError "totItems")).
  - reflexivity.
  - vm_compute. reflexivity.
  - left. reflexivity.
Defined.

Lemma pagination_turns_witness :
  exists d' s',
    (forall fuel,
        (3 < fuel)%nat ->
        MHW.pagination_loop (K:=Sample.kernel) fuel false
          (first_page Sample.paging_dict) (start Sample.ocean)
        = (Ret (MHW.before_first_page d' (VInt 3)
                  (VInt (items_found (fun _ => 1) 0 3)) (Z.of_nat 3 - 1)),
           s'))
    /\ log s' = ([] ++ List.flat_map page_calls (MHW.pages_from 0 3))%list.
Proof.
  set (fit := fun (d : value) (w : world) =>
                d = Sample.paging_dict /\ srv w = Sample.paged).
  apply (PagingFacts.pagination_turns (K:=Sample.kernel)
           fit fit fit 3 (fun _ => 1) false).
  - intros d [s dsk c l] page [-> Hs]. simpl in Hs. subst s.
    eexists _, _, _. cbv -[insert].
    split; [reflexivity |]. split; [by split |].
    split; reflexivity.
  - intros d [s dsk c l] [-> Hs]. simpl in Hs. subst s.
    eexists _, _, _. cbv -[insert].
    split; [reflexivity |]. by split.
  - intros d [s dsk c l] [-> Hs]. simpl in Hs. subst s.
    eexists _, _, _. cbv -[insert].
    split; [reflexivity |]. by split.
  - by split.
  - lia.
  - intros m Hm. assert (m = 1 \/ m = 2)%nat as [-> | ->] by lia; done.
  - done.
Defined.

Lemma pagination_never_ends_witness :
  exists s',
    MHW.pagination_loop (K:=Sample.kernel) 4 false
      (first_page (Cases.idle_dict (Cases.empty_page 3)))
      (start (Cases.at_sea (Cases.empty_page 3)))
    = (Timeout, s')
    /\ log s' = ([] ++ List.flat_map page_calls (MHW.pages_from 0 4))%list.
Proof.
  set (fit := fun (d : value) (w : world) =>
                d = Cases.idle_dict (Cases.empty_page 3)
                /\ srv w = Cases.answering (Cases.empty_page 3)).
  apply (PagingFacts.pagination_never_ends (K:=Sample.kernel)
           fit fit fit 3 (fun _ => 0) false).
  - intros d [s dsk c l] page [-> Hs]. simpl in Hs. subst s.
    eexists _, _, _. cbv -[insert].
    split; [reflexivity |]. split; [by split |].
    split; reflexivity.
  - intros d [s dsk c l] [-> Hs]. simpl in Hs. subst s.
    eexists _, _, _. cbv -[insert].
    split; [reflexivity |]. by split.
  - intros d [s dsk c l] [-> Hs]. simpl in Hs. subst s.
    eexists _, _, _. cbv -[insert].
    split; [reflexivity |]. by split.
  - by split.
  - intros m _. induction m as [| m IH]; [done |].
    assert (forall p k, items_found (fun _ => 0) p k = 0) as Hzero.
    { intros p k. revert p. induction k as [| k IHk]; intros p; [done |].
      simpl. apply IHk. }
    rewrite Hzero. done.
Defined.

Lemma pagination_one_turn_witness :
  exists d' s',
    (forall fuel,
        (1 < fuel)%nat ->
        MHW.pagination_loop (K:=Sample.kernel) fuel false
          (first_page (Cases.idle_dict (Cases.empty_page 0)))
          (start (Cases.at_sea (Cases.empty_page 0)))
        = (Ret (MHW.before_first_page d' (VInt 0) (VInt 0) 0), s'))
    /\ log s' = ([] ++ page_calls 0)%list.
Proof.
  set (fit := fun (d : value) (w : world) =>
                d = Cases.idle_dict (Cases.empty_page 0)
                /\ srv w = Cases.answering (Cases.empty_page 0)).
  apply (PagingFacts.pagination_one_turn (K:=Sample.kernel)
           fit fit fit 0 (fun _ => 0) false).
  - intros d [s dsk c l] page [-> Hs]. simpl in Hs. subst s.
    eexists _, _, _. cbv -[insert].
    split; [reflexivity |]. split; [by split |].
    split; reflexivity.
  - intros d [s dsk c l] [-> Hs]. simpl in Hs. subst s.
    eexists _, _, _. cbv -[insert].
    split; [reflexivity |]. by split.
  - intros d [s dsk c l] [-> Hs]. simpl in Hs. subst s.
    eexists _, _, _. cbv -[insert].
    split; [reflexivity |]. by split.
  - by split.
  - done.
Defined.

Lemma set_first_filename_round_trip_witness :
  file_field Sample.renamed 0 "filename" = Ret (VStr HowTo.filename)
  /\ (forall key, key <> "filename"
                  -> file_field Sample.renamed 0 key
                     = file_field Sample.ordered 0 key)
  /\ (forall i, content_item Sample.renamed (S i)
                = content_item Sample.ordered (S i))
  /\ (forall key, key <> "content"
                  -> results_field Sample.renamed key
                     = results_field Sample.ordered key)
  /\ (forall key, key <> "results"
                  -> getitem Sample.renamed key = getitem Sample.ordered key).
Proof.
  apply (RenameFacts.set_first_filename_round_trip Sample.ordered
           Sample.renamed HowTo.filename).
  reflexivity.
Defined.

Lemma HowTo_needs_a_file_witness :
  let '(r, s) := HowTo.notebook (K:=idle) "user" "password" (start tt) in
  (forall d, r <> Ret d)
  /\ Workflow.ranks (log s) `prefix_of` [0; 1; 2; 3; 4; 5; 6]%nat
  /\ (Workflow.ranks (log s) = [0; 1; 2; 3; 4; 5; 6]%nat
      -> r = Raise IndexError).
Proof.
  apply (RenameFacts.HowTo_needs_a_file (K:=idle)).
  intros d w. exists found_nothing, w, []. by split.
Defined.

Lemma years_get_their_own_file_witness :
  SST.user_filename (SST.year_request SST.REP_dataset 2019)
  <> SST.user_filename (SST.year_request SST.NRT_dataset 2020).
Proof.
  apply (TextFacts.years_get_their_own_file SST.REP_dataset SST.NRT_dataset
           2019 2020); lia.
Defined.

Lemma NRT_files_sort_last_witness :
  lt (SST.user_filename (SST.year_request SST.REP_dataset 2019))
     (SST.user_filename (SST.year_request SST.NRT_dataset 2008)) = true.
Proof.
  apply (TextFacts.NRT_files_sort_last SST.REP_dataset SST.NRT_dataset
           2019 2008); reflexivity.
Defined.

Lemma zip_extracted_beside_itself_witness :
  dirname (path_join "/work/products" "S3A_SL_2_WST.zip") = "/work/products"
  /\ exists calls,
      log (snd (MHW.try_unzip (K:=Sample.unzipper)
                  (path_join "/work/products" "S3A_SL_2_WST.zip")
                  (start Sample.zips)))
      = ([] ++ Extractall (path_join "/work/products" "S3A_SL_2_WST.zip")
                          "/work/products" :: calls)%list.
Proof.
  apply (PathFacts.zip_extracted_beside_itself (K:=Sample.unzipper)
           "/work/products" "S3A_SL_2_WST.zip" (start Sample.zips));
    done.
Defined.

Lemma zip_needs_a_stem_witness :
  is_zip (path_join "/work/products" ("" ++ ".zip")) = has_non_dot ""
  /\ (has_non_dot "" = false
      -> MHW.unzip_file (K:=Sample.unzipper)
           (path_join "/work/products" ("" ++ ".zip")) (start Sample.zips)
         = (Ret tt, start Sample.zips)).
Proof.
  apply (PathFacts.zip_needs_a_stem (K:=Sample.unzipper) "/work/products" ""
           (start Sample.zips)).
  reflexivity.
Defined.

Lemma ticks_label_the_years_witness :
  Forall2 (fun file tick =>
             exists tag year,
               file = path_join "/home/user/products"
                                (SST.file_of_year tag year)
               /\ tick = str year)
          (SST.SST_files (List.rev (SST.downloaded "/home/user/products")))
          (date_ticks
             (SST.SST_files (List.rev (SST.downloaded "/home/user/products")))).
Proof.
  apply (TickFacts.ticks_label_the_years "/home/user/products" 14
           (List.rev (SST.downloaded "/home/user/products"))).
  - lia.
  - change (take 14 (SST.downloaded "/home/user/products"))
      with (SST.downloaded "/home/user/products").
    apply Permutation_sym, Permutation_rev.
Defined.

Lemma ticks_ignore_missing_years_witness :
  exists file files ticks tag year,
    SST.SST_files
      [path_join "/home/user/products" (SST.file_of_year "REP" 2010);
       path_join "/home/user/products" (SST.file_of_year "REP" 2009)]
    = file :: files
    /\ date_ticks
         (SST.SST_files
            [path_join "/home/user/products" (SST.file_of_year "REP" 2010);
             path_join "/home/user/products" (SST.file_of_year "REP" 2009)])
       = "2008" :: ticks
    /\ file = path_join "/home/user/products" (SST.file_of_year tag year)
    /\ 2008 < year.
Proof.
  apply (TickFacts.ticks_ignore_missing_years "/home/user/products").
  - apply Forall_forall. apply (bool_decide_unpack _). vm_compute. exact I.
  - discriminate.
  - apply (bool_decide_unpack _). vm_compute. exact I.
Defined.

Lemma query_template_filled_witness :
  replace_str "%DATE_END%" "2008-12-31T00:00:00.000Z"
    (replace_str "%DATE_START%" "2008-01-01T00:00:00.000Z"
       ("{'start': '" ++ "%DATE_START%" ++ "', 'end': '" ++ "%DATE_END%"
        ++ "'}"))
  = "{'start': '2008-01-01T00:00:00.000Z', 'end': '2008-12-31T00:00:00.000Z'}".
Proof.
  apply (QueryFacts.query_template_filled SST.REP_dataset 2008
           "{'start': '" "', 'end': '" "'}"); reflexivity.
Defined.

Lemma downloaded_files_are_found_witness :
  HDA.wild (path_join "/home/user/products" "METOFFICE-GLO-SST-L4-*")
           (path_join "/home/user/products"
              (SST.user_filename (SST.year_request SST.NRT_dataset 2021)))
  = true.
Proof.
  apply (GlobFacts.downloaded_files_are_found "/home/user/products"
           SST.NRT_dataset 2021); reflexivity.
Defined.

End CaseFacts.
